(** * Claude Code telemetry bridge: event and metric processors

    A shallow embedding of [src/eventProcessor.js], [src/metricsProcessor.js]
    and of the session-key helper exercised in [test/helpers.test.js],
    together with the part of the JavaScript run-time these functions rely on
    (truthiness, [||], [parseInt], [parseFloat], numeric coercion, [Date]).
    The duration statistics and the port check of [test/helpers.test.js],
    the port allocation of [test/testServer.js] and the port matcher of
    [test/setup.js] are embedded as well.

    Conventions of the embedding:
    - a JavaScript number is an exact rational, [NaN] or a signed infinity:
      rounding to binary64 and the sign of zero are not represented;
    - a string is a sequence of code units, one [ascii] each;
    - an object literal is an association list in insertion order;
    - the session object is a record, the methods of [sessionHandler.js]
      (which the processors only call) are the fields of a class;
    - statements run in a state monad over the session and the calls made
      on the Langfuse client, with exceptions that keep the state reached. *)

From Stdlib Require Import ZArith QArith Qround Qabs String Ascii List Bool Lia
  Sorted.
From stdpp Require Import base gmap strings.

Open Scope Z_scope.

(** ** JavaScript numbers *)

Module JsNumber.

Inductive number :=
| NaN
| Infinity (negative : bool)
| Num (q : Q).

Definition ofZ (z : Z) : number := Num (inject_Z z).

(** [ToBoolean] on numbers: zero and [NaN] are falsy. *)
Definition truthy (n : number) : bool :=
  match n with
  | NaN => false
  | Infinity _ => true
  | Num q => negb (Qeq_bool q 0)
  end.

Definition isNegative (q : Q) : bool := Qnum q <? 0.

Definition add (x y : number) : number :=
  match x, y with
  | NaN, _ | _, NaN => NaN
  | Infinity a, Infinity b => if Bool.eqb a b then Infinity a else NaN
  | Infinity a, Num _ => Infinity a
  | Num _, Infinity b => Infinity b
  | Num a, Num b => Num (Qred (a + b))
  end.

Definition div (x y : number) : number :=
  match x, y with
  | NaN, _ | _, NaN => NaN
  | Infinity _, Infinity _ => NaN
  | Infinity a, Num b => Infinity (xorb a (isNegative b))
  | Num _, Infinity _ => Num 0
  | Num a, Num b =>
      if Qeq_bool b 0 then
        if Qeq_bool a 0 then NaN else Infinity (isNegative a)
      else Num (Qred (a / b))
  end.

(** [x <= y] as JavaScript evaluates it: false as soon as a [NaN] is involved. *)
Definition le (x y : number) : bool :=
  match x, y with
  | NaN, _ | _, NaN => false
  | Infinity a, Infinity b => implb b a
  | Infinity a, Num _ => a
  | Num _, Infinity b => negb b
  | Num a, Num b => Qle_bool a b
  end.

(** Truncation toward zero ([ToIntegerOrInfinity] on a finite number). *)
Definition truncate (q : Q) : Z := Z.quot (Qnum q) (Z.pos (Qden q)).

(** Leading decimal digit of a positive integer. *)
Fixpoint leadingDigitFuel (fuel : nat) (n : Z) : Z :=
  match fuel with
  | O => n
  | S fuel' => if n <? 10 then n else leadingDigitFuel fuel' (n / 10)
  end.

Definition leadingDigit (n : Z) : Z :=
  leadingDigitFuel (S (Z.to_nat (Z.log2 n))) n.

(** First significant digit of a rational in (0, 1): scale by ten until the
    integer part is positive. *)
Fixpoint firstSignificantFuel (fuel : nat) (num den : Z) : Z :=
  match fuel with
  | O => 0
  | S fuel' =>
      if den <=? num * 10 then (num * 10) / den
      else firstSignificantFuel fuel' (num * 10) den
  end.

Definition firstSignificant (q : Q) : Z :=
  firstSignificantFuel (S (Z.to_nat (Z.log2 (Z.pos (Qden q))))) (Qnum q) (Z.pos (Qden q)).

Definition pow10 (n : Z) : Z := 10 ^ n.

(** [parseInt(x, 10)] when [x] is a number: the number is first printed.
    Between 1e-6 and 1e21 the print is positional and the integer part is
    read back; outside, the print is in exponent form ([d.ddde+21],
    [d.ddde-7]) and only the leading digit is read. *)
Definition parseIntOfNumber (n : number) : number :=
  match n with
  | NaN | Infinity _ => NaN
  | Num q =>
      let a := Qabs q in
      let sign := if isNegative q then (-1) else 1 in
      if Qeq_bool q 0 then Num 0
      else if Qle_bool (inject_Z (pow10 21)) a
           then ofZ (sign * leadingDigit (truncate a))
      else if Qle_bool (1 # 1000000) a
           then ofZ (truncate q)
      else ofZ (sign * firstSignificant a)
  end.

End JsNumber.

Export JsNumber.

(** ** JavaScript values and strings *)

Module JsValue.

#[local] Set Warnings "-register-all".

Inductive JsVal :=
| JUndefined
| JNull
| JBool (b : bool)
| JNum (n : number)
| JStr (s : string)
| JObj (fields : list (string * JsVal)).

(** [ToBoolean]. *)
Definition truthy (v : JsVal) : bool :=
  match v with
  | JUndefined | JNull => false
  | JBool b => b
  | JNum n => JsNumber.truthy n
  | JStr s => negb (String.eqb s "")
  | JObj _ => true
  end.

(** [a || b]: the first operand when it is truthy, the second otherwise. *)
Definition js_or (a b : JsVal) : JsVal := if truthy a then a else b.

(** [a === b] against a primitive; two object operands are different
    references in every comparison the processors make. *)
Definition strictEquals (a b : JsVal) : bool :=
  match a, b with
  | JUndefined, JUndefined | JNull, JNull => true
  | JBool x, JBool y => Bool.eqb x y
  | JNum (Num x), JNum (Num y) => Qeq_bool x y
  | JNum (Infinity x), JNum (Infinity y) => Bool.eqb x y
  | JStr x, JStr y => String.eqb x y
  | _, _ => false
  end.

(** Property read on an object literal. *)
Fixpoint getField (fields : list (string * JsVal)) (key : string) : JsVal :=
  match fields with
  | [] => JUndefined
  | (k, v) :: rest => if String.eqb k key then v else getField rest key
  end.

Definition get (o : JsVal) (key : string) : JsVal :=
  match o with
  | JObj fields => getField fields key
  | _ => JUndefined
  end.

(** Property write inside an object literal: an existing key keeps its
    position and takes the new value, a new key goes last. *)
Fixpoint setField (fields : list (string * JsVal)) (key : string) (v : JsVal)
  : list (string * JsVal) :=
  match fields with
  | [] => [(key, v)]
  | (k, old) :: rest =>
      if String.eqb k key then (k, v) :: rest else (k, old) :: setField rest key v
  end.

(** [{ ...a, ...b }]: the fields of [b] written one by one over [a]. *)
Definition spread (a b : list (string * JsVal)) : list (string * JsVal) :=
  fold_left (fun acc kv => setField acc (fst kv) (snd kv)) b a.

End JsValue.

Export JsValue.

Notation "a <||> b" := (js_or a b) (at level 50, left associativity).

Module JsString.

Definition code (c : ascii) : N := N_of_ascii c.

Definition isDigit (c : ascii) : bool :=
  ((48 <=? code c) && (code c <=? 57))%N.

Definition isUpper (c : ascii) : bool :=
  ((65 <=? code c) && (code c <=? 90))%N.

Definition isLower (c : ascii) : bool :=
  ((97 <=? code c) && (code c <=? 122))%N.

Definition digitValue (c : ascii) : Z := Z.of_N (code c) - 48.

(** White space and line terminators that fit one code unit below 256. *)
Definition isWhiteSpace (c : ascii) : bool :=
  let n := code c in
  ((n =? 9) || (n =? 10) || (n =? 11) || (n =? 12) || (n =? 13)
   || (n =? 32) || (n =? 160))%N.

Fixpoint skipWhiteSpace (s : string) : string :=
  match s with
  | String c rest => if isWhiteSpace c then skipWhiteSpace rest else s
  | EmptyString => s
  end.

Fixpoint allWhiteSpace (s : string) : bool :=
  match s with
  | String c rest => isWhiteSpace c && allWhiteSpace rest
  | EmptyString => true
  end.

(** Longest run of decimal digits: its value, its length, what follows. *)
Fixpoint readDigits (s : string) (acc : Z) (count : nat) : Z * nat * string :=
  match s with
  | String c rest =>
      if isDigit c then readDigits rest (acc * 10 + digitValue c) (S count)
      else (acc, count, s)
  | EmptyString => (acc, count, s)
  end.

Definition readSign (s : string) : bool * string :=
  match s with
  | String "-" rest => (true, rest)
  | String "+" rest => (false, rest)
  | _ => (false, s)
  end.

(** [parseInt(s, 10)]: leading white space, a sign, then digits up to the
    first other character; no digit at all gives [NaN]. With the radix given
    no [0x] prefix is recognised. *)
Definition parseIntOfString (s : string) : number :=
  let '(negative, s1) := readSign (skipWhiteSpace s) in
  let '(value, count, _) := readDigits s1 0 0 in
  if Nat.eqb count 0 then NaN
  else ofZ (if negative then - value else value).

Definition scale10 (mantissa exponent : Z) : Q :=
  if 0 <=? exponent then inject_Z (mantissa * 10 ^ exponent)
  else Qred (mantissa # Z.to_pos (10 ^ (- exponent))).

(** Exponent part [e], [e+] or [e-] followed by at least one digit. *)
Definition readExponent (s : string) : Z * string :=
  match s with
  | String c rest =>
      if Ascii.eqb c "e" || Ascii.eqb c "E" then
        let '(negative, r1) := readSign rest in
        let '(e, count, r2) := readDigits r1 0 0 in
        if Nat.eqb count 0 then (0, s)
        else ((if negative then - e else e), r2)
      else (0, s)
  | EmptyString => (0, s)
  end.

(** Unsigned decimal literal ([12], [12.5], [12.], [.5], each with an
    optional exponent) at the front of [s]. *)
Definition readDecimal (s : string) : option (Q * string) :=
  let '(ip, ni, r1) := readDigits s 0 0 in
  let '(fp, nf, r2) :=
    match r1 with
    | String "." rest => readDigits rest 0 0
    | _ => (0, O, r1)
    end in
  if Nat.eqb (ni + nf) 0 then None
  else
    let '(e, r3) := readExponent r2 in
    Some (scale10 (ip * 10 ^ Z.of_nat nf + fp) (e - Z.of_nat nf), r3).

Definition startsWith (s p : string) : bool := String.prefix p s.

Definition dropN (n : nat) (s : string) : string :=
  String.substring n (String.length s - n) s.

(** [parseFloat(s)]. *)
Definition parseFloatOfString (s : string) : number :=
  let '(negative, s1) := readSign (skipWhiteSpace s) in
  if startsWith s1 "Infinity" then Infinity negative
  else match readDecimal s1 with
       | Some (q, _) => Num (if negative then Qred (- q) else q)
       | None => NaN
       end.

Definition radixDigit (radix : Z) (c : ascii) : option Z :=
  let v :=
    if isDigit c then digitValue c
    else if isLower c then Z.of_N (code c) - 87
    else if isUpper c then Z.of_N (code c) - 55
    else 99 in
  if v <? radix then Some v else None.

(** Digits of a [0x], [0o] or [0b] literal, then only white space. *)
Fixpoint readRadix (radix : Z) (s : string) (acc : Z) (count : nat) : option Z :=
  match s with
  | String c rest =>
      match radixDigit radix c with
      | Some v => readRadix radix rest (acc * radix + v) (S count)
      | None => if allWhiteSpace s && negb (Nat.eqb count 0) then Some acc else None
      end
  | EmptyString => if Nat.eqb count 0 then None else Some acc
  end.

Definition radixPrefix (s : string) : option (Z * string) :=
  match s with
  | String "0" (String c rest) =>
      if Ascii.eqb c "x" || Ascii.eqb c "X" then Some (16, rest)
      else if Ascii.eqb c "o" || Ascii.eqb c "O" then Some (8, rest)
      else if Ascii.eqb c "b" || Ascii.eqb c "B" then Some (2, rest)
      else None
  | _ => None
  end.

(** [ToNumber] on a string: the whole string, white space trimmed, has to
    be one numeric literal; the empty string is 0. *)
Definition stringToNumber (s : string) : number :=
  let s0 := skipWhiteSpace s in
  match s0 with
  | EmptyString => Num 0
  | _ =>
      match radixPrefix s0 with
      | Some (radix, digits) =>
          match readRadix radix digits 0 0 with
          | Some z => ofZ z
          | None => NaN
          end
      | None =>
          let '(negative, s1) := readSign s0 in
          if startsWith s1 "Infinity" then
            if allWhiteSpace (dropN 8 s1) then Infinity negative else NaN
          else match readDecimal s1 with
               | Some (q, rest) =>
                   if allWhiteSpace rest
                   then Num (if negative then Qred (- q) else q)
                   else NaN
               | None => NaN
               end
      end
  end.

End JsString.

Export JsString.

(** ** Coercions used by the processors *)

Definition ToNumber (v : JsVal) : number :=
  match v with
  | JUndefined => NaN
  | JNull => Num 0
  | JBool b => if b then Num 1 else Num 0
  | JNum n => n
  | JStr s => stringToNumber s
  | JObj _ => NaN
  end.

(** [parseInt(v, 10)]: the argument is turned into a string first; the
    prints of [undefined], [null], a boolean or an object start with no
    digit. *)
Definition parseInt (v : JsVal) : number :=
  match v with
  | JStr s => parseIntOfString s
  | JNum n => parseIntOfNumber n
  | _ => NaN
  end.

(** [parseFloat(v)]; a number printed and read back is itself. *)
Definition parseFloat (v : JsVal) : number :=
  match v with
  | JStr s => parseFloatOfString s
  | JNum n => n
  | _ => NaN
  end.

(** [a / b]. *)
Definition js_div (a b : JsVal) : number := JsNumber.div (ToNumber a) (ToNumber b).

(** ** Dates *)

Module JsDate.

(** A [Date] holds a time value in milliseconds since the epoch, or is an
    Invalid Date ([None]). *)
Definition Date := option Z.

Definition msPerDay : Z := 86400000.

Definition maxTime : Z := 8640000000000000.

Definition TimeClip (n : number) : Date :=
  match n with
  | Num q =>
      if Qle_bool (Qabs q) (inject_Z maxTime) then Some (truncate q) else None
  | _ => None
  end.

(** Day number since the epoch of a proleptic Gregorian date; a day past the
    end of its month runs into the next one. *)
Definition daysFromCivil (y m d : Z) : Z :=
  let y' := if m <=? 2 then y - 1 else y in
  let era := y' / 400 in
  let yoe := y' - era * 400 in
  let mp := if 2 <? m then m - 3 else m + 9 in
  let doy := (153 * mp + 2) / 5 + d - 1 in
  let doe := yoe * 365 + yoe / 4 - yoe / 100 + doy in
  era * 146097 + doe - 719468.

(** Year, month and day of a day number. *)
Definition civilFromDays (days : Z) : Z * Z * Z :=
  let z := days + 719468 in
  let era := z / 146097 in
  let doe := z - era * 146097 in
  let yoe := (doe - doe / 1460 + doe / 36524 - doe / 146096) / 365 in
  let doy := doe - (365 * yoe + yoe / 4 - yoe / 100) in
  let mp := (5 * doy + 2) / 153 in
  let d := doy - (153 * mp + 2) / 5 + 1 in
  let m := if mp <? 10 then mp + 3 else mp - 9 in
  let y := yoe + era * 400 in
  (if m <=? 2 then y + 1 else y, m, d).


Definition digitChar (n : Z) : ascii := ascii_of_N (48 + Z.to_N (n mod 10)).

Definition pad2 (n : Z) : string :=
  String (digitChar (n / 10)) (String (digitChar n) "").

Definition pad3 (n : Z) : string := String (digitChar (n / 100)) (pad2 n).

Definition pad4 (n : Z) : string := String (digitChar (n / 1000)) (pad3 n).

Definition pad6 (n : Z) : string :=
  String (digitChar (n / 100000)) (String (digitChar (n / 10000)) (pad4 n)).

(** Four digits for the years 0 to 9999, a sign and six digits otherwise. *)
Definition yearString (y : Z) : string :=
  if (0 <=? y) && (y <=? 9999) then pad4 y
  else
    let sign := if y <? 0 then "-"%char else "+"%char in
    String sign (pad6 (Z.abs y)).

Definition isoOfTime (t : Z) : string :=
  let '(y, m, d) := civilFromDays (t / msPerDay) in
  let ms := t mod msPerDay in
  yearString y +:+ "-" +:+ pad2 m +:+ "-" +:+ pad2 d +:+ "T"
  +:+ pad2 (ms / 3600000) +:+ ":" +:+ pad2 (ms / 60000 mod 60) +:+ ":"
  +:+ pad2 (ms / 1000 mod 60) +:+ "." +:+ pad3 (ms mod 1000) +:+ "Z".

(** [date.toISOString()]: a [RangeError] ([None]) on an Invalid Date. *)
Definition toISOString (d : Date) : option string :=
  match d with
  | Some t => Some (isoOfTime t)
  | None => None
  end.

(** Exactly [n] decimal digits at the front of [s]. *)
Fixpoint readFixed (n : nat) (s : string) (acc : Z) : option (Z * string) :=
  match n with
  | O => Some (acc, s)
  | S n' =>
      match s with
      | String c rest =>
          if isDigit c then readFixed n' rest (acc * 10 + digitValue c) else None
      | EmptyString => None
      end
  end.

Definition expect (c : ascii) (s : string) : option string :=
  match s with
  | String c' rest => if Ascii.eqb c c' then Some rest else None
  | EmptyString => None
  end.

Definition readYear (s : string) : option (Z * string) :=
  match s with
  | String "+" rest => readFixed 6 rest 0
  | String "-" rest =>
      match readFixed 6 rest 0 with
      | Some (y, r) => if y =? 0 then None else Some (- y, r)
      | None => None
      end
  | _ => readFixed 4 s 0
  end.

(** Milliseconds of a fraction: its first three digits. *)
Definition readMillis (s : string) : option (Z * string) :=
  match s with
  | String "." rest =>
      let '(_, count, after) := readDigits rest 0 0 in
      if Nat.eqb count 0 then None
      else
        let '(v, n, _) := readDigits (String.substring 0 3 rest) 0 0 in
        Some (v * 10 ^ (3 - Z.of_nat (Nat.min n 3)), after)
  | _ => Some (0, s)
  end.

(** [Date.parse] on the UTC form of the date-time string format,
    [YYYY-MM-DDTHH:mm:ss.sssZ] with the fraction optional and the year
    possibly expanded: the form [toISOString] prints. Every other string is
    read as an Invalid Date here. *)
Definition parse (s : string) : Date :=
  '(y, s) ← readYear s;
  s ← expect "-" s;
  '(mo, s) ← readFixed 2 s 0;
  s ← expect "-" s;
  '(d, s) ← readFixed 2 s 0;
  s ← expect "T" s;
  '(h, s) ← readFixed 2 s 0;
  s ← expect ":" s;
  '(mi, s) ← readFixed 2 s 0;
  s ← expect ":" s;
  '(sec, s) ← readFixed 2 s 0;
  '(ms, s) ← readMillis s;
  s ← expect "Z" s;
  if String.eqb s ""
     && (1 <=? mo) && (mo <=? 12) && (1 <=? d) && (d <=? 31)
     && (mi <=? 59) && (sec <=? 59)
     && ((h <=? 23) || ((h =? 24) && (mi =? 0) && (sec =? 0) && (ms =? 0)))
  then TimeClip (ofZ (daysFromCivil y mo d * msPerDay
                      + h * 3600000 + mi * 60000 + sec * 1000 + ms))
  else None.

(** [new Date(v)]: a string is parsed, anything else is a time value. *)
Definition newDate (v : JsVal) : Date :=
  match v with
  | JStr s => parse s
  | JObj _ => None
  | _ => TimeClip (ToNumber v)
  end.

End JsDate.

Export JsDate.

(** ** The session object, the Langfuse client and the effects *)

(** The properties of a session that the two processors read or write; every
    other property (running totals and the like, kept by the session
    handler) lives in [others]. *)
Record Session := mkSession {
  sessionId : JsVal;
  organizationId : JsVal;
  userAccountUuid : JsVal;
  userEmail : JsVal;
  terminalType : JsVal;
  appVersion : JsVal;
  commitCount : option number;
  prCount : option number;
  toolDecisions : option (list JsVal);
  sessionStarted : JsVal;
  activeTime : JsVal;
  currentTrace : JsVal;
  langfuse : bool;
  others : gmap string JsVal
}.

Definition setOrganizationId (v : JsVal) (s : Session) : Session :=
  mkSession (sessionId s) v (userAccountUuid s) (userEmail s) (terminalType s)
    (appVersion s) (commitCount s) (prCount s) (toolDecisions s)
    (sessionStarted s) (activeTime s) (currentTrace s) (langfuse s) (others s).

Definition setUserAccountUuid (v : JsVal) (s : Session) : Session :=
  mkSession (sessionId s) (organizationId s) v (userEmail s) (terminalType s)
    (appVersion s) (commitCount s) (prCount s) (toolDecisions s)
    (sessionStarted s) (activeTime s) (currentTrace s) (langfuse s) (others s).

Definition setUserEmail (v : JsVal) (s : Session) : Session :=
  mkSession (sessionId s) (organizationId s) (userAccountUuid s) v (terminalType s)
    (appVersion s) (commitCount s) (prCount s) (toolDecisions s)
    (sessionStarted s) (activeTime s) (currentTrace s) (langfuse s) (others s).

Definition setTerminalType (v : JsVal) (s : Session) : Session :=
  mkSession (sessionId s) (organizationId s) (userAccountUuid s) (userEmail s) v
    (appVersion s) (commitCount s) (prCount s) (toolDecisions s)
    (sessionStarted s) (activeTime s) (currentTrace s) (langfuse s) (others s).

Definition setCommitCount (v : option number) (s : Session) : Session :=
  mkSession (sessionId s) (organizationId s) (userAccountUuid s) (userEmail s)
    (terminalType s) (appVersion s) v (prCount s) (toolDecisions s)
    (sessionStarted s) (activeTime s) (currentTrace s) (langfuse s) (others s).

Definition setPrCount (v : option number) (s : Session) : Session :=
  mkSession (sessionId s) (organizationId s) (userAccountUuid s) (userEmail s)
    (terminalType s) (appVersion s) (commitCount s) v (toolDecisions s)
    (sessionStarted s) (activeTime s) (currentTrace s) (langfuse s) (others s).

Definition setToolDecisions (v : option (list JsVal)) (s : Session) : Session :=
  mkSession (sessionId s) (organizationId s) (userAccountUuid s) (userEmail s)
    (terminalType s) (appVersion s) (commitCount s) (prCount s) v
    (sessionStarted s) (activeTime s) (currentTrace s) (langfuse s) (others s).

Definition setSessionStarted (v : JsVal) (s : Session) : Session :=
  mkSession (sessionId s) (organizationId s) (userAccountUuid s) (userEmail s)
    (terminalType s) (appVersion s) (commitCount s) (prCount s) (toolDecisions s)
    v (activeTime s) (currentTrace s) (langfuse s) (others s).

Definition setActiveTime (v : JsVal) (s : Session) : Session :=
  mkSession (sessionId s) (organizationId s) (userAccountUuid s) (userEmail s)
    (terminalType s) (appVersion s) (commitCount s) (prCount s) (toolDecisions s)
    (sessionStarted s) v (currentTrace s) (langfuse s) (others s).

(** A call made on the Langfuse client: the method and its argument. *)
Definition LangfuseCall : Type := string * JsVal.

Record World := mkWorld {
  session : Session;
  langfuseCalls : list LangfuseCall
}.

Inductive Exn :=
| RangeError (message : string)
| Thrown (value : JsVal).

Inductive Completion (A : Type) :=
| Normal (a : A)
| Throw (e : Exn).

Arguments Normal {A} a.
Arguments Throw {A} e.

(** A statement: from a world to the world it leaves and how it completes.
    A thrown exception keeps the mutations made before it. *)
Definition M (A : Type) : Type := World -> World * Completion A.

#[global] Instance M_ret : MRet M := fun A a w => (w, Normal a).

#[global] Instance M_bind : MBind M := fun A B f m w =>
  match m w with
  | (w', Normal a) => f a w'
  | (w', Throw e) => (w', Throw e)
  end.

Definition throw {A} (e : Exn) : M A := fun w => (w, Throw e).

Definition getSession : M Session := fun w => (w, Normal (session w)).

Definition modifySession (f : Session -> Session) : M unit :=
  fun w => (mkWorld (f (session w)) (langfuseCalls w), Normal tt).

(** [session.langfuse.event(arg)]. *)
Definition langfuseEvent (arg : JsVal) : M unit :=
  fun w => (mkWorld (session w) (langfuseCalls w ++ [("event"%string, arg)]), Normal tt).

(** [when c body]: [if (c) { body }]. *)
Definition when (c : bool) (body : M unit) : M unit :=
  if c then body else mret tt.

(** [new Date(timestamp).toISOString()]. *)
Definition isoTimestamp (timestamp : number) : M JsVal :=
  match toISOString (newDate (JNum timestamp)) with
  | Some s => mret (JStr s)
  | None => throw (RangeError "Invalid time value")
  end.

(** The pino logger writes a line and touches neither the session nor the
    client. *)
Definition logger (level : string) (fields : list (string * JsVal)) (msg : string)
  : M unit := mret tt.

(** Truthiness of an array property that may be missing. *)
Definition isDefined {A} (o : option A) : bool :=
  match o with
  | Some _ => true
  | None => false
  end.

(** Truthiness of a numeric property that may be missing. *)
Definition truthyCount (c : option number) : bool :=
  match c with
  | Some n => JsNumber.truthy n
  | None => false
  end.

(** The value of a numeric property in an arithmetic context. *)
Definition countValue (c : option number) : number :=
  match c with
  | Some n => n
  | None => NaN
  end.

Definition countAsVal (c : option number) : JsVal :=
  match c with
  | Some n => JNum n
  | None => JUndefined
  end.

Definition attr (attrs : gmap string JsVal) (key : string) : JsVal :=
  default JUndefined (attrs !! key).

(** ** OTLP records *)

Module Metric.

Record t := mk { name : JsVal }.

End Metric.

Module DataPoint.

Record t := mk {
  asDouble : JsVal;
  asInt : JsVal;
  timeUnixNano : JsVal
}.

End DataPoint.

Module LogRecord.

Record t := mk {
  body : JsVal;
  timeUnixNano : JsVal;
  attributes : option (list (string * JsVal))
}.

End LogRecord.

(** ** The session handler

    [sessionHandler.js] exports the attribute decoder and the methods of the
    session object; the processors call them and nothing else of that
    module. *)
Class SessionHandler := {
  extractAttributesArray : option (list (string * JsVal)) -> gmap string JsVal;
  handleUserPrompt : JsVal -> JsVal -> M unit;
  handleApiRequest : JsVal -> JsVal -> M unit;
  handleApiError : JsVal -> JsVal -> M unit;
  handleToolResult : JsVal -> JsVal -> M unit;
  session_processMetric : Metric.t -> DataPoint.t -> gmap string JsVal -> M unit
}.

(** ** metricsProcessor.js *)

Module MetricsProcessor.

Import DataPoint.

Definition processCostMetric (dataPoint : DataPoint.t) (attrs : gmap string JsVal)
    (timestamp : number) : M JsVal :=
  let cost := asDouble dataPoint <||> JNum (Num 0) in
  let model := attr attrs "model" <||> JStr "unknown" in
  s ← getSession;
  _ ← logger "info" [("sessionId", sessionId s); ("cost", cost); ("model", model);
                     ("totalCost", attr (others s) "totalCost")]
        "Cost metric processed";
  mret (JObj [("type", JStr "cost"); ("cost", cost); ("model", model);
              ("timestamp", JNum timestamp)]).

Definition processTokenMetric (dataPoint : DataPoint.t) (attrs : gmap string JsVal)
    (timestamp : number) : M JsVal :=
  let tokens := asDouble dataPoint <||> JNum (Num 0) in
  let tokenType := attr attrs "type" <||> JStr "unknown" in
  let model := attr attrs "model" <||> JStr "unknown" in
  s ← getSession;
  _ ← logger "info" [("sessionId", sessionId s); ("tokens", tokens);
                     ("tokenType", tokenType); ("model", model)]
        "Token metric processed";
  mret (JObj [("type", JStr "token"); ("tokens", tokens); ("tokenType", tokenType);
              ("model", model); ("timestamp", JNum timestamp)]).

Definition processLinesOfCodeMetric (dataPoint : DataPoint.t)
    (attrs : gmap string JsVal) (timestamp : number) : M JsVal :=
  let lines := asDouble dataPoint <||> JNum (Num 0) in
  let changeType := attr attrs "type" <||> JStr "unknown" in
  s ← getSession;
  _ ← logger "info" [("sessionId", sessionId s); ("lines", lines);
                     ("changeType", changeType);
                     ("totalAdded", attr (others s) "linesAdded");
                     ("totalRemoved", attr (others s) "linesRemoved")]
        "Lines of code metric processed";
  mret (JObj [("type", JStr "lines_of_code"); ("lines", lines);
              ("changeType", changeType); ("timestamp", JNum timestamp)]).

Definition processCommitMetric (dataPoint : DataPoint.t) (attrs : gmap string JsVal)
    (timestamp : number) : M JsVal :=
  let commits := parseInt (asInt dataPoint <||> asDouble dataPoint <||> JStr "0") in
  s ← getSession;
  _ ← when (negb (truthyCount (commitCount s)))
        (modifySession (setCommitCount (Some (Num 0))));
  _ ← modifySession (fun s =>
        setCommitCount (Some (JsNumber.add (countValue (commitCount s)) commits)) s);
  s ← getSession;
  _ ← logger "info" [("sessionId", sessionId s); ("commits", JNum commits);
                     ("totalCommits", countAsVal (commitCount s))]
        "Commit metric processed";
  mret (JObj [("type", JStr "commit"); ("commits", JNum commits);
              ("timestamp", JNum timestamp)]).

(** The entry pushed on [session.toolDecisions] and, with [type] in front,
    the value returned. *)
Definition decisionEntry (decision tool language count : JsVal) (timestamp : number)
  : list (string * JsVal) :=
  [("decision", decision); ("tool", tool); ("language", language);
   ("count", count); ("timestamp", JNum timestamp)].

Definition processToolDecisionMetric (dataPoint : DataPoint.t)
    (attrs : gmap string JsVal) (timestamp : number) : M JsVal :=
  let decision := attr attrs "decision" <||> JStr "unknown" in
  let tool := attr attrs "tool" <||> JStr "unknown" in
  let language := attr attrs "language" <||> JStr "unknown" in
  let count := asDouble dataPoint <||> asInt dataPoint <||> JNum (Num 1) in
  s ← getSession;
  _ ← when (negb (isDefined (toolDecisions s)))
        (modifySession (setToolDecisions (Some [])));
  _ ← modifySession (fun s =>
        setToolDecisions
          (Some (default [] (toolDecisions s)
                 ++ [JObj (decisionEntry decision tool language count timestamp)])) s);
  s ← getSession;
  _ ← when (truthy (currentTrace s) && langfuse s)
        (iso ← isoTimestamp timestamp;
         langfuseEvent (JObj [
           ("name", JStr "code-edit-decision");
           ("traceId", get (currentTrace s) "id");
           ("input", JObj [("tool", tool); ("language", language)]);
           ("output", JObj [("decision", decision); ("count", count)]);
           ("metadata", JObj [("tool", tool); ("decision", decision);
                              ("language", language); ("count", count);
                              ("timestamp", iso)]);
           ("level", if strictEquals decision (JStr "accept")
                     then JStr "DEFAULT" else JStr "WARNING")]));
  _ ← logger "info" [("sessionId", sessionId s); ("decision", decision);
                     ("tool", tool); ("language", language); ("count", count)]
        "Tool decision metric processed";
  mret (JObj (("type", JStr "tool_decision")
              :: decisionEntry decision tool language count timestamp)).

Definition processSessionMetric (dataPoint : DataPoint.t) (attrs : gmap string JsVal)
    (timestamp : number) : M JsVal :=
  _ ← modifySession (setSessionStarted (JBool true));
  s ← getSession;
  iso ← isoTimestamp timestamp;
  _ ← logger "info" [("sessionId", sessionId s); ("timestamp", iso)]
        "Session start metric processed";
  mret (JObj [("type", JStr "session_start"); ("timestamp", JNum timestamp)]).

Definition processActiveTimeMetric (dataPoint : DataPoint.t)
    (attrs : gmap string JsVal) (timestamp : number) : M JsVal :=
  let activeTime := asDouble dataPoint <||> JNum (Num 0) in
  _ ← modifySession (setActiveTime activeTime);
  s ← getSession;
  _ ← logger "info" [("sessionId", sessionId s); ("activeTime", activeTime)]
        "Active time metric processed";
  mret (JObj [("type", JStr "active_time"); ("activeTime", activeTime);
              ("timestamp", JNum timestamp)]).

Definition processPullRequestMetric (dataPoint : DataPoint.t)
    (attrs : gmap string JsVal) (timestamp : number) : M JsVal :=
  let prCount' := parseInt (asInt dataPoint <||> asDouble dataPoint <||> JStr "0") in
  _ ← modifySession (fun s =>
        setPrCount
          (Some (JsNumber.add
                   (if truthyCount (prCount s) then countValue (prCount s) else Num 0)
                   prCount')) s);
  s ← getSession;
  _ ← logger "info" [("sessionId", sessionId s); ("prCount", JNum prCount');
                     ("totalPRs", countAsVal (prCount s))]
        "Pull request metric processed";
  mret (JObj [("type", JStr "pull_request"); ("prCount", JNum prCount');
              ("timestamp", JNum timestamp)]).

(** The [switch] of [processMetric]: the handler a metric name selects,
    [None] for the [default] branch. *)
Definition selectHandler (metricName : JsVal)
  : option (DataPoint.t -> gmap string JsVal -> number -> M JsVal) :=
  match metricName with
  | JStr n =>
      if String.eqb n "claude_code.cost.usage" then Some processCostMetric
      else if String.eqb n "claude_code.token.usage" then Some processTokenMetric
      else if String.eqb n "claude_code.lines_of_code.count"
           then Some processLinesOfCodeMetric
      else if String.eqb n "claude_code.commit.count" then Some processCommitMetric
      else if String.eqb n "claude_code.code_edit_tool.decision"
           then Some processToolDecisionMetric
      else if String.eqb n "claude_code.session.count" then Some processSessionMetric
      else if String.eqb n "claude_code.active_time.total"
           then Some processActiveTimeMetric
      else if String.eqb n "claude_code.pr.count" then Some processPullRequestMetric
      else if String.eqb n "claude_code.pull_request.count"
           then Some processPullRequestMetric
      else None
  | _ => None
  end.

Section WithSessionHandler.

Context `{SessionHandler}.

Definition processMetric (metric : Metric.t) (dataPoint : DataPoint.t)
    (attrs : gmap string JsVal) : M JsVal :=
  let metricName := Metric.name metric in
  let timestamp := js_div (timeUnixNano dataPoint) (JNum (Num 1000000)) in
  _ ← session_processMetric metric dataPoint attrs;
  match selectHandler metricName with
  | Some handler => handler dataPoint attrs timestamp
  | None =>
      _ ← logger "debug" [("metricName", metricName)] "Unknown metric";
      mret JNull
  end.

End WithSessionHandler.

End MetricsProcessor.

(** ** eventProcessor.js *)

Module EventProcessor.

(** [decision === 'accept' ? 'DEFAULT' : 'WARNING']. *)
Definition decisionLevel (decision : JsVal) : JsVal :=
  if strictEquals decision (JStr "accept") then JStr "DEFAULT" else JStr "WARNING".

Definition processToolDecision (attrs : gmap string JsVal)
    (standardAttrs : list (string * JsVal)) (timestamp : number) : M JsVal :=
  let decision := attr attrs "decision" <||> JStr "unknown" in
  let source := attr attrs "source" <||> JStr "unknown" in
  let toolName := attr attrs "tool_name" <||> attr attrs "tool" <||> JStr "unknown" in
  let eventTimestamp :=
    attr attrs "event.timestamp" <||> getField standardAttrs "timestamp" in
  s ← getSession;
  _ ← logger "info" [("sessionId", sessionId s); ("decision", decision);
                     ("source", source); ("toolName", toolName)]
        "Tool decision processed";
  _ ← when (truthy (currentTrace s) && langfuse s)
        (langfuseEvent (JObj [
           ("name", JStr "tool-permission-decision");
           ("traceId", get (currentTrace s) "id");
           ("input", JObj [("tool", toolName); ("source", source)]);
           ("output", JObj [("decision", decision)]);
           ("metadata", JObj (spread [("tool", toolName); ("decision", decision);
                                      ("source", source);
                                      ("timestamp", eventTimestamp)]
                                     standardAttrs));
           ("level", decisionLevel decision)]));
  mret (JObj (spread [("type", JStr "tool_decision"); ("decision", decision);
                      ("source", source); ("toolName", toolName)]
                     standardAttrs)).


Section WithSessionHandler.

Context `{SessionHandler}.

Definition processUserPrompt (attrs : gmap string JsVal)
    (standardAttrs : list (string * JsVal)) (timestamp : number) : M JsVal :=
  let prompt := attr attrs "prompt" <||> attr attrs "user.prompt" <||> JStr "" in
  let promptLength :=
    parseInt (attr attrs "prompt_length" <||> attr attrs "prompt.length" <||> JStr "0") in
  let eventTimestamp :=
    attr attrs "event.timestamp" <||> getField standardAttrs "timestamp" in
  _ ← logger "debug" [("prompt", prompt); ("promptLength", JNum promptLength)]
        "Processing user prompt with attributes";
  _ ← handleUserPrompt
        (JObj [("prompt", prompt);
               ("prompt_length", JNum promptLength);
               ("user.email", getField standardAttrs "userEmail");
               ("event.timestamp", eventTimestamp);
               ("session.id", getField standardAttrs "sessionId");
               ("organization.id", getField standardAttrs "organizationId");
               ("user.account_uuid", getField standardAttrs "userAccountUuid");
               ("terminal.type", getField standardAttrs "terminalType");
               ("app.version", getField standardAttrs "appVersion")])
        eventTimestamp;
  s ← getSession;
  _ ← logger "info" [("sessionId", sessionId s);
                     ("userEmail", getField standardAttrs "userEmail");
                     ("promptLength", JNum promptLength);
                     ("timestamp", eventTimestamp)]
        "User prompt received";
  mret (JObj (spread [("type", JStr "user_prompt"); ("prompt", prompt);
                      ("promptLength", JNum promptLength)]
                     standardAttrs)).

Definition processApiRequest (attrs : gmap string JsVal)
    (standardAttrs : list (string * JsVal)) (timestamp : number) : M JsVal :=
  let model := attr attrs "model" <||> attr attrs "model.name" <||> JStr "unknown" in
  let inputTokens :=
    parseInt (attr attrs "input_tokens" <||> attr attrs "tokens.input" <||> JStr "0") in
  let outputTokens :=
    parseInt (attr attrs "output_tokens" <||> attr attrs "tokens.output" <||> JStr "0") in
  let cacheReadTokens :=
    parseInt (attr attrs "cache_read_tokens" <||> attr attrs "cache.read_tokens"
              <||> JStr "0") in
  let cacheCreationTokens :=
    parseInt (attr attrs "cache_creation_tokens" <||> attr attrs "cache.creation_tokens"
              <||> JStr "0") in
  let costUsd :=
    parseFloat (attr attrs "cost_usd" <||> attr attrs "cost" <||> attr attrs "cost.usd"
                <||> JStr "0") in
  let durationMs :=
    parseInt (attr attrs "duration_ms" <||> attr attrs "duration" <||> JStr "0") in
  let requestId := attr attrs "request_id" <||> attr attrs "request.id" in
  let eventTimestamp :=
    attr attrs "event.timestamp" <||> getField standardAttrs "timestamp" in
  _ ← handleApiRequest
        (JObj (spread [("model", model);
                       ("input_tokens", JNum inputTokens);
                       ("output_tokens", JNum outputTokens);
                       ("cache_read_tokens", JNum cacheReadTokens);
                       ("cache_creation_tokens", JNum cacheCreationTokens);
                       ("cost", JNum costUsd);
                       ("duration_ms", JNum durationMs);
                       ("api.response_time", JNum durationMs);
                       ("request_id", requestId);
                       ("event.timestamp", eventTimestamp)]
                      standardAttrs))
        eventTimestamp;
  s ← getSession;
  _ ← logger "info" [("sessionId", sessionId s); ("model", model);
                     ("inputTokens", JNum inputTokens);
                     ("outputTokens", JNum outputTokens);
                     ("cacheReadTokens", JNum cacheReadTokens);
                     ("cacheCreationTokens", JNum cacheCreationTokens);
                     ("costUsd", JNum costUsd); ("durationMs", JNum durationMs);
                     ("requestId", requestId)]
        "API request processed";
  mret (JObj (spread [("type", JStr "api_request"); ("model", model);
                      ("inputTokens", JNum inputTokens);
                      ("outputTokens", JNum outputTokens);
                      ("cacheReadTokens", JNum cacheReadTokens);
                      ("cacheCreationTokens", JNum cacheCreationTokens);
                      ("costUsd", JNum costUsd); ("durationMs", JNum durationMs);
                      ("requestId", requestId)]
                     standardAttrs)).

Definition processApiError (attrs : gmap string JsVal)
    (standardAttrs : list (string * JsVal)) (timestamp : number) : M JsVal :=
  let errorMessage :=
    attr attrs "error_message" <||> attr attrs "error" <||> attr attrs "message"
    <||> JStr "Unknown error" in
  let statusCode :=
    parseInt (attr attrs "status_code" <||> attr attrs "status" <||> JStr "0") in
  let model := attr attrs "model" <||> JStr "unknown" in
  let requestId := attr attrs "request_id" <||> attr attrs "request.id" in
  let eventTimestamp :=
    attr attrs "event.timestamp" <||> getField standardAttrs "timestamp" in
  _ ← handleApiError
        (JObj (spread [("error_message", errorMessage);
                       ("status_code", JNum statusCode);
                       ("model", model);
                       ("request_id", requestId);
                       ("event.timestamp", eventTimestamp)]
                      standardAttrs))
        eventTimestamp;
  s ← getSession;
  _ ← logger "warn" [("sessionId", sessionId s); ("errorMessage", errorMessage);
                     ("statusCode", JNum statusCode); ("model", model);
                     ("requestId", requestId)]
        "API error occurred";
  mret (JObj (spread [("type", JStr "api_error"); ("errorMessage", errorMessage);
                      ("statusCode", JNum statusCode); ("model", model);
                      ("requestId", requestId)]
                     standardAttrs)).

Definition processToolResult (attrs : gmap string JsVal)
    (standardAttrs : list (string * JsVal)) (timestamp : number) : M JsVal :=
  let toolName :=
    attr attrs "tool_name" <||> attr attrs "tool" <||> attr attrs "name"
    <||> JStr "unknown" in
  let success :=
    strictEquals (attr attrs "success") (JStr "true")
    || strictEquals (attr attrs "success") (JBool true) in
  let durationMs :=
    parseInt (attr attrs "duration_ms" <||> attr attrs "duration" <||> JStr "0") in
  let eventTimestamp :=
    attr attrs "event.timestamp" <||> getField standardAttrs "timestamp" in
  _ ← handleToolResult
        (JObj (spread [("tool_name", toolName);
                       ("success", JBool success);
                       ("duration_ms", JNum durationMs);
                       ("event.timestamp", eventTimestamp)]
                      standardAttrs))
        eventTimestamp;
  s ← getSession;
  _ ← logger "info" [("sessionId", sessionId s); ("toolName", toolName);
                     ("success", JBool success); ("durationMs", JNum durationMs)]
        "Tool result processed";
  mret (JObj (spread [("type", JStr "tool_result"); ("toolName", toolName);
                      ("success", JBool success); ("durationMs", JNum durationMs)]
                     standardAttrs)).

(** The [switch] of [processEvent]; [None] is its [default] branch. *)
Definition selectHandler (eventName : JsVal)
  : option (gmap string JsVal -> list (string * JsVal) -> number -> M JsVal) :=
  match eventName with
  | JStr n =>
      if String.eqb n "claude_code.user_prompt" then Some processUserPrompt
      else if String.eqb n "claude_code.api_request" then Some processApiRequest
      else if String.eqb n "claude_code.api_error" then Some processApiError
      else if String.eqb n "claude_code.tool_result" then Some processToolResult
      else if String.eqb n "claude_code.tool_decision" then Some processToolDecision
      else None
  | _ => None
  end.

(** [if (value && !session.field) session.field = value]. *)
Definition storeIfAbsent (value : JsVal) (field : Session -> JsVal)
    (set : JsVal -> Session -> Session) : M unit :=
  s ← getSession;
  when (truthy value && negb (truthy (field s))) (modifySession (set value)).

Definition processEvent (logRecord : LogRecord.t) (resource : JsVal) : M JsVal :=
  let eventName := get (LogRecord.body logRecord) "stringValue" in
  let attrs := extractAttributesArray (LogRecord.attributes logRecord) in
  let timestamp := js_div (LogRecord.timeUnixNano logRecord) (JNum (Num 1000000)) in
  s ← getSession;
  iso ← isoTimestamp timestamp;
  let standardAttrs :=
    [("sessionId", attr attrs "session.id" <||> sessionId s);
     ("organizationId", attr attrs "organization.id");
     ("userAccountUuid", attr attrs "user.account_uuid");
     ("userEmail", attr attrs "user.email");
     ("terminalType", attr attrs "terminal.type");
     ("appVersion", attr attrs "app.version");
     ("timestamp", iso)] in
  _ ← storeIfAbsent (getField standardAttrs "organizationId")
        organizationId setOrganizationId;
  _ ← storeIfAbsent (getField standardAttrs "userAccountUuid")
        userAccountUuid setUserAccountUuid;
  _ ← storeIfAbsent (getField standardAttrs "userEmail") userEmail setUserEmail;
  _ ← storeIfAbsent (getField standardAttrs "terminalType")
        terminalType setTerminalType;
  match selectHandler eventName with
  | Some handler => handler attrs standardAttrs timestamp
  | None =>
      _ ← logger "debug" [("eventName", eventName)] "Unknown event";
      mret JNull
  end.

End WithSessionHandler.

End EventProcessor.

(** ** Session key of a record without [session.id] (test/helpers.test.js) *)

Module SessionKey.

(** [/[^a-zA-Z0-9-]/]: a code unit the [replace] rewrites. *)
Definition outsideClass (c : ascii) : bool :=
  negb (isLower c || isUpper c || isDigit c || Ascii.eqb c "-").

(** [s.replace(/[^a-zA-Z0-9-]/g, '-')]. *)
Fixpoint sanitize (s : string) : string :=
  match s with
  | String c rest => String (if outsideClass c then "-"%char else c) (sanitize rest)
  | EmptyString => EmptyString
  end.

(** [new Date(timestamp).toISOString().substring(0, 13)]. *)
Definition timeWindow (timestamp : JsVal) : option string :=
  String.substring 0 13 <$> toISOString (newDate timestamp).

(** [generateSessionId]; [None] when [toISOString] throws. *)
Definition generateSessionId (userId : string) (timestamp : JsVal) : option string :=
  w ← timeWindow timestamp;
  Some (sanitize (userId +:+ "-" +:+ w)).

End SessionKey.

(** ** Test doubles (test/unit/eventProcessor.test.js, metricsProcessor.test.js)

    The unit tests run the processors against a session whose methods are
    [jest.fn()] and against this attribute decoder. *)

Module TestDoubles.

Definition decodeValue (value : JsVal) : JsVal :=
  get value "stringValue" <||> get value "intValue" <||> get value "doubleValue"
  <||> get value "boolValue".

Definition extractAttributesArrayMock (attrs : option (list (string * JsVal)))
  : gmap string JsVal :=
  match attrs with
  | Some l =>
      fold_left
        (fun result kv =>
           let value := decodeValue (snd kv) in
           if negb (String.eqb (fst kv) "") && negb (strictEquals value JUndefined)
           then <[fst kv := value]> result
           else result)
        l ∅
  | None => ∅
  end.

#[export] Instance mockSession : SessionHandler := {
  extractAttributesArray := extractAttributesArrayMock;
  handleUserPrompt := fun _ _ => mret tt;
  handleApiRequest := fun _ _ => mret tt;
  handleApiError := fun _ _ => mret tt;
  handleToolResult := fun _ _ => mret tt;
  session_processMetric := fun _ _ _ => mret tt
}.

(** The [mockSession] object of the metric tests; [userEmail: null] is the
    one identity property the event tests set. *)
Definition mockSessionState : Session := {|
  sessionId := JStr "test-session-123";
  organizationId := JUndefined;
  userAccountUuid := JUndefined;
  userEmail := JNull;
  terminalType := JUndefined;
  appVersion := JUndefined;
  commitCount := Some (Num 0);
  prCount := Some (Num 0);
  toolDecisions := None;
  sessionStarted := JUndefined;
  activeTime := JNum (Num 0);
  currentTrace := JUndefined;
  langfuse := false;
  others := {[ "totalCost" := JNum (Num 0); "totalTokens" := JNum (Num 0);
               "linesAdded" := JNum (Num 0); "linesRemoved" := JNum (Num 0) ]}
|}.

Definition mockWorld : World := mkWorld mockSessionState [].

(** The same session once a conversation is open on a Langfuse client. *)
Definition tracedWorld : World :=
  mkWorld
    (mkSession (JStr "test-session-123") JUndefined JUndefined JNull JUndefined
       JUndefined (Some (Num 0)) (Some (Num 0)) None JUndefined (JNum (Num 0))
       (JObj [("id", JStr "trace-1")]) true ∅)
    [].

(** 2024-01-15T10:30:45.123Z in nanoseconds, as OTLP/JSON carries it. *)
Definition sampleTimeUnixNano : JsVal := JStr "1705314645123000000".

Definition stringAttr (key value : string) : string * JsVal :=
  (key, JObj [("stringValue", JStr value)]).

End TestDoubles.

(** ** Duration statistics and port check (test/helpers.test.js)

    [calculatePercentiles] on an array of finite numbers. The comparator
    [(a, b) => a - b] orders such numbers by [<=] and [Array.prototype.sort]
    is stable, so the sorted copy is the one an insertion sort builds. The
    products [length * 0.5], [length * 0.95] and [length * 0.99] are exact
    here; in binary64 their floors are the same for every length an array
    can have. *)

Module Helpers.

Record Stats := mkStats {
  count : nat;
  min : option Q;
  max : option Q;
  avg : Z;
  p50 : option Q;
  p95 : option Q;
  p99 : option Q
}.

(** [x] in front of the first element that is not smaller. *)
Fixpoint insert (x : Q) (sorted : list Q) : list Q :=
  match sorted with
  | [] => [x]
  | y :: rest => if Qle_bool x y then x :: sorted else y :: insert x rest
  end.

(** [[...data].sort((a, b) => a - b)]. *)
Definition sort (data : list Q) : list Q := fold_right insert [] data.

(** [Math.floor(length * p)]. *)
Definition rank (length : nat) (p : Q) : nat :=
  Z.to_nat (Qfloor (inject_Z (Z.of_nat length) * p)).

(** [Math.round(x)]: the nearest integer, a half going up. *)
Definition round (x : Q) : Z := Qfloor (x + (1 # 2)).

(** [data.reduce((a, b) => a + b, 0)]. *)
Definition sum (data : list Q) : Q := fold_left Qplus data 0%Q.

(** [calculatePercentiles(data)]; [None] is [null], an element read outside
    the array is [undefined], here [None]. *)
Definition calculatePercentiles (data : option (list Q)) : option Stats :=
  match data with
  | None | Some [] => None
  | Some data =>
      let sorted := sort data in
      Some {| count := length data;
              min := sorted !! 0%nat;
              max := sorted !! (length sorted - 1)%nat;
              avg := round (sum data / inject_Z (Z.of_nat (length data)));
              p50 := sorted !! rank (length sorted) (1 # 2);
              p95 := sorted !! rank (length sorted) (95 # 100);
              p99 := sorted !! rank (length sorted) (99 # 100) |}
  end.

(** [isValidPort]: [port >= 1 && port <= 65535]; a comparison with a number
    turns the other operand into a number. *)
Definition isValidPort (port : JsVal) : bool :=
  JsNumber.le (Num 1) (ToNumber port) && JsNumber.le (ToNumber port) (Num 65535).

End Helpers.

(** ** The matcher of the test set-up (test/setup.js) *)

Module JestSetup.

(** [Number.isInteger(v)]. *)
Definition isInteger (v : JsVal) : bool :=
  match v with
  | JNum (Num q) => Qeq_bool q (inject_Z (Qfloor q))
  | _ => false
  end.

(** The [pass] of [toBeValidPort(received)]. *)
Definition toBeValidPort (received : JsVal) : bool :=
  isInteger received
  && JsNumber.le (Num 1) (ToNumber received)
  && JsNumber.le (ToNumber received) (Num 65535).

End JestSetup.

(** ** Ports of the test servers (test/testServer.js)

    The module keeps the set [startedServers] of the test files it has given
    a port to; the functions are statements over that set. *)

Module TestServer.

Definition serverPort : Z := 4318.

Definition getUniquePort (testFile : string) (startedServers : gset string)
  : Z * gset string :=
  if decide (testFile ∈ startedServers) then (serverPort, startedServers)
  else
    let port := serverPort + Z.of_nat (size startedServers) in
    (port, startedServers ∪ {[testFile]}).

Definition resetServers (startedServers : gset string) : gset string := ∅.

End TestServer.

(** * Vocabulary of the properties *)

Import MetricsProcessor EventProcessor SessionKey TestDoubles.

(** A datapoint that carries its value in [asInt] only. *)
Definition asIntOnly : DataPoint.t :=
  DataPoint.mk JUndefined (JStr "250") sampleTimeUnixNano.


(** The calls a statement adds to those already made on the client. *)
Definition emitted {A} (m : M A) (w : World) : list LangfuseCall :=
  drop (length (langfuseCalls w)) (langfuseCalls (fst (m w))).

(** A [claude_code.tool_decision] log record, as the event tests build it. *)
Definition toolDecisionRecord : LogRecord.t :=
  LogRecord.mk (JObj [("stringValue", JStr "claude_code.tool_decision")])
    sampleTimeUnixNano
    (Some [stringAttr "tool_name" "Edit"; stringAttr "decision" "accept";
           stringAttr "source" "user"]).

Definition sampleTimestamp : number := Num 1705314645123.

(** The [standardAttrs] object that [processEvent] builds. *)
Definition standardAttrsOf (attrs : gmap string JsVal) (s : Session) (iso : JsVal)
  : list (string * JsVal) :=
  [("sessionId", attr attrs "session.id" <||> sessionId s);
   ("organizationId", attr attrs "organization.id");
   ("userAccountUuid", attr attrs "user.account_uuid");
   ("userEmail", attr attrs "user.email");
   ("terminalType", attr attrs "terminal.type");
   ("appVersion", attr attrs "app.version");
   ("timestamp", iso)].

Definition keep (value : JsVal) (field : Session -> JsVal)
    (set : JsVal -> Session -> Session) (s : Session) : Session :=
  if truthy value && negb (truthy (field s)) then set value s else s.

(** The session after the four guarded assignments of [processEvent]. *)
Definition storeIdentity (attrs : gmap string JsVal) (s : Session) : Session :=
  keep (attr attrs "terminal.type") terminalType setTerminalType
    (keep (attr attrs "user.email") userEmail setUserEmail
       (keep (attr attrs "user.account_uuid") userAccountUuid setUserAccountUuid
          (keep (attr attrs "organization.id") organizationId setOrganizationId s))).

Definition eventName (lr : LogRecord.t) : JsVal := get (LogRecord.body lr) "stringValue".

Definition eventTime (lr : LogRecord.t) : number :=
  js_div (LogRecord.timeUnixNano lr) (JNum (Num 1000000)).

Definition recognizedEvents : list string :=
  ["claude_code.user_prompt"; "claude_code.api_request"; "claude_code.api_error";
   "claude_code.tool_result"; "claude_code.tool_decision"].

Definition recognizedMetrics : list string :=
  ["claude_code.cost.usage"; "claude_code.token.usage";
   "claude_code.lines_of_code.count"; "claude_code.commit.count";
   "claude_code.code_edit_tool.decision"; "claude_code.session.count";
   "claude_code.active_time.total"; "claude_code.pr.count";
   "claude_code.pull_request.count"].

(** The name is not a string of the list. *)
Definition outside (names : list string) (v : JsVal) : Prop :=
  forall n, v = JStr n -> ~ In n names.

(** [s'] is [s] but for the four identity properties, each of which keeps a
    truthy value and otherwise takes the record's attribute when that one is
    truthy. *)
Definition identityFilled (attrs : gmap string JsVal) (s s' : Session) : Prop :=
  organizationId s' = (if truthy (attr attrs "organization.id")
                          && negb (truthy (organizationId s))
                       then attr attrs "organization.id" else organizationId s)
  /\ userAccountUuid s' = (if truthy (attr attrs "user.account_uuid")
                              && negb (truthy (userAccountUuid s))
                           then attr attrs "user.account_uuid" else userAccountUuid s)
  /\ userEmail s' = (if truthy (attr attrs "user.email") && negb (truthy (userEmail s))
                     then attr attrs "user.email" else userEmail s)
  /\ terminalType s' = (if truthy (attr attrs "terminal.type")
                           && negb (truthy (terminalType s))
                        then attr attrs "terminal.type" else terminalType s)
  /\ sessionId s' = sessionId s /\ appVersion s' = appVersion s
  /\ commitCount s' = commitCount s /\ prCount s' = prCount s
  /\ toolDecisions s' = toolDecisions s /\ sessionStarted s' = sessionStarted s
  /\ activeTime s' = activeTime s /\ currentTrace s' = currentTrace s
  /\ langfuse s' = langfuse s /\ others s' = others s.

(** An unrecognised log record that carries an identity attribute. *)
Definition unknownRecord : LogRecord.t :=
  LogRecord.mk (JObj [("stringValue", JStr "unknown_event")]) sampleTimeUnixNano
    (Some [stringAttr "organization.id" "org-123"]).

(** None of the [keys] is an attribute of the record. *)
Definition missing (attrs : gmap string JsVal) (keys : list string) : Prop :=
  forall k, In k keys -> attr attrs k = JUndefined.

(** The value a statement returns from a world, [undefined] if it throws. *)
Definition returned (m : M JsVal) (w : World) : JsVal :=
  match snd (m w) with
  | Normal r => r
  | Throw _ => JUndefined
  end.

Definition identityFields : list (Session -> JsVal) :=
  [organizationId; userAccountUuid; userEmail; terminalType; appVersion].

(** A statement never replaces an identity property that holds a value. *)
Definition firstWriteWins {A} (m : M A) : Prop :=
  forall field, In field identityFields ->
  forall w, truthy (field (session w)) = true ->
    field (session (fst (m w))) = field (session w).

(** The value a count metric carries:
    [parseInt(dataPoint.asInt || dataPoint.asDouble || '0', 10)]. *)
Definition countOf (dp : DataPoint.t) : number :=
  parseInt (DataPoint.asInt dp <||> DataPoint.asDouble dp <||> JStr "0").

(** The value of a running count before an increment: a missing, zero or
    [NaN] count restarts from 0. *)
Definition countBase (c : option number) : number :=
  if truthyCount c then countValue c else Num 0.

Definition metricTime (dp : DataPoint.t) : number :=
  js_div (DataPoint.timeUnixNano dp) (JNum (Num 1000000)).

Definition prCountMetric : Metric.t := Metric.mk (JStr "claude_code.pr.count").

Definition pullRequestCountMetric : Metric.t :=
  Metric.mk (JStr "claude_code.pull_request.count").

(** A count that is a finite number stays one and does not go down. *)
Definition nonDecreasing {A} (count : Session -> option number) (m : M A) : Prop :=
  forall w a, count (session w) = Some (Num a) ->
    exists b, count (session (fst (m w))) = Some (Num b) /\ (a <= b)%Q.

Definition countMetrics : list JsVal :=
  [JStr "claude_code.commit.count"; JStr "claude_code.pr.count";
   JStr "claude_code.pull_request.count"].

(** A statement lowers neither [commitCount] nor [prCount]. *)
Definition keepsCounts {A} (m : M A) : Prop :=
  nonDecreasing commitCount m /\ nonDecreasing prCount m.

(** The datapoint of a count metric carries a non-negative number. *)
Definition countIsNatural (metric : Metric.t) (dp : DataPoint.t) : Prop :=
  In (Metric.name metric) countMetrics ->
  exists n, countOf dp = Num n /\ (0 <= n)%Q.

Section Ingest.

Context `{SessionHandler}.

(** The methods of the session object lower neither count. *)
Definition sessionKeepsCounts : Prop :=
  (forall data t, keepsCounts (handleUserPrompt data t))
  /\ (forall data t, keepsCounts (handleApiRequest data t))
  /\ (forall data t, keepsCounts (handleApiError data t))
  /\ (forall data t, keepsCounts (handleToolResult data t))
  /\ (forall metric dp attrs, keepsCounts (session_processMetric metric dp attrs)).

(** [ingests s s']: the session goes from [s] to [s'] through a sequence of
    log records and metric datapoints, each handed to its processor, the
    count metrics among them carrying non-negative numbers. *)
Inductive ingests : Session -> Session -> Prop :=
| ingests_none (s : Session) : ingests s s
| ingests_metric (s s' : Session) (calls : list LangfuseCall) (metric : Metric.t)
    (dp : DataPoint.t) (attrs : gmap string JsVal) :
    countIsNatural metric dp ->
    ingests (session (fst (processMetric metric dp attrs (mkWorld s calls)))) s' ->
    ingests s s'
| ingests_log (s s' : Session) (calls : list LangfuseCall) (lr : LogRecord.t)
    (resource : JsVal) :
    ingests (session (fst (processEvent lr resource (mkWorld s calls)))) s' ->
    ingests s s'.

End Ingest.

(** ** Vocabulary of the further properties *)

(** The ISO-8601 print of a time in milliseconds; [None] when
    [toISOString] throws. *)
Definition isoOf (ts : number) : option string := toISOString (newDate (JNum ts)).

(** A time that [Date] accepts: a finite number of milliseconds at most
    8.64e15 away from the epoch. *)
Definition validTime (ts : number) : Prop :=
  exists q, ts = Num q /\ (Qabs q <= inject_Z maxTime)%Q.



(** The Langfuse event of a code-edit decision. *)
Definition codeEditDecisionEvent (decision tool language count : JsVal)
    (traceId : JsVal) (iso : string) : JsVal :=
  JObj [("name", JStr "code-edit-decision");
        ("traceId", traceId);
        ("input", JObj [("tool", tool); ("language", language)]);
        ("output", JObj [("decision", decision); ("count", count)]);
        ("metadata", JObj [("tool", tool); ("decision", decision);
                           ("language", language); ("count", count);
                           ("timestamp", JStr iso)]);
        ("level", if strictEquals decision (JStr "accept")
                  then JStr "DEFAULT" else JStr "WARNING")].

(** [session.currentTrace && session.langfuse]. *)
Definition traced (s : Session) : bool := truthy (currentTrace s) && langfuse s.

(** Two statements in sequence, the result of the first dropped. *)
Definition andThen {A B} (m1 : M A) (m2 : M B) : M B := m1 ≫= fun _ => m2.

(** The whole number a running count starts from: the count itself, or 0
    when the count is missing, zero or [NaN]. *)
Definition startsFrom (c : option number) (a : Z) : Prop := countBase c = ofZ a.


(** The world in which [processEvent] calls a handler: the identity
    attributes of the record are stored, the client is as it was. *)
Definition identityStored (attrs : gmap string JsVal) (w : World) : World :=
  mkWorld (storeIdentity attrs (session w)) (langfuseCalls w).

(** A whole number or [NaN]: what [parseInt] returns. *)
Definition wholeOrNaN (v : JsVal) : Prop :=
  v = JNum NaN \/ exists z, v = JNum (ofZ z).



(** The properties of a mapped log record that fall back on a non-empty
    text, by body of the record. *)
Definition defaultedEventProperties : list (string * list string) :=
  [("claude_code.api_request", ["model"]);
   ("claude_code.api_error", ["errorMessage"; "model"]);
   ("claude_code.tool_result", ["toolName"]);
   ("claude_code.tool_decision", ["decision"; "source"; "toolName"])].

(** The properties of a metric report that fall back on a non-empty text
    or on 1, by name of the metric. *)
Definition defaultedMetricProperties : list (string * list string) :=
  [("claude_code.cost.usage", ["model"]);
   ("claude_code.token.usage", ["tokenType"; "model"]);
   ("claude_code.lines_of_code.count", ["changeType"]);
   ("claude_code.code_edit_tool.decision", ["decision"; "tool"; "language"; "count"])].

(** How many of the samples satisfy a test. *)
Fixpoint tally (test : Q -> bool) (data : list Q) : nat :=
  match data with
  | [] => 0
  | x :: rest => (if test x then 1 else 0) + tally test rest
  end.

(** The three percentiles of a result, each with its fraction. *)
Definition percentilesOf (st : Helpers.Stats) : list (Q * option Q) :=
  [(1 # 2, Helpers.p50 st); (95 # 100, Helpers.p95 st);
   (99 # 100, Helpers.p99 st)].

(** The ports [getUniquePort] gives to a sequence of requests, and the set
    of started files they leave. *)
Fixpoint getUniquePorts (testFiles : list string) (startedServers : gset string)
  : list Z * gset string :=
  match testFiles with
  | [] => ([], startedServers)
  | testFile :: rest =>
      let '(port, started) := TestServer.getUniquePort testFile startedServers in
      let '(ports, final) := getUniquePorts rest started in
      (port :: ports, final)
  end.

(** [s'] extends the log of [s]: the decisions recorded are still there, in
    order, possibly followed by others, and a session that had started is
    still started. *)
Definition sessionExtends (s s' : Session) : Prop :=
  (forall decisions,
      toolDecisions s = Some decisions ->
      exists more, toolDecisions s' = Some (decisions ++ more))
  /\ (sessionStarted s = JBool true -> sessionStarted s' = JBool true).

(** The same for a world: the calls made on the client are still there as
    well, in order, possibly followed by others. *)
Definition extends (w w' : World) : Prop :=
  sessionExtends (session w) (session w')
  /\ exists calls, langfuseCalls w' = langfuseCalls w ++ calls.

(** A statement only extends the log, however it completes. *)
Definition appendOnly {A} (m : M A) : Prop := forall w, extends w (fst (m w)).

Section SessionMethods.

Context `{SessionHandler}.

(** The methods of the session object only extend the log. *)
Definition sessionAppendOnly : Prop :=
  (forall data t, appendOnly (handleUserPrompt data t))
  /\ (forall data t, appendOnly (handleApiRequest data t))
  /\ (forall data t, appendOnly (handleApiError data t))
  /\ (forall data t, appendOnly (handleToolResult data t))
  /\ (forall metric dp attrs, appendOnly (session_processMetric metric dp attrs)).

End SessionMethods.

(** The identity properties that [processEvent] stores in the session, each
    with the attribute it is read from. *)
Definition storedIdentity : list ((Session -> JsVal) * string) :=
  [(organizationId, "organization.id"); (userAccountUuid, "user.account_uuid");
   (userEmail, "user.email"); (terminalType, "terminal.type")].

(** A statement leaves the identity properties and the application version
    of the session as they are, however it completes. *)
Definition keepsIdentity {A} (m : M A) : Prop :=
  forall w field, In field identityFields ->
    field (session (fst (m w))) = field (session w).

(** * Properties *)

Lemma bind_run {A B} (m : M A) (k : A -> M B) (w : World) :
  (m ≫= k) w =
  match m w with
  | (w', Normal a) => k a w'
  | (w', Throw e) => (w', Throw e)
  end.
Proof. reflexivity. Qed.

(** Runs the monad: unfolds its operations and projects the pairs. *)
Ltac run :=
  repeat (progress
    (unfold mbind, M_bind, mret, M_ret, logger, getSession, modifySession,
       langfuseEvent, when, throw in *;
     cbn [fst snd session langfuseCalls sessionId organizationId userAccountUuid
          userEmail terminalType appVersion commitCount prCount toolDecisions
          sessionStarted activeTime currentTrace langfuse others
          setOrganizationId setUserAccountUuid setUserEmail setTerminalType
          setCommitCount setPrCount setToolDecisions setSessionStarted
          setActiveTime isDefined negb default] in *)).

(** ** The unit tests, replayed on the embedding *)

Section UnitTests.

Example parseInt_cases :
  parseInt (JStr "250") = Num 250
  /\ parseInt (JStr "  -42px") = Num (-42)
  /\ parseInt (JStr "abc") = NaN
  /\ parseInt (JNum (Num (5 # 2))) = Num 2
  /\ parseInt JUndefined = NaN
  /\ parseFloat (JStr "0.15") = Num (3 # 20)
  /\ ToNumber (JStr "1705314645123000000") = Num 1705314645123000000.
Proof. repeat split; vm_compute; reflexivity. Qed.

Example toISOString_cases :
  toISOString (newDate (JNum (Num 0))) = Some "1970-01-01T00:00:00.000Z"
  /\ toISOString (newDate (JNum (Num 951782400000))) = Some "2000-02-29T00:00:00.000Z"
  /\ toISOString (newDate (JNum (Num (-1)))) = Some "1969-12-31T23:59:59.999Z"
  /\ toISOString (newDate (JNum (Num 253402300800000)))
     = Some "+010000-01-01T00:00:00.000Z"
  /\ toISOString (newDate (JStr "2024-01-01T12:00:00Z"))
     = Some "2024-01-01T12:00:00.000Z"
  /\ toISOString (newDate JUndefined) = None.
Proof. repeat split; vm_compute; reflexivity. Qed.

(** helpers.test.js, "generates valid session ID from user and timestamp". *)
Example generateSessionId_test :
  generateSessionId "test@example.com" (JStr "2024-01-15T10:30:45.123Z")
  = Some "test-example-com-2024-01-15T10".
Proof. vm_compute. reflexivity. Qed.

(** metricsProcessor.test.js, "processes cost with model" and "handles
    missing cost value". *)
Example processCostMetric_test :
  returned (processCostMetric (DataPoint.mk (JNum (Num (1 # 4))) JUndefined JUndefined)
              {[ "model" := JStr "claude-3-sonnet" ]} sampleTimestamp) mockWorld
  = JObj [("type", JStr "cost"); ("cost", JNum (Num (1 # 4)));
          ("model", JStr "claude-3-sonnet"); ("timestamp", JNum sampleTimestamp)]
  /\ returned (processCostMetric (DataPoint.mk JUndefined JUndefined JUndefined)
                 ∅ sampleTimestamp) mockWorld
     = JObj [("type", JStr "cost"); ("cost", JNum (Num 0));
             ("model", JStr "unknown"); ("timestamp", JNum sampleTimestamp)].
Proof. split; vm_compute; reflexivity. Qed.

(** metricsProcessor.test.js, "processes commit count", "processes tool
    decision" and "accumulates PR count". *)
Example count_metrics_test :
  returned (processCommitMetric (DataPoint.mk JUndefined (JStr "2") JUndefined)
              ∅ sampleTimestamp) mockWorld
  = JObj [("type", JStr "commit"); ("commits", JNum (Num 2));
          ("timestamp", JNum sampleTimestamp)]
  /\ returned (processToolDecisionMetric
                 (DataPoint.mk JUndefined JUndefined JUndefined)
                 {[ "decision" := JStr "accept"; "tool" := JStr "Write";
                    "language" := JStr "javascript" ]} sampleTimestamp) mockWorld
     = JObj [("type", JStr "tool_decision"); ("decision", JStr "accept");
             ("tool", JStr "Write"); ("language", JStr "javascript");
             ("count", JNum (Num 1)); ("timestamp", JNum sampleTimestamp)]
  /\ prCount (session (fst (processPullRequestMetric
                              (DataPoint.mk JUndefined (JStr "1") JUndefined)
                              ∅ sampleTimestamp
                              (mkWorld (setPrCount (Some (Num 2)) mockSessionState) []))))
     = Some (Num 3).
Proof. repeat split; vm_compute; reflexivity. Qed.

(** eventProcessor.test.js, "processes tool result event". *)
Example processEvent_tool_result_test :
  returned
    (processEvent
       (LogRecord.mk (JObj [("stringValue", JStr "claude_code.tool_result")])
          sampleTimeUnixNano
          (Some [stringAttr "tool_name" "Bash"; stringAttr "success" "true";
                 stringAttr "session.id" "test-session-123";
                 stringAttr "organization.id" "org-123";
                 stringAttr "user.account_uuid" "user-123";
                 stringAttr "user.email" "test@example.com";
                 stringAttr "terminal.type" "vscode";
                 stringAttr "app.version" "1.0.0"]))
       JNull)
    mockWorld
  = JObj [("type", JStr "tool_result"); ("toolName", JStr "Bash");
          ("success", JBool true); ("durationMs", JNum (Num 0));
          ("sessionId", JStr "test-session-123");
          ("organizationId", JStr "org-123");
          ("userAccountUuid", JStr "user-123");
          ("userEmail", JStr "test@example.com");
          ("terminalType", JStr "vscode"); ("appVersion", JStr "1.0.0");
          ("timestamp", JStr "2024-01-15T10:30:45.123Z")].
Proof. vm_compute. reflexivity. Qed.

(** A record whose [timeUnixNano] is no time makes [processEvent] throw
    before it dispatches, whatever its body. *)
Example processEvent_invalid_time :
  processEvent (LogRecord.mk (JObj [("stringValue", JStr "unknown_event")])
                  JUndefined None) JNull mockWorld
  = (mockWorld, Throw (RangeError "Invalid time value")).
Proof. vm_compute. reflexivity. Qed.

End UnitTests.

(** ** Metric values *)

(** C1. On a datapoint carrying only [asInt: "250"], the token, cost and
    active-time handlers read the value 0 (and the active-time handler
    stores 0 in the session, also where the session held 120 before), while
    the commit and pull-request handlers read 250 from the same datapoint.
    The claim that such a datapoint contributes 250 to the three former
    metrics does not hold of the code. *)
Theorem C1_asInt_only_datapoint_is_read_as_zero :
  forall (attrs : gmap string JsVal) (ts : number) (w : World),
    (exists r, processTokenMetric asIntOnly attrs ts w = (w, Normal r)
               /\ get r "tokens" = JNum (Num 0))
    /\ (exists r, processCostMetric asIntOnly attrs ts w = (w, Normal r)
                  /\ get r "cost" = JNum (Num 0))
    /\ (exists r,
          processActiveTimeMetric asIntOnly attrs ts w
          = (mkWorld (setActiveTime (JNum (Num 0)) (session w)) (langfuseCalls w),
             Normal r)
          /\ get r "activeTime" = JNum (Num 0))
    /\ (exists w' r, processCommitMetric asIntOnly attrs ts w = (w', Normal r)
                     /\ get r "commits" = JNum (Num 250))
    /\ (exists w' r, processPullRequestMetric asIntOnly attrs ts w = (w', Normal r)
                     /\ get r "prCount" = JNum (Num 250))
    /\ activeTime
         (session (fst (processMetric (Metric.mk (JStr "claude_code.active_time.total"))
                          asIntOnly attrs
                          (mkWorld (setActiveTime (JNum (Num 120)) mockSessionState) []))))
       = JNum (Num 0).
Proof.
  intros attrs ts w. split; [|split; [|split; [|split; [|split]]]].
  - eexists. split; [reflexivity|reflexivity].
  - eexists. split; [reflexivity|reflexivity].
  - eexists. split; [reflexivity|reflexivity].
  - unfold processCommitMetric. rewrite bind_run. cbn.
    destruct (truthyCount (commitCount (session w))); cbn;
      do 2 eexists; (split; [reflexivity|reflexivity]).
  - do 2 eexists. split; [reflexivity|reflexivity].
  - reflexivity.
Qed.

(** ** Session key *)

Section SessionKeyFacts.





End SessionKeyFacts.



(** ** Tool decisions *)

Section ToolDecisionFacts.

Lemma strictEquals_string (v : JsVal) (s : string) :
  strictEquals v (JStr s) = true <-> v = JStr s.
Proof.
  destruct v as [| |b|n|x|fs]; cbn; try (split; [discriminate|discriminate]).
  - destruct n; split; discriminate.
  - rewrite String.eqb_eq. split; [now intros ->|now intros [= ->]].
Qed.

Lemma strictEquals_bool (v : JsVal) (b : bool) :
  strictEquals v (JBool b) = true <-> v = JBool b.
Proof.
  destruct v as [| |c|n|x|fs]; cbn; try (split; [discriminate|discriminate]).
  - rewrite Bool.eqb_true_iff. split; [now intros ->|now intros [= ->]].
  - destruct n; split; discriminate.
Qed.

(** [(attrs.decision || 'unknown') === 'accept'] exactly when
    [attrs.decision] is the string ["accept"]. *)
Lemma decision_accept (v : JsVal) :
  strictEquals (v <||> JStr "unknown") (JStr "accept") = true <-> v = JStr "accept".
Proof.
  rewrite strictEquals_string. unfold js_or.
  destruct (truthy v) eqn:Ht; [reflexivity|].
  split; [discriminate|]. intros ->. discriminate.
Qed.

Lemma level_of_decision (v : JsVal) :
  let level := if strictEquals (v <||> JStr "unknown") (JStr "accept")
               then JStr "DEFAULT" else JStr "WARNING" in
  (level = JStr "DEFAULT" <-> v = JStr "accept")
  /\ (level = JStr "WARNING" <-> v <> JStr "accept").
Proof.
  cbv zeta. pose proof (decision_accept v) as [Hd1 Hd2].
  destruct (strictEquals (v <||> JStr "unknown") (JStr "accept")).
  - split; split.
    + intros _. now apply Hd1.
    + reflexivity.
    + discriminate.
    + intros Hne. exfalso. apply Hne. now apply Hd1.
  - split; split.
    + discriminate.
    + intros Hv. apply Hd2 in Hv. discriminate.
    + intros _ Hv. apply Hd2 in Hv. discriminate.
    + reflexivity.
Qed.

Lemma emitted_log_decision (attrs : gmap string JsVal) (std : list (string * JsVal))
    (ts : number) (w : World) :
  session (fst (processToolDecision attrs std ts w)) = session w
  /\ (emitted (processToolDecision attrs std ts) w = []
      \/ exists e, emitted (processToolDecision attrs std ts) w = [("event"%string, e)]
                   /\ get e "level"
                      = decisionLevel (attr attrs "decision" <||> JStr "unknown")).
Proof.
  unfold emitted, processToolDecision. run.
  destruct (truthy (currentTrace (session w)) && langfuse (session w)); run.
  - split; [reflexivity|]. right. eexists. split.
    + rewrite drop_app_length. reflexivity.
    + reflexivity.
  - split; [reflexivity|]. left. apply drop_all.
Qed.

Lemma emitted_metric_decision (dp : DataPoint.t) (attrs : gmap string JsVal)
    (ts : number) (w : World) :
  toolDecisions (session (fst (processToolDecisionMetric dp attrs ts w)))
  = Some (default [] (toolDecisions (session w))
          ++ [JObj (decisionEntry (attr attrs "decision" <||> JStr "unknown")
                      (attr attrs "tool" <||> JStr "unknown")
                      (attr attrs "language" <||> JStr "unknown")
                      (DataPoint.asDouble dp <||> DataPoint.asInt dp <||> JNum (Num 1))
                      ts)])
  /\ (emitted (processToolDecisionMetric dp attrs ts) w = []
      \/ exists e, emitted (processToolDecisionMetric dp attrs ts) w
                   = [("event"%string, e)]
                   /\ get e "level"
                      = decisionLevel (attr attrs "decision" <||> JStr "unknown")).
Proof.
  unfold emitted, processToolDecisionMetric, isoTimestamp.
  destruct (toolDecisions (session w)) as [l|] eqn:Htd; run; rewrite ?Htd; run.
  all: destruct (truthy (currentTrace (session w)) && langfuse (session w));
    run; rewrite ?Htd; run.
  all: try (destruct (toISOString _); run; rewrite ?Htd; run).
  all: split; [reflexivity|].
  all: first [ left; apply drop_all
             | right; eexists; split;
               [rewrite drop_app_length; reflexivity|reflexivity] ].
Qed.

End ToolDecisionFacts.

(** C5, as stated, at a [claude_code.tool_decision] log record: the record
    is processed (it returns its domain event and emits the backend event),
    yet [session.toolDecisions] stays as it was; no entry is appended. *)
Lemma C5_log_decision_appends_no_entry :
  let w := tracedWorld in
  let w' := fst (processEvent toolDecisionRecord JNull w) in
  (exists r, snd (processEvent toolDecisionRecord JNull w) = Normal r
             /\ get r "type" = JStr "tool_decision")
  /\ length (langfuseCalls w') = 1%nat
  /\ toolDecisions (session w') = toolDecisions (session w)
  /\ ~ exists entry,
        toolDecisions (session w')
        = Some (default [] (toolDecisions (session w)) ++ [entry]).
Proof.
  cbv zeta. split; [|split; [|split]].
  - eexists. split; vm_compute; reflexivity.
  - vm_compute. reflexivity.
  - vm_compute. reflexivity.
  - intros [entry He]. vm_compute in He. discriminate He.
Qed.

(** C5 (amended). Every [claude_code.code_edit_tool.decision] datapoint
    appends exactly one entry [{decision, tool, language, count, timestamp}]
    to [session.toolDecisions], whatever the current trace and the client
    are, missing attributes reading ["unknown"] and a missing value 1; the
    [claude_code.tool_decision] log handler leaves the session, and with it
    [toolDecisions], untouched. *)
Theorem C5_metric_decision_appends_one_entry :
  forall (dp : DataPoint.t) (attrs : gmap string JsVal) (ts : number) (w : World),
    toolDecisions (session (fst (processToolDecisionMetric dp attrs ts w)))
    = Some (default [] (toolDecisions (session w))
            ++ [JObj [("decision", attr attrs "decision" <||> JStr "unknown");
                      ("tool", attr attrs "tool" <||> JStr "unknown");
                      ("language", attr attrs "language" <||> JStr "unknown");
                      ("count", DataPoint.asDouble dp <||> DataPoint.asInt dp
                                <||> JNum (Num 1));
                      ("timestamp", JNum ts)]])
    /\ forall std, session (fst (processToolDecision attrs std ts w)) = session w.
Proof.
  intros dp attrs ts w. split.
  - apply (emitted_metric_decision dp attrs ts w).
  - intros std. apply (emitted_log_decision attrs std ts w).
Qed.

(** C6. Every backend event that a tool decision emits, on the log path or
    on the metric path, has level [DEFAULT] exactly when the [decision]
    attribute is the string ["accept"], and level [WARNING] otherwise. *)
Theorem C6_decision_event_level :
  forall (dp : DataPoint.t) (attrs : gmap string JsVal)
         (std : list (string * JsVal)) (ts : number) (w : World)
         (call : LangfuseCall),
    In call (emitted (processToolDecision attrs std ts) w)
    \/ In call (emitted (processToolDecisionMetric dp attrs ts) w) ->
    fst call = "event"%string
    /\ (get (snd call) "level" = JStr "DEFAULT"
        <-> attr attrs "decision" = JStr "accept")
    /\ (get (snd call) "level" = JStr "WARNING"
        <-> attr attrs "decision" <> JStr "accept").
Proof.
  intros dp attrs std ts w call Hin.
  assert (Hone : exists e, call = ("event"%string, e)
                   /\ get e "level"
                      = decisionLevel (attr attrs "decision" <||> JStr "unknown")).
  { destruct Hin as [Hin|Hin].
    - destruct (emitted_log_decision attrs std ts w) as [_ [Hnil|(e & He & Hl)]].
      + rewrite Hnil in Hin. destruct Hin.
      + rewrite He in Hin. destruct Hin as [<-|[]]. now exists e.
    - destruct (emitted_metric_decision dp attrs ts w) as [_ [Hnil|(e & He & Hl)]].
      + rewrite Hnil in Hin. destruct Hin.
      + rewrite He in Hin. destruct Hin as [<-|[]]. now exists e. }
  destruct Hone as (e & -> & Hl). cbn [fst snd]. rewrite Hl.
  split; [reflexivity|]. apply level_of_decision.
Qed.

Lemma C6_decision_event_level_witness :
  let attrs : gmap string JsVal := {[ "decision" := JStr "reject" ]} in
  let call : LangfuseCall :=
    ("event"%string,
     JObj [("name", JStr "code-edit-decision");
           ("traceId", JStr "trace-1");
           ("input", JObj [("tool", JStr "unknown"); ("language", JStr "unknown")]);
           ("output", JObj [("decision", JStr "reject"); ("count", JStr "250")]);
           ("metadata", JObj [("tool", JStr "unknown"); ("decision", JStr "reject");
                              ("language", JStr "unknown"); ("count", JStr "250");
                              ("timestamp", JStr "2024-01-15T10:30:45.123Z")]);
           ("level", JStr "WARNING")]) in
  fst call = "event"%string
  /\ (get (snd call) "level" = JStr "DEFAULT"
      <-> attr attrs "decision" = JStr "accept")
  /\ (get (snd call) "level" = JStr "WARNING"
      <-> attr attrs "decision" <> JStr "accept").
Proof.
  cbv zeta.
  apply (C6_decision_event_level asIntOnly {[ "decision" := JStr "reject" ]} []
           sampleTimestamp tracedWorld).
  right. vm_compute. left. reflexivity.
Defined.

(** ** Log records *)

Section EventFacts.

Context `{SessionHandler}.

Lemma storeIfAbsent_run (value : JsVal) (field : Session -> JsVal)
    (set : JsVal -> Session -> Session) (w : World) :
  storeIfAbsent value field set w
  = (mkWorld (keep value field set (session w)) (langfuseCalls w), Normal tt).
Proof.
  unfold storeIfAbsent, keep. run.
  destruct (truthy value && negb (truthy (field (session w)))); run;
    [reflexivity|now destruct w].
Qed.

Lemma processEvent_run (lr : LogRecord.t) (resource : JsVal) (w : World) :
  processEvent lr resource w =
  match toISOString (newDate (JNum (eventTime lr))) with
  | None => (w, Throw (RangeError "Invalid time value"))
  | Some iso =>
      let attrs := extractAttributesArray (LogRecord.attributes lr) in
      let w1 := mkWorld (storeIdentity attrs (session w)) (langfuseCalls w) in
      match EventProcessor.selectHandler (eventName lr) with
      | Some handler =>
          handler attrs (standardAttrsOf attrs (session w) (JStr iso)) (eventTime lr) w1
      | None => (w1, Normal JNull)
      end
  end.
Proof.
  unfold processEvent, isoTimestamp, eventTime, eventName.
  rewrite bind_run. cbn [getSession].
  rewrite bind_run. destruct (toISOString _) as [iso|]; [|reflexivity].
  cbn [mret M_ret]. unfold mret, M_ret.
  cbn [getField String.eqb Ascii.eqb Bool.eqb].
  do 4 (rewrite bind_run, storeIfAbsent_run; cbn [session langfuseCalls]).
  unfold standardAttrsOf, storeIdentity.
  destruct (EventProcessor.selectHandler _); reflexivity.
Qed.


Lemma getField_setField (l : list (string * JsVal)) (k k' : string) (v : JsVal) :
  getField (setField l k v) k' = if String.eqb k k' then v else getField l k'.
Proof.
  induction l as [|[k0 v0] l IH]; cbn.
  - reflexivity.
  - destruct (String.eqb k0 k) eqn:E0; cbn.
    + apply String.eqb_eq in E0. subst k0.
      now destruct (String.eqb k k').
    + rewrite IH. destruct (String.eqb k0 k') eqn:E1; [|reflexivity].
      apply String.eqb_eq in E1. subst k0. now rewrite String.eqb_sym, E0.
Qed.

(** A key of the literal that the spread object does not carry keeps the
    value the literal gave it. *)
Lemma getField_spread (a b : list (string * JsVal)) (key : string) :
  ~ In key (map fst b) -> getField (spread a b) key = getField a key.
Proof.
  unfold spread. revert a.
  induction b as [|[k v] b IH]; intros a Hnot; [reflexivity|].
  cbn [fold_left fst snd]. rewrite IH by (intros Hin; apply Hnot; now right).
  rewrite getField_setField.
  destruct (String.eqb k key) eqn:E; [|reflexivity].
  apply String.eqb_eq in E. exfalso. apply Hnot. now left.
Qed.

(** A statement that calls a session method and then returns [R]. *)
Lemma call_then_return (h : M unit) (R : JsVal) (w w' : World) (r : JsVal) :
  (match h w with
   | (w2, Normal _) => (w2, Normal R)
   | (w2, Throw e) => (w2, Throw e)
   end) = (w', Normal r) ->
  r = R /\ h w = (w', Normal tt).
Proof.
  destruct (h w) as [w2 [[]|e]]; intros [= -> ->]; [now split].
Qed.

Lemma call_then_return_state {A} (h : M unit) (R : A) (w : World) :
  fst (match h w with
       | (w2, Normal _) => (w2, Normal R)
       | (w2, Throw e) => (w2, Throw e)
       end) = fst (h w).
Proof. now destruct (h w) as [w2 [[]|e]]. Qed.

End EventFacts.

(** ** Unknown records *)

Section UnknownRecords.

Context `{SessionHandler}.

Lemma eqb_outside (n k : string) : n <> k -> String.eqb n k = false.
Proof. intros Hne. now apply String.eqb_neq. Qed.

Lemma event_default_branch (v : JsVal) :
  outside recognizedEvents v -> EventProcessor.selectHandler v = None.
Proof.
  intros Hout. destruct v as [| |b|n|n|fs]; try reflexivity.
  specialize (Hout n eq_refl). cbn [In recognizedEvents] in Hout.
  unfold EventProcessor.selectHandler.
  rewrite !eqb_outside; [reflexivity|..]; intros ->; apply Hout; tauto.
Qed.

Lemma metric_default_branch (v : JsVal) :
  outside recognizedMetrics v -> MetricsProcessor.selectHandler v = None.
Proof.
  intros Hout. destruct v as [| |b|n|n|fs]; try reflexivity.
  specialize (Hout n eq_refl). cbn [In recognizedMetrics] in Hout.
  unfold MetricsProcessor.selectHandler.
  rewrite !eqb_outside; [reflexivity|..]; intros ->; apply Hout; tauto.
Qed.

Lemma storeIdentity_fields (attrs : gmap string JsVal) (s : Session) :
  identityFilled attrs s (storeIdentity attrs s).
Proof.
  unfold identityFilled, storeIdentity, keep.
  destruct (truthy (attr attrs "organization.id") && negb (truthy (organizationId s)));
    cbn;
    destruct (truthy (attr attrs "user.account_uuid")
              && negb (truthy (userAccountUuid s)));
    cbn;
    destruct (truthy (attr attrs "user.email") && negb (truthy (userEmail s)));
    cbn;
    destruct (truthy (attr attrs "terminal.type") && negb (truthy (terminalType s)));
    cbn; repeat split; reflexivity.
Qed.

End UnknownRecords.

(** C3, as stated, at a log record with the body ["unknown_event"] and an
    [organization.id] attribute: the record returns [null], yet the session
    does not stay as it was, its [organizationId] is now set. *)
Lemma C3_unknown_event_changes_session :
  let w := mockWorld in
  let w' := fst (processEvent unknownRecord JNull w) in
  snd (processEvent unknownRecord JNull w) = Normal JNull
  /\ organizationId (session w) = JUndefined
  /\ organizationId (session w') = JStr "org-123"
  /\ session w' <> session w.
Proof.
  cbv zeta. split; [|split; [|split]].
  - vm_compute. reflexivity.
  - reflexivity.
  - vm_compute. reflexivity.
  - intros Heq. apply (f_equal organizationId) in Heq. vm_compute in Heq.
    discriminate Heq.
Qed.

(** C3 (amended). A log record with a valid timestamp whose body is none of
    the five recognised event classes returns [null] and makes no call on
    the backend; the session is as before except that [organizationId],
    [userAccountUuid], [userEmail] and [terminalType], where the session
    holds none, are filled from the record's attributes. A metric whose name
    is not recognised returns [null] and does nothing beyond the call of
    [session.processMetric] that precedes the dispatch. *)
Theorem C3_unknown_records_return_null :
  forall (H : SessionHandler),
    (forall (lr : LogRecord.t) (resource : JsVal) (w : World) (iso : string),
        toISOString (newDate (JNum (eventTime lr))) = Some iso ->
        outside recognizedEvents (eventName lr) ->
        exists s',
          processEvent lr resource w = (mkWorld s' (langfuseCalls w), Normal JNull)
          /\ identityFilled (extractAttributesArray (LogRecord.attributes lr))
               (session w) s')
    /\ (forall (metric : Metric.t) (dp : DataPoint.t) (attrs : gmap string JsVal)
               (w : World),
          outside recognizedMetrics (Metric.name metric) ->
          processMetric metric dp attrs w
          = match session_processMetric metric dp attrs w with
            | (w', Normal _) => (w', Normal JNull)
            | (w', Throw e) => (w', Throw e)
            end).
Proof.
  intros H. split.
  - intros lr resource w iso Hiso Hout.
    exists (storeIdentity (extractAttributesArray (LogRecord.attributes lr)) (session w)).
    split; [|apply storeIdentity_fields].
    rewrite processEvent_run, Hiso. cbv zeta.
    now rewrite (event_default_branch _ Hout).
  - intros metric dp attrs w Hout. unfold processMetric.
    rewrite (metric_default_branch _ Hout). rewrite bind_run.
    destruct (session_processMetric metric dp attrs w) as [w' [[]|e]]; reflexivity.
Qed.

Lemma C3_unknown_records_return_null_witness :
  (exists s',
      processEvent unknownRecord JNull mockWorld
      = (mkWorld s' (langfuseCalls mockWorld), Normal JNull)
      /\ identityFilled
           (extractAttributesArray (LogRecord.attributes unknownRecord))
           (session mockWorld) s')
  /\ processMetric (Metric.mk (JStr "unknown.metric")) asIntOnly ∅ mockWorld
     = (mockWorld, Normal JNull).
Proof.
  split.
  - apply (proj1 (C3_unknown_records_return_null mockSession) unknownRecord JNull
             mockWorld "2024-01-15T10:30:45.123Z").
    + vm_compute. reflexivity.
    + intros n [= <-]. cbn. intuition discriminate.
  - apply (proj2 (C3_unknown_records_return_null mockSession)
             (Metric.mk (JStr "unknown.metric")) asIntOnly ∅ mockWorld).
    intros n [= <-]. cbn. intuition discriminate.
Defined.

(** ** Recognised log records *)

Section RecognisedRecords.

Context `{SessionHandler}.

(** A record of a recognised class that returns has run the handler of its
    class on the [standardAttrs] object, after the identity was stored. *)
Lemma processEvent_handler (lr : LogRecord.t) (resource : JsVal) (w w' : World)
    (r : JsVal) (name : string)
    (handler : gmap string JsVal -> list (string * JsVal) -> number -> M JsVal) :
  eventName lr = JStr name ->
  EventProcessor.selectHandler (JStr name) = Some handler ->
  processEvent lr resource w = (w', Normal r) ->
  exists iso,
    let attrs := extractAttributesArray (LogRecord.attributes lr) in
    handler attrs (standardAttrsOf attrs (session w) (JStr iso)) (eventTime lr)
      (mkWorld (storeIdentity attrs (session w)) (langfuseCalls w))
    = (w', Normal r).
Proof.
  intros Hname Hsel Hrun. rewrite processEvent_run in Hrun.
  destruct (toISOString _) as [iso|]; [|discriminate Hrun].
  exists iso. cbv zeta in *. now rewrite Hname, Hsel in Hrun.
Qed.

End RecognisedRecords.

(** Reads [get r key] where [r] spreads [standardAttrs] over a literal that
    defines [key]. *)
Ltac read_field :=
  cbn [get];
  rewrite getField_spread
    by (unfold standardAttrsOf; cbn [map fst In]; intuition discriminate);
  cbn [getField String.eqb Ascii.eqb Bool.eqb].

Ltac use_missing Hm :=
  repeat match goal with
         | |- context [attr ?a ?k] => rewrite (Hm k) by (cbn [In]; tauto)
         end.

(** C4, as stated, at a [claude_code.user_prompt] record without a [prompt]
    attribute and at a [claude_code.api_error] record without an
    [error_message]: the mapped prompt is the empty string and the mapped
    error message is ["Unknown error"], neither is ["unknown"]. *)
Lemma C4_prompt_and_error_message_defaults :
  let prompt := LogRecord.mk (JObj [("stringValue", JStr "claude_code.user_prompt")])
                  sampleTimeUnixNano (Some [stringAttr "prompt_length" "10"]) in
  let error := LogRecord.mk (JObj [("stringValue", JStr "claude_code.api_error")])
                 sampleTimeUnixNano (Some [stringAttr "status_code" "429"]) in
  (exists w' r, processEvent prompt JNull mockWorld = (w', Normal r)
                /\ get r "prompt" = JStr "" /\ get r "prompt" <> JStr "unknown")
  /\ (exists w' r, processEvent error JNull mockWorld = (w', Normal r)
                   /\ get r "errorMessage" = JStr "Unknown error"
                   /\ get r "errorMessage" <> JStr "unknown").
Proof.
  cbv zeta. split; do 2 eexists; (split; [vm_compute; reflexivity|]);
    (split; [vm_compute; reflexivity|vm_compute; discriminate]).
Qed.

(** C4 (amended). In the domain event of a recognised log record a missing
    attribute is defaulted as follows: [model], [tool_name], [decision] and
    [source] read ["unknown"]; [prompt] reads the empty string and
    [error_message] reads ["Unknown error"]; [request_id] stays undefined;
    every integer or float attribute reads 0; [success] reads false. An
    attribute is missing when neither its name nor one of the alternative
    names the handler accepts is present. *)
Theorem C4_missing_attribute_defaults :
  forall (H : SessionHandler) (lr : LogRecord.t) (resource : JsVal)
         (w w' : World) (r : JsVal),
    processEvent lr resource w = (w', Normal r) ->
    let attrs := extractAttributesArray (LogRecord.attributes lr) in
    (eventName lr = JStr "claude_code.user_prompt" ->
       (missing attrs ["prompt"; "user.prompt"] -> get r "prompt" = JStr "")
       /\ (missing attrs ["prompt_length"; "prompt.length"] ->
           get r "promptLength" = JNum (Num 0)))
    /\ (eventName lr = JStr "claude_code.api_request" ->
          (missing attrs ["model"; "model.name"] -> get r "model" = JStr "unknown")
          /\ (missing attrs ["input_tokens"; "tokens.input"] ->
              get r "inputTokens" = JNum (Num 0))
          /\ (missing attrs ["output_tokens"; "tokens.output"] ->
              get r "outputTokens" = JNum (Num 0))
          /\ (missing attrs ["cache_read_tokens"; "cache.read_tokens"] ->
              get r "cacheReadTokens" = JNum (Num 0))
          /\ (missing attrs ["cache_creation_tokens"; "cache.creation_tokens"] ->
              get r "cacheCreationTokens" = JNum (Num 0))
          /\ (missing attrs ["cost_usd"; "cost"; "cost.usd"] ->
              get r "costUsd" = JNum (Num 0))
          /\ (missing attrs ["duration_ms"; "duration"] ->
              get r "durationMs" = JNum (Num 0))
          /\ (missing attrs ["request_id"; "request.id"] ->
              get r "requestId" = JUndefined))
    /\ (eventName lr = JStr "claude_code.api_error" ->
          (missing attrs ["error_message"; "error"; "message"] ->
           get r "errorMessage" = JStr "Unknown error")
          /\ (missing attrs ["status_code"; "status"] ->
              get r "statusCode" = JNum (Num 0))
          /\ (missing attrs ["model"] -> get r "model" = JStr "unknown")
          /\ (missing attrs ["request_id"; "request.id"] ->
              get r "requestId" = JUndefined))
    /\ (eventName lr = JStr "claude_code.tool_result" ->
          (missing attrs ["tool_name"; "tool"; "name"] ->
           get r "toolName" = JStr "unknown")
          /\ (missing attrs ["success"] -> get r "success" = JBool false)
          /\ (missing attrs ["duration_ms"; "duration"] ->
              get r "durationMs" = JNum (Num 0)))
    /\ (eventName lr = JStr "claude_code.tool_decision" ->
          (missing attrs ["decision"] -> get r "decision" = JStr "unknown")
          /\ (missing attrs ["source"] -> get r "source" = JStr "unknown")
          /\ (missing attrs ["tool_name"; "tool"] ->
              get r "toolName" = JStr "unknown")).
Proof.
  intros H lr resource w w' r Hrun. cbv zeta.
  split; [|split; [|split; [|split]]]; intros Hname.
  - destruct (processEvent_handler _ _ _ _ _ _ _ Hname eq_refl Hrun) as [iso Hh].
    cbv zeta in Hh. unfold processUserPrompt in Hh. run.
    apply call_then_return in Hh as [-> _].
    split; intros Hm; read_field; use_missing Hm; reflexivity.
  - destruct (processEvent_handler _ _ _ _ _ _ _ Hname eq_refl Hrun) as [iso Hh].
    cbv zeta in Hh. unfold processApiRequest in Hh. run.
    apply call_then_return in Hh as [-> _].
    repeat split; intros Hm; read_field; use_missing Hm; reflexivity.
  - destruct (processEvent_handler _ _ _ _ _ _ _ Hname eq_refl Hrun) as [iso Hh].
    cbv zeta in Hh. unfold processApiError in Hh. run.
    apply call_then_return in Hh as [-> _].
    repeat split; intros Hm; read_field; use_missing Hm; reflexivity.
  - destruct (processEvent_handler _ _ _ _ _ _ _ Hname eq_refl Hrun) as [iso Hh].
    cbv zeta in Hh. unfold processToolResult in Hh. run.
    apply call_then_return in Hh as [-> _].
    repeat split; intros Hm; read_field; use_missing Hm; reflexivity.
  - destruct (processEvent_handler _ _ _ _ _ _ _ Hname eq_refl Hrun) as [iso Hh].
    cbv zeta in Hh. unfold processToolDecision in Hh. run.
    destruct (truthy _ && langfuse _); run; injection Hh as _ <-;
      (repeat split; intros Hm; use_missing Hm; reflexivity).
Qed.

Lemma C4_missing_attribute_defaults_witness :
  let lr := LogRecord.mk (JObj [("stringValue", JStr "claude_code.tool_result")])
              sampleTimeUnixNano (Some [stringAttr "session.id" "s1"]) in
  let r := returned (processEvent lr JNull) mockWorld in
  get r "toolName" = JStr "unknown"
  /\ get r "success" = JBool false
  /\ get r "durationMs" = JNum (Num 0).
Proof.
  cbv zeta.
  set (lr := LogRecord.mk (JObj [("stringValue", JStr "claude_code.tool_result")])
               sampleTimeUnixNano (Some [stringAttr "session.id" "s1"])).
  assert (Hrun : processEvent lr JNull mockWorld
                 = (fst (processEvent lr JNull mockWorld),
                    Normal (returned (processEvent lr JNull) mockWorld)))
    by (vm_compute; reflexivity).
  destruct (C4_missing_attribute_defaults mockSession lr JNull mockWorld _ _ Hrun)
    as (_ & _ & _ & Htool & _).
  destruct (Htool eq_refl) as (Hn & Hs & Hd).
  split; [|split]; [apply Hn|apply Hs|apply Hd];
    intros k Hk; cbn [In] in Hk;
    repeat (destruct Hk as [<-|Hk]; [vm_compute; reflexivity|]); destruct Hk.
Defined.

(** ** Tool results *)

Lemma success_flag (v : JsVal) :
  strictEquals v (JStr "true") || strictEquals v (JBool true) = true
  <-> v = JBool true \/ v = JStr "true".
Proof.
  rewrite orb_true_iff, strictEquals_string, strictEquals_bool. tauto.
Qed.

(** C10. The [success] flag of the domain event of a
    [claude_code.tool_result] record, which is also the flag handed to
    [session.handleToolResult], is true exactly when the [success] attribute
    is the boolean [true] or the string ["true"], and false for every other
    value and for a missing attribute. *)
Theorem C10_tool_result_success_flag :
  forall (H : SessionHandler) (lr : LogRecord.t) (resource : JsVal)
         (w w' : World) (r : JsVal),
    eventName lr = JStr "claude_code.tool_result" ->
    processEvent lr resource w = (w', Normal r) ->
    let v := attr (extractAttributesArray (LogRecord.attributes lr)) "success" in
    (get r "success" = JBool true <-> v = JBool true \/ v = JStr "true")
    /\ (get r "success" = JBool false <-> ~ (v = JBool true \/ v = JStr "true"))
    /\ exists data eventTimestamp w1,
         handleToolResult data eventTimestamp w1 = (w', Normal tt)
         /\ get data "success" = get r "success".
Proof.
  intros H lr resource w w' r Hname Hrun. cbv zeta.
  destruct (processEvent_handler _ _ _ _ _ _ _ Hname eq_refl Hrun) as [iso Hh].
  cbv zeta in Hh. unfold processToolResult in Hh. run.
  apply call_then_return in Hh as [-> Hcall].
  set (v := attr (extractAttributesArray (LogRecord.attributes lr)) "success") in *.
  pose proof (success_flag v) as Hflag.
  split; [|split].
  - read_field.
    destruct (strictEquals v (JStr "true") || strictEquals v (JBool true)).
    + split; [intros _; now apply Hflag|reflexivity].
    + split; [discriminate|]. intros Hv. apply Hflag in Hv. discriminate Hv.
  - read_field.
    destruct (strictEquals v (JStr "true") || strictEquals v (JBool true)).
    + split; [discriminate|]. intros Hnot. exfalso. apply Hnot. now apply Hflag.
    + split; [|reflexivity]. intros _ Hv. apply Hflag in Hv. discriminate Hv.
  - do 3 eexists. split; [exact Hcall|]. now do 2 read_field.
Qed.

Lemma C10_tool_result_success_flag_witness :
  let lr := LogRecord.mk (JObj [("stringValue", JStr "claude_code.tool_result")])
              sampleTimeUnixNano
              (Some [stringAttr "tool_name" "Bash"; stringAttr "success" "True"]) in
  let r := returned (processEvent lr JNull) mockWorld in
  get r "success" = JBool false.
Proof.
  cbv zeta.
  set (lr := LogRecord.mk (JObj [("stringValue", JStr "claude_code.tool_result")])
               sampleTimeUnixNano
               (Some [stringAttr "tool_name" "Bash"; stringAttr "success" "True"])).
  assert (Hrun : processEvent lr JNull mockWorld
                 = (fst (processEvent lr JNull mockWorld),
                    Normal (returned (processEvent lr JNull) mockWorld)))
    by (vm_compute; reflexivity).
  destruct (C10_tool_result_success_flag mockSession lr JNull mockWorld _ _
              eq_refl Hrun) as (_ & Hfalse & _).
  apply Hfalse. vm_compute. intros [Hv|Hv]; discriminate Hv.
Defined.

(** ** Identity of a session *)

Ltac each_identity Hin :=
  cbn [In identityFields] in Hin;
  destruct Hin as [<-|[<-|[<-|[<-|[<-|[]]]]]].

(** Splits on the branch a [switch] over a name takes. *)
Ltac switch_cases Hsel :=
  revert Hsel;
  repeat match goal with
         | |- (if ?c then _ else _) = Some _ -> _ =>
             let E := fresh "Ename" in
             destruct c eqn:E; [intros [= <-]|]
         end;
  try (intros Hsel; discriminate Hsel).

Section Identity.

Context `{SessionHandler}.

Lemma storeIdentity_keeps (attrs : gmap string JsVal) (s : Session)
    (field : Session -> JsVal) :
  In field identityFields -> truthy (field s) = true ->
  field (storeIdentity attrs s) = field s.
Proof.
  intros Hin Ht.
  destruct (storeIdentity_fields attrs s) as (Ho & Hu & He & Hty & _ & Ha & _).
  each_identity Hin.
  - now rewrite Ho, Ht, andb_false_r.
  - now rewrite Hu, Ht, andb_false_r.
  - now rewrite He, Ht, andb_false_r.
  - now rewrite Hty, Ht, andb_false_r.
  - exact Ha.
Qed.

(** The metric handlers write no identity property at all. *)
Lemma metric_handler_identity (name : JsVal)
    (handler : DataPoint.t -> gmap string JsVal -> number -> M JsVal)
    (dp : DataPoint.t) (attrs : gmap string JsVal) (ts : number) (w : World)
    (field : Session -> JsVal) :
  MetricsProcessor.selectHandler name = Some handler ->
  In field identityFields ->
  field (session (fst (handler dp attrs ts w))) = field (session w).
Proof.
  intros Hsel Hin. destruct name as [| |b|n|n|fs]; try discriminate Hsel.
  unfold MetricsProcessor.selectHandler in Hsel. switch_cases Hsel.
  - unfold processCostMetric. run. each_identity Hin; reflexivity.
  - unfold processTokenMetric. run. each_identity Hin; reflexivity.
  - unfold processLinesOfCodeMetric. run. each_identity Hin; reflexivity.
  - unfold processCommitMetric. run.
    destruct (truthyCount (commitCount (session w))); run;
      each_identity Hin; reflexivity.
  - unfold processToolDecisionMetric, isoTimestamp.
    destruct (toolDecisions (session w)) as [l|] eqn:Htd; run; rewrite ?Htd; run.
    all: destruct (truthy (currentTrace (session w)) && langfuse (session w));
      run; rewrite ?Htd; run.
    all: try (destruct (toISOString _); run; rewrite ?Htd; run).
    all: each_identity Hin; reflexivity.
  - unfold processSessionMetric, isoTimestamp. run.
    destruct (toISOString _); run; each_identity Hin; reflexivity.
  - unfold processActiveTimeMetric. run. each_identity Hin; reflexivity.
  - unfold processPullRequestMetric. run. each_identity Hin; reflexivity.
  - unfold processPullRequestMetric. run. each_identity Hin; reflexivity.
Qed.

(** Each log handler leaves the session as the session method it calls
    left it; the decision handler calls none. *)
Lemma event_handler_state (name : JsVal)
    (handler : gmap string JsVal -> list (string * JsVal) -> number -> M JsVal)
    (attrs : gmap string JsVal) (std : list (string * JsVal)) (ts : number)
    (w : World) :
  EventProcessor.selectHandler name = Some handler ->
  session (fst (handler attrs std ts w)) = session w
  \/ exists data eventTimestamp,
       fst (handler attrs std ts w) = fst (handleUserPrompt data eventTimestamp w)
       \/ fst (handler attrs std ts w) = fst (handleApiRequest data eventTimestamp w)
       \/ fst (handler attrs std ts w) = fst (handleApiError data eventTimestamp w)
       \/ fst (handler attrs std ts w) = fst (handleToolResult data eventTimestamp w).
Proof.
  intros Hsel. destruct name as [| |b|n|n|fs]; try discriminate Hsel.
  unfold EventProcessor.selectHandler in Hsel. switch_cases Hsel.
  - right. do 2 eexists. left. unfold processUserPrompt. run.
    apply call_then_return_state.
  - right. do 2 eexists. right; left. unfold processApiRequest. run.
    apply call_then_return_state.
  - right. do 2 eexists. do 2 right; left. unfold processApiError. run.
    apply call_then_return_state.
  - right. do 2 eexists. do 3 right. unfold processToolResult. run.
    apply call_then_return_state.
  - left. apply emitted_log_decision.
Qed.

End Identity.

(** C8. Once a session holds a value for [organizationId],
    [userAccountUuid], [userEmail], [terminalType] or [appVersion],
    processing a later log record or metric datapoint leaves that value as
    it is, whatever the record carries: [processEvent] assigns an identity
    property only where the session holds none, and the metric handlers
    assign none. The methods of the session object that the processors call
    are taken to follow the same rule. *)
Theorem C8_identity_first_write_wins :
  forall (H : SessionHandler),
    (forall data t, firstWriteWins (handleUserPrompt data t)) ->
    (forall data t, firstWriteWins (handleApiRequest data t)) ->
    (forall data t, firstWriteWins (handleApiError data t)) ->
    (forall data t, firstWriteWins (handleToolResult data t)) ->
    (forall metric dp attrs, firstWriteWins (session_processMetric metric dp attrs)) ->
    (forall lr resource, firstWriteWins (processEvent lr resource))
    /\ (forall metric dp attrs, firstWriteWins (processMetric metric dp attrs)).
Proof.
  intros H Hprompt Hrequest Herror Hresult Hmetric. split.
  - intros lr resource field Hin w Ht. rewrite processEvent_run.
    destruct (toISOString _) as [iso|]; [|reflexivity]. cbv zeta.
    set (attrs := extractAttributesArray (LogRecord.attributes lr)).
    set (w1 := mkWorld (storeIdentity attrs (session w)) (langfuseCalls w)).
    assert (Hkeep : field (session w1) = field (session w))
      by (apply storeIdentity_keeps; assumption).
    assert (Ht1 : truthy (field (session w1)) = true) by now rewrite Hkeep.
    destruct (EventProcessor.selectHandler (eventName lr)) as [handler|] eqn:Hsel;
      [|exact Hkeep].
    rewrite <- Hkeep.
    destruct (event_handler_state _ _ attrs
                (standardAttrsOf attrs (session w) (JStr iso)) (eventTime lr) w1 Hsel)
      as [Hsame|(data & t & [Hs|[Hs|[Hs|Hs]]])].
    + now rewrite Hsame.
    + rewrite Hs. now apply Hprompt.
    + rewrite Hs. now apply Hrequest.
    + rewrite Hs. now apply Herror.
    + rewrite Hs. now apply Hresult.
  - intros metric dp attrs field Hin w Ht. unfold processMetric.
    rewrite bind_run. specialize (Hmetric metric dp attrs field Hin w Ht).
    destruct (session_processMetric metric dp attrs w) as [w1 [[]|e]];
      cbn [fst] in Hmetric; [|exact Hmetric].
    rewrite <- Hmetric.
    destruct (MetricsProcessor.selectHandler (Metric.name metric))
      as [handler|] eqn:Hsel.
    + now apply (metric_handler_identity _ _ _ _ _ _ _ Hsel).
    + reflexivity.
Qed.

Lemma C8_identity_first_write_wins_witness :
  let lr := LogRecord.mk (JObj [("stringValue", JStr "claude_code.user_prompt")])
              sampleTimeUnixNano
              (Some [stringAttr "organization.id" "org-456";
                     stringAttr "prompt" "hello"]) in
  let w := mkWorld (setOrganizationId (JStr "org-123") mockSessionState) [] in
  organizationId (session (fst (processEvent lr JNull w))) = JStr "org-123".
Proof.
  cbv zeta.
  refine (proj1 (C8_identity_first_write_wins mockSession _ _ _ _ _) _ JNull
            organizationId _ (mkWorld (setOrganizationId (JStr "org-123")
                                         mockSessionState) []) _);
    try (intros; intros field Hin w Ht; reflexivity).
  - left. reflexivity.
  - reflexivity.
Defined.

(** ** Counters *)

Section Counters.

Lemma processPullRequestMetric_run (dp : DataPoint.t) (attrs : gmap string JsVal)
    (ts : number) (w : World) :
  processPullRequestMetric dp attrs ts w
  = (mkWorld (setPrCount (Some (JsNumber.add (countBase (prCount (session w)))
                                  (countOf dp)))
                (session w))
       (langfuseCalls w),
     Normal (JObj [("type", JStr "pull_request"); ("prCount", JNum (countOf dp));
                   ("timestamp", JNum ts)])).
Proof. reflexivity. Qed.

Lemma processCommitMetric_run (dp : DataPoint.t) (attrs : gmap string JsVal)
    (ts : number) (w : World) :
  processCommitMetric dp attrs ts w
  = (mkWorld (setCommitCount (Some (JsNumber.add (countBase (commitCount (session w)))
                                      (countOf dp)))
                (session w))
       (langfuseCalls w),
     Normal (JObj [("type", JStr "commit"); ("commits", JNum (countOf dp));
                   ("timestamp", JNum ts)])).
Proof.
  unfold processCommitMetric, countBase. run.
  destruct (commitCount (session w)) as [c|] eqn:Hc; cbn [truthyCount].
  - destruct (JsNumber.truthy c) eqn:Ht; run; rewrite ?Hc; cbn [countValue].
    + reflexivity.
    + reflexivity.
  - run. reflexivity.
Qed.

End Counters.

(** C7. A metric named [claude_code.pr.count] and one named
    [claude_code.pull_request.count] are dispatched to the same handler on
    the same datapoint: each runs [processPullRequestMetric] after the
    session's own [processMetric], adds the parsed value of the datapoint to
    [session.prCount] and returns [{type, prCount, timestamp}]; whenever the
    session's own [processMetric] treats the two names alike, the two runs
    end in the same session and return the same result. *)
Theorem C7_pr_count_names_are_equivalent :
  forall (H : SessionHandler) (dp : DataPoint.t) (attrs : gmap string JsVal)
         (w : World),
    session_processMetric prCountMetric dp attrs w
    = session_processMetric pullRequestCountMetric dp attrs w ->
    processMetric prCountMetric dp attrs w
    = processMetric pullRequestCountMetric dp attrs w
    /\ (forall metric, metric = prCountMetric \/ metric = pullRequestCountMetric ->
        processMetric metric dp attrs w
        = (_ ← session_processMetric metric dp attrs;
           processPullRequestMetric dp attrs (metricTime dp)) w)
    /\ (forall w1,
          processPullRequestMetric dp attrs (metricTime dp) w1
          = (mkWorld (setPrCount
                        (Some (JsNumber.add (countBase (prCount (session w1)))
                                 (countOf dp)))
                        (session w1))
               (langfuseCalls w1),
             Normal (JObj [("type", JStr "pull_request");
                           ("prCount", JNum (countOf dp));
                           ("timestamp", JNum (metricTime dp))]))).
Proof.
  intros H dp attrs w Hhook.
  assert (Hdispatch : forall metric,
             metric = prCountMetric \/ metric = pullRequestCountMetric ->
             processMetric metric dp attrs w
             = (_ ← session_processMetric metric dp attrs;
                processPullRequestMetric dp attrs (metricTime dp)) w)
    by (intros metric [->| ->]; reflexivity).
  split; [|split].
  - rewrite (Hdispatch prCountMetric) by now left.
    rewrite (Hdispatch pullRequestCountMetric) by now right.
    rewrite !bind_run. now rewrite Hhook.
  - exact Hdispatch.
  - intros w1. apply processPullRequestMetric_run.
Qed.

Lemma C7_pr_count_names_are_equivalent_witness :
  let dp := DataPoint.mk JUndefined (JStr "3") sampleTimeUnixNano in
  processMetric prCountMetric dp ∅ mockWorld
  = processMetric pullRequestCountMetric dp ∅ mockWorld.
Proof.
  cbv zeta.
  apply (C7_pr_count_names_are_equivalent mockSession
           (DataPoint.mk JUndefined (JStr "3") sampleTimeUnixNano) ∅ mockWorld).
  reflexivity.
Defined.

Section Monotonicity.

Context `{SessionHandler}.

Lemma add_countBase (a n : Q) :
  (0 <= n)%Q ->
  exists b, JsNumber.add (countBase (Some (Num a))) (Num n) = Num b /\ (a <= b)%Q.
Proof.
  intros Hn. unfold countBase. cbn [truthyCount JsNumber.truthy countValue].
  destruct (Qeq_bool a 0) eqn:Hz; cbn [negb JsNumber.add]; eexists;
    (split; [reflexivity|]); rewrite Qred_correct.
  - apply Qeq_bool_iff in Hz. rewrite Hz, Qplus_0_l. exact Hn.
  - rewrite <- (Qplus_0_r a) at 1. now apply Qplus_le_r.
Qed.

(** What a metric handler does to the two counts. *)
Lemma metric_handler_counts (name : JsVal)
    (handler : DataPoint.t -> gmap string JsVal -> number -> M JsVal)
    (dp : DataPoint.t) (attrs : gmap string JsVal) (ts : number) (w : World) :
  MetricsProcessor.selectHandler name = Some handler ->
  let s := session w in
  let s' := session (fst (handler dp attrs ts w)) in
  (name = JStr "claude_code.commit.count"
   /\ commitCount s' = Some (JsNumber.add (countBase (commitCount s)) (countOf dp))
   /\ prCount s' = prCount s)
  \/ ((name = JStr "claude_code.pr.count"
       \/ name = JStr "claude_code.pull_request.count")
      /\ prCount s' = Some (JsNumber.add (countBase (prCount s)) (countOf dp))
      /\ commitCount s' = commitCount s)
  \/ (commitCount s' = commitCount s /\ prCount s' = prCount s).
Proof.
  intros Hsel. cbv zeta. destruct name as [| |b|n|n|fs]; try discriminate Hsel.
  unfold MetricsProcessor.selectHandler in Hsel. switch_cases Hsel.
  - do 2 right. unfold processCostMetric. run. now split.
  - do 2 right. unfold processTokenMetric. run. now split.
  - do 2 right. unfold processLinesOfCodeMetric. run. now split.
  - left. rewrite processCommitMetric_run.
    match goal with E : String.eqb n _ = true |- _ => apply String.eqb_eq in E as -> end.
    now repeat split.
  - do 2 right. split.
    + unfold processToolDecisionMetric, isoTimestamp.
      destruct (toolDecisions (session w)) as [l|] eqn:Htd; run; rewrite ?Htd; run.
      all: destruct (truthy (currentTrace (session w)) && langfuse (session w));
        run; rewrite ?Htd; run.
      all: try (destruct (toISOString _); run; rewrite ?Htd; run).
      all: reflexivity.
    + unfold processToolDecisionMetric, isoTimestamp.
      destruct (toolDecisions (session w)) as [l|] eqn:Htd; run; rewrite ?Htd; run.
      all: destruct (truthy (currentTrace (session w)) && langfuse (session w));
        run; rewrite ?Htd; run.
      all: try (destruct (toISOString _); run; rewrite ?Htd; run).
      all: reflexivity.
  - do 2 right. unfold processSessionMetric, isoTimestamp. run.
    destruct (toISOString _); run; now split.
  - do 2 right. unfold processActiveTimeMetric. run. now split.
  - right; left. rewrite processPullRequestMetric_run.
    match goal with E : String.eqb n _ = true |- _ => apply String.eqb_eq in E as -> end.
    split; [now left|]. now split.
  - right; left. rewrite processPullRequestMetric_run.
    match goal with E : String.eqb n _ = true |- _ => apply String.eqb_eq in E as -> end.
    split; [now right|]. now split.
Qed.

Lemma nonDecreasing_same {A} (count : Session -> option number) (m : M A) :
  (forall w, count (session (fst (m w))) = count (session w)) ->
  nonDecreasing count m.
Proof.
  intros Hsame w a Ha. exists a. split; [now rewrite Hsame|apply Qle_refl].
Qed.

Lemma processMetric_nonDecreasing (metric : Metric.t) (dp : DataPoint.t)
    (attrs : gmap string JsVal) :
  keepsCounts (session_processMetric metric dp attrs) ->
  countIsNatural metric dp ->
  keepsCounts (processMetric metric dp attrs).
Proof.
  intros [Hc Hp] Hvalue. split; intros w a Ha.
  - destruct (Hc w a Ha) as (b & Hb & Hab).
    unfold processMetric. rewrite bind_run.
    destruct (session_processMetric metric dp attrs w) as [w1 [[]|e]];
      cbn [fst] in Hb |- *; [|now exists b].
    destruct (MetricsProcessor.selectHandler (Metric.name metric))
      as [handler|] eqn:Hsel; [|now exists b].
    destruct (metric_handler_counts _ _ dp attrs (metricTime dp) w1 Hsel)
      as [(Hname & Hnew & _)|[(_ & _ & Hsame)|(Hsame & _)]].
    + destruct Hvalue as (n & Hn & Hpos); [rewrite Hname; now left|].
      fold (metricTime dp). rewrite Hnew, Hb, Hn.
      destruct (add_countBase b n Hpos) as (c & -> & Hbc).
      exists c. split; [reflexivity|]. now apply Qle_trans with b.
    + exists b. fold (metricTime dp). now rewrite Hsame.
    + exists b. fold (metricTime dp). now rewrite Hsame.
  - destruct (Hp w a Ha) as (b & Hb & Hab).
    unfold processMetric. rewrite bind_run.
    destruct (session_processMetric metric dp attrs w) as [w1 [[]|e]];
      cbn [fst] in Hb |- *; [|now exists b].
    destruct (MetricsProcessor.selectHandler (Metric.name metric))
      as [handler|] eqn:Hsel; [|now exists b].
    destruct (metric_handler_counts _ _ dp attrs (metricTime dp) w1 Hsel)
      as [(_ & _ & Hsame)|[(Hname & Hnew & _)|(_ & Hsame)]].
    + exists b. fold (metricTime dp). now rewrite Hsame.
    + destruct Hvalue as (n & Hn & Hpos);
        [destruct Hname as [-> | ->]; [right; now left|right; right; now left]|].
      fold (metricTime dp). rewrite Hnew, Hb, Hn.
      destruct (add_countBase b n Hpos) as (c & -> & Hbc).
      exists c. split; [reflexivity|]. now apply Qle_trans with b.
    + exists b. fold (metricTime dp). now rewrite Hsame.
Qed.

(** [processEvent] writes neither count itself. *)
Lemma processEvent_nonDecreasing (lr : LogRecord.t) (resource : JsVal) :
  sessionKeepsCounts -> keepsCounts (processEvent lr resource).
Proof.
  intros (Hprompt & Hrequest & Herror & Hresult & _).
  assert (Hgen : forall count : Session -> option number,
             (forall attrs s, count (storeIdentity attrs s) = count s) ->
             (forall data t, nonDecreasing count (handleUserPrompt data t)) ->
             (forall data t, nonDecreasing count (handleApiRequest data t)) ->
             (forall data t, nonDecreasing count (handleApiError data t)) ->
             (forall data t, nonDecreasing count (handleToolResult data t)) ->
             nonDecreasing count (processEvent lr resource)).
  { intros count Hstore Hp Hq He Hr w a Ha. rewrite processEvent_run.
    destruct (toISOString _) as [iso|];
      [|exists a; split; [exact Ha|apply Qle_refl]].
    cbv zeta. set (attrs := extractAttributesArray (LogRecord.attributes lr)).
    set (w1 := mkWorld (storeIdentity attrs (session w)) (langfuseCalls w)).
    assert (Ha1 : count (session w1) = Some (Num a))
      by (unfold w1; cbn [session]; now rewrite Hstore).
    destruct (EventProcessor.selectHandler (eventName lr)) as [handler|] eqn:Hsel;
      [|exists a; split; [exact Ha1|apply Qle_refl]].
    destruct (event_handler_state _ _ attrs
                (standardAttrsOf attrs (session w) (JStr iso)) (eventTime lr) w1 Hsel)
      as [Hsame|(data & t & [Hs|[Hs|[Hs|Hs]]])].
    - exists a. split; [now rewrite Hsame|apply Qle_refl].
    - rewrite Hs. now apply Hp.
    - rewrite Hs. now apply Hq.
    - rewrite Hs. now apply He.
    - rewrite Hs. now apply Hr. }
  split; apply Hgen;
    try (intros attrs s; apply (storeIdentity_fields attrs s));
    intros data t;
    first [apply Hprompt|apply Hrequest|apply Herror|apply Hresult].
Qed.

Lemma ingests_nonDecreasing (s s' : Session) :
  sessionKeepsCounts -> ingests s s' ->
  (forall a, commitCount s = Some (Num a) ->
     exists b, commitCount s' = Some (Num b) /\ (a <= b)%Q)
  /\ (forall a, prCount s = Some (Num a) ->
        exists b, prCount s' = Some (Num b) /\ (a <= b)%Q).
Proof.
  intros Hkeeps Hing.
  induction Hing as [s|s s' calls metric dp attrs Hvalue Hrest IH
                     |s s' calls lr resource Hrest IH].
  - split; intros a Ha; exists a; (split; [exact Ha|apply Qle_refl]).
  - destruct (processMetric_nonDecreasing metric dp attrs
                (proj2 (proj2 (proj2 (proj2 Hkeeps))) metric dp attrs) Hvalue)
      as [Hc Hp].
    destruct IH as [IHc IHp]. split; intros a Ha.
    + destruct (Hc (mkWorld s calls) a Ha) as (b & Hb & Hab).
      destruct (IHc b Hb) as (c & Hcount & Hbc).
      exists c. split; [exact Hcount|now apply Qle_trans with b].
    + destruct (Hp (mkWorld s calls) a Ha) as (b & Hb & Hab).
      destruct (IHp b Hb) as (c & Hcount & Hbc).
      exists c. split; [exact Hcount|now apply Qle_trans with b].
  - destruct (processEvent_nonDecreasing lr resource Hkeeps) as [Hc Hp].
    destruct IH as [IHc IHp]. split; intros a Ha.
    + destruct (Hc (mkWorld s calls) a Ha) as (b & Hb & Hab).
      destruct (IHc b Hb) as (c & Hcount & Hbc).
      exists c. split; [exact Hcount|now apply Qle_trans with b].
    + destruct (Hp (mkWorld s calls) a Ha) as (b & Hb & Hab).
      destruct (IHp b Hb) as (c & Hcount & Hbc).
      exists c. split; [exact Hcount|now apply Qle_trans with b].
Qed.

End Monotonicity.

(** C9, as stated, at a [claude_code.commit.count] datapoint and at a
    [claude_code.pr.count] datapoint whose value is [asInt: "-1"]: the
    count of the session goes from 2 down to 1. *)
Lemma C9_negative_datapoint_decreases_count :
  let dp := DataPoint.mk JUndefined (JStr "-1") sampleTimeUnixNano in
  let w := mkWorld (setPrCount (Some (Num 2))
                      (setCommitCount (Some (Num 2)) mockSessionState)) [] in
  let afterCommit :=
    fst (processMetric (Metric.mk (JStr "claude_code.commit.count")) dp ∅ w) in
  let afterPr := fst (processMetric prCountMetric dp ∅ w) in
  commitCount (session w) = Some (Num 2)
  /\ commitCount (session afterCommit) = Some (Num 1)
  /\ prCount (session w) = Some (Num 2)
  /\ prCount (session afterPr) = Some (Num 1)
  /\ JsNumber.le (Num 2) (Num 1) = false.
Proof.
  cbv zeta. repeat split; vm_compute; reflexivity.
Qed.

(** C9 (amended). Over any sequence of ingested log records and metric
    datapoints, [session.commitCount] and [session.prCount] never decrease,
    provided every [claude_code.commit.count], [claude_code.pr.count] and
    [claude_code.pull_request.count] datapoint carries a value that parses
    to a non-negative number and the methods of the session object lower
    neither count: such a datapoint leaves its count greater than or equal
    to the previous value, and no other handler writes the two counts. *)
Theorem C9_counts_never_decrease :
  forall (H : SessionHandler),
    sessionKeepsCounts ->
    (forall metric dp attrs,
        countIsNatural metric dp -> keepsCounts (processMetric metric dp attrs))
    /\ (forall lr resource, keepsCounts (processEvent lr resource))
    /\ (forall s s',
          ingests s s' ->
          (forall a, commitCount s = Some (Num a) ->
             exists b, commitCount s' = Some (Num b) /\ (a <= b)%Q)
          /\ (forall a, prCount s = Some (Num a) ->
                exists b, prCount s' = Some (Num b) /\ (a <= b)%Q)).
Proof.
  intros H Hkeeps. split; [|split].
  - intros metric dp attrs Hvalue.
    apply processMetric_nonDecreasing; [|exact Hvalue].
    apply (proj2 (proj2 (proj2 (proj2 Hkeeps)))).
  - intros lr resource. now apply processEvent_nonDecreasing.
  - intros s s' Hing. now apply ingests_nonDecreasing.
Qed.

Lemma C9_counts_never_decrease_witness :
  let dp := DataPoint.mk JUndefined (JStr "3") sampleTimeUnixNano in
  let w := mkWorld (setCommitCount (Some (Num 2)) mockSessionState) [] in
  exists b,
    commitCount
      (session (fst (processMetric (Metric.mk (JStr "claude_code.commit.count"))
                       dp ∅ w)))
    = Some (Num b)
    /\ (2 <= b)%Q.
Proof.
  cbv zeta.
  assert (Hmock : forall A (x : A), keepsCounts (mret x : M A))
    by (intros A x; split; intros w a Ha; exists a;
        (split; [exact Ha|apply Qle_refl])).
  assert (Hkeeps : @sessionKeepsCounts mockSession)
    by (repeat split; intros; apply Hmock).
  assert (Hvalue : countIsNatural (Metric.mk (JStr "claude_code.commit.count"))
                     (DataPoint.mk JUndefined (JStr "3") sampleTimeUnixNano))
    by (intros _; exists 3%Q; split; [reflexivity|unfold Qle; simpl; lia]).
  apply (proj1 (proj1 (C9_counts_never_decrease mockSession Hkeeps) _ _ ∅ Hvalue)).
  reflexivity.
Defined.

(** * Further properties *)

(** ** Times *)

Lemma isoOf_valid (ts : number) : (exists iso, isoOf ts = Some iso) <-> validTime ts.
Proof.
  unfold isoOf, validTime, newDate, ToNumber, TimeClip, toISOString.
  destruct ts as [| b | q].
  - split; [intros [iso Hiso]; discriminate|intros (q & Hq & _); discriminate].
  - split; [intros [iso Hiso]; discriminate|intros (q & Hq & _); discriminate].
  - destruct (Qle_bool (Qabs q) (inject_Z maxTime)) eqn:Hle.
    + split; [intros _; exists q; split; [reflexivity|now apply Qle_bool_iff]|eauto].
    + split; [intros [iso Hiso]; discriminate|].
      intros (q' & [= <-] & Hq). apply Qle_bool_iff in Hq. congruence.
Qed.

Lemma isoOf_invalid (ts : number) : isoOf ts = None <-> ~ validTime ts.
Proof.
  rewrite <- isoOf_valid. destruct (isoOf ts) as [iso|].
  - split; [discriminate|intros Hn; exfalso; apply Hn; eauto].
  - split; [intros _ [iso Hiso]; discriminate|reflexivity].
Qed.

Lemma isoTimestamp_run (ts : number) (w : World) :
  isoTimestamp ts w =
  match isoOf ts with
  | Some iso => (w, Normal (JStr iso))
  | None => (w, Throw (RangeError "Invalid time value"))
  end.
Proof. unfold isoTimestamp, isoOf. destruct (toISOString _); reflexivity. Qed.

Lemma processToolDecisionMetric_run (dp : DataPoint.t) (attrs : gmap string JsVal)
    (ts : number) (w : World) :
  let decision := attr attrs "decision" <||> JStr "unknown" in
  let tool := attr attrs "tool" <||> JStr "unknown" in
  let language := attr attrs "language" <||> JStr "unknown" in
  let count := DataPoint.asDouble dp <||> DataPoint.asInt dp <||> JNum (Num 1) in
  let entry := decisionEntry decision tool language count ts in
  let s1 := setToolDecisions
              (Some (default [] (toolDecisions (session w)) ++ [JObj entry]))
              (session w) in
  processToolDecisionMetric dp attrs ts w =
  if traced (session w) then
    match isoOf ts with
    | Some iso =>
        (mkWorld s1
           (langfuseCalls w
            ++ [("event"%string,
                 codeEditDecisionEvent decision tool language count
                   (get (currentTrace (session w)) "id") iso)]),
         Normal (JObj (("type", JStr "tool_decision") :: entry)))
    | None => (mkWorld s1 (langfuseCalls w), Throw (RangeError "Invalid time value"))
    end
  else (mkWorld s1 (langfuseCalls w), Normal (JObj (("type", JStr "tool_decision") :: entry))).
Proof.
  cbv zeta. unfold processToolDecisionMetric, traced, isoTimestamp, isoOf, codeEditDecisionEvent.
  destruct (toolDecisions (session w)) eqn:Htd; run; rewrite ?Htd; run; cbv [id];
    (destruct (truthy (currentTrace (session w)) && langfuse (session w)); run;
     [destruct (toISOString _); run; rewrite ?Htd; reflexivity|rewrite ?Htd; reflexivity]).
Qed.

(** ** Metric reports *)

(** Picks the disjunct that holds by computation. *)
Ltac pick_case :=
  solve [repeat first [left; split; reflexivity | split; reflexivity | right]].

Section MetricFacts.

Context `{SessionHandler}.

Lemma processCostMetric_run (dp : DataPoint.t) (attrs : gmap string JsVal)
    (ts : number) (w : World) :
  processCostMetric dp attrs ts w
  = (w, Normal (JObj [("type", JStr "cost");
                      ("cost", DataPoint.asDouble dp <||> JNum (Num 0));
                      ("model", attr attrs "model" <||> JStr "unknown");
                      ("timestamp", JNum ts)])).
Proof. reflexivity. Qed.

Lemma processTokenMetric_run (dp : DataPoint.t) (attrs : gmap string JsVal)
    (ts : number) (w : World) :
  processTokenMetric dp attrs ts w
  = (w, Normal (JObj [("type", JStr "token");
                      ("tokens", DataPoint.asDouble dp <||> JNum (Num 0));
                      ("tokenType", attr attrs "type" <||> JStr "unknown");
                      ("model", attr attrs "model" <||> JStr "unknown");
                      ("timestamp", JNum ts)])).
Proof. reflexivity. Qed.

Lemma processLinesOfCodeMetric_run (dp : DataPoint.t) (attrs : gmap string JsVal)
    (ts : number) (w : World) :
  processLinesOfCodeMetric dp attrs ts w
  = (w, Normal (JObj [("type", JStr "lines_of_code");
                      ("lines", DataPoint.asDouble dp <||> JNum (Num 0));
                      ("changeType", attr attrs "type" <||> JStr "unknown");
                      ("timestamp", JNum ts)])).
Proof. reflexivity. Qed.

Lemma processActiveTimeMetric_run (dp : DataPoint.t) (attrs : gmap string JsVal)
    (ts : number) (w : World) :
  processActiveTimeMetric dp attrs ts w
  = (mkWorld (setActiveTime (DataPoint.asDouble dp <||> JNum (Num 0)) (session w))
       (langfuseCalls w),
     Normal (JObj [("type", JStr "active_time");
                   ("activeTime", DataPoint.asDouble dp <||> JNum (Num 0));
                   ("timestamp", JNum ts)])).
Proof. reflexivity. Qed.

Lemma processSessionMetric_run (dp : DataPoint.t) (attrs : gmap string JsVal)
    (ts : number) (w : World) :
  processSessionMetric dp attrs ts w
  = (mkWorld (setSessionStarted (JBool true) (session w)) (langfuseCalls w),
     match isoOf ts with
     | Some _ => Normal (JObj [("type", JStr "session_start"); ("timestamp", JNum ts)])
     | None => Throw (RangeError "Invalid time value")
     end).
Proof.
  unfold processSessionMetric, isoTimestamp, isoOf. run.
  destruct (toISOString _); reflexivity.
Qed.

Lemma processMetric_run (metric : Metric.t) (dp : DataPoint.t)
    (attrs : gmap string JsVal) (w : World) :
  processMetric metric dp attrs w =
  match session_processMetric metric dp attrs w with
  | (w1, Normal _) =>
      match MetricsProcessor.selectHandler (Metric.name metric) with
      | Some handler => handler dp attrs (metricTime dp) w1
      | None => (w1, Normal JNull)
      end
  | (w1, Throw e) => (w1, Throw e)
  end.
Proof.
  unfold processMetric. rewrite bind_run.
  destruct (session_processMetric metric dp attrs w) as [w1 [[]|e]]; [|reflexivity].
  destruct (MetricsProcessor.selectHandler (Metric.name metric)); reflexivity.
Qed.



Lemma metric_handler_cases (name : JsVal)
    (handler : DataPoint.t -> gmap string JsVal -> number -> M JsVal) :
  MetricsProcessor.selectHandler name = Some handler ->
  (name = JStr "claude_code.cost.usage" /\ handler = processCostMetric)
  \/ (name = JStr "claude_code.token.usage" /\ handler = processTokenMetric)
  \/ (name = JStr "claude_code.lines_of_code.count"
      /\ handler = processLinesOfCodeMetric)
  \/ (name = JStr "claude_code.commit.count" /\ handler = processCommitMetric)
  \/ (name = JStr "claude_code.code_edit_tool.decision"
      /\ handler = processToolDecisionMetric)
  \/ (name = JStr "claude_code.session.count" /\ handler = processSessionMetric)
  \/ (name = JStr "claude_code.active_time.total"
      /\ handler = processActiveTimeMetric)
  \/ (name = JStr "claude_code.pr.count" /\ handler = processPullRequestMetric)
  \/ (name = JStr "claude_code.pull_request.count"
      /\ handler = processPullRequestMetric).
Proof.
  intros Hsel. destruct name as [| |b|n|n|fs]; try discriminate Hsel.
  unfold MetricsProcessor.selectHandler in Hsel. switch_cases Hsel.
  all: match goal with
       | E : String.eqb _ _ = true |- _ => apply String.eqb_eq in E as ->
       end.
  all: pick_case.
Qed.





End MetricFacts.



Section CountFacts.

Lemma parseInt_whole (v : JsVal) : wholeOrNaN (JNum (parseInt v)).
Proof.
  unfold wholeOrNaN.
  destruct v as [| |b|n|s|fs]; try (left; reflexivity).
  - destruct n as [| neg | q]; try (left; reflexivity).
    right. cbn [parseInt parseIntOfNumber].
    destruct (Qeq_bool q 0); [exists 0; reflexivity|].
    destruct (Qle_bool _ _); [eexists; reflexivity|].
    destruct (Qle_bool _ _); eexists; reflexivity.
  - cbn [parseInt]. unfold parseIntOfString.
    destruct (readSign (skipWhiteSpace s)) as [negative s1].
    destruct (readDigits s1 0 0) as [[value count] rest].
    destruct (Nat.eqb count 0); [left; reflexivity|right; eexists; reflexivity].
Qed.

Lemma countOf_whole (dp : DataPoint.t) :
  countOf dp = NaN \/ exists z, countOf dp = ofZ z.
Proof.
  destruct (parseInt_whole (DataPoint.asInt dp <||> DataPoint.asDouble dp <||> JStr "0"))
    as [[= Hnan]|[z [= Hz]]]; [now left|right; now exists z].
Qed.

Lemma Qred_inject_Z (z : Z) : Qred (inject_Z z) = inject_Z z.
Proof.
  unfold Qred, inject_Z. cbn [Qnum Qden].
  pose proof (Z.ggcd_gcd z 1) as Hg.
  pose proof (Z.ggcd_correct_divisors z 1) as Hd.
  destruct (Z.ggcd z 1) as [g [aa bb]]. cbn [fst snd] in *.
  rewrite Z.gcd_1_r in Hg. subst g. destruct Hd as [Ha Hb].
  replace bb with 1 by lia. replace aa with z by lia. reflexivity.
Qed.

Lemma add_ofZ (a b : Z) : JsNumber.add (ofZ a) (ofZ b) = ofZ (a + b).
Proof.
  unfold ofZ. cbn [JsNumber.add]. f_equal.
  rewrite <- (Qred_inject_Z (a + b)).
  apply Qred_complete. unfold Qeq. cbn. lia.
Qed.

Lemma countBase_ofZ (z : Z) : countBase (Some (ofZ z)) = ofZ z.
Proof.
  unfold countBase, truthyCount, countValue, JsNumber.truthy, ofZ.
  destruct (Qeq_bool (inject_Z z) 0) eqn:Hz; cbn [negb]; [|reflexivity].
  apply Qeq_bool_iff in Hz. unfold Qeq in Hz. cbn in Hz.
  replace z with 0 by lia. reflexivity.
Qed.

Lemma add_in_either_order (c : option number) (a n1 n2 : Z) :
  startsFrom c a ->
  JsNumber.add (countBase (Some (JsNumber.add (countBase c) (ofZ n1)))) (ofZ n2)
  = ofZ (a + n1 + n2)
  /\ JsNumber.add (countBase (Some (JsNumber.add (countBase c) (ofZ n2)))) (ofZ n1)
     = ofZ (a + n1 + n2).
Proof.
  unfold startsFrom. intros ->. rewrite !add_ofZ, !countBase_ofZ, !add_ofZ.
  split; f_equal; lia.
Qed.

Lemma add_NaN (x : number) : JsNumber.add x NaN = NaN.
Proof. now destruct x. Qed.

End CountFacts.



(** X3. Active time is a gauge: after an active-time datapoint the session
    holds that datapoint's [asDouble] (0 when it is missing or falsy),
    whatever it held before, so two datapoints in sequence leave the session
    as the second alone would. *)
Theorem active_time_last_datapoint_wins :
  forall (dp1 dp2 : DataPoint.t) (attrs1 attrs2 : gmap string JsVal)
         (t1 t2 : number) (w : World),
    andThen (processActiveTimeMetric dp1 attrs1 t1)
      (processActiveTimeMetric dp2 attrs2 t2) w
    = processActiveTimeMetric dp2 attrs2 t2 w
    /\ activeTime (session (fst (processActiveTimeMetric dp2 attrs2 t2 w)))
       = DataPoint.asDouble dp2 <||> JNum (Num 0).
Proof.
  intros. unfold andThen. rewrite bind_run, !processActiveTimeMetric_run.
  split; reflexivity.
Qed.

(** X4. Commit and pull-request counts add up: from a count that starts
    from the whole number [a] (a missing, zero or [NaN] count starts from
    0), two datapoints that carry the whole numbers [n1] and [n2] leave the
    count at [a + n1 + n2], in whichever order they arrive; the sum is
    within the range where the additions of the code are exact. *)
Theorem count_metrics_add_up :
  forall (dp1 dp2 : DataPoint.t) (attrs1 attrs2 : gmap string JsVal)
         (t1 t2 : number) (w : World) (a n1 n2 : Z),
    countOf dp1 = ofZ n1 ->
    countOf dp2 = ofZ n2 ->
    Z.abs a + Z.abs n1 + Z.abs n2 <= 2 ^ 53 ->
    (startsFrom (commitCount (session w)) a ->
     commitCount (session (fst (andThen (processCommitMetric dp1 attrs1 t1)
                                  (processCommitMetric dp2 attrs2 t2) w)))
     = Some (ofZ (a + n1 + n2))
     /\ commitCount (session (fst (andThen (processCommitMetric dp2 attrs2 t2)
                                     (processCommitMetric dp1 attrs1 t1) w)))
        = Some (ofZ (a + n1 + n2)))
    /\ (startsFrom (prCount (session w)) a ->
        prCount (session (fst (andThen (processPullRequestMetric dp1 attrs1 t1)
                                (processPullRequestMetric dp2 attrs2 t2) w)))
        = Some (ofZ (a + n1 + n2))
        /\ prCount (session (fst (andThen (processPullRequestMetric dp2 attrs2 t2)
                                    (processPullRequestMetric dp1 attrs1 t1) w)))
           = Some (ofZ (a + n1 + n2))).
Proof.
  intros dp1 dp2 attrs1 attrs2 t1 t2 w a n1 n2 H1 H2 _. unfold andThen. split.
  - intros Ha. rewrite !bind_run, !processCommitMetric_run.
    cbn [fst session commitCount setCommitCount]. rewrite H1, H2.
    destruct (add_in_either_order _ a n1 n2 Ha) as [-> ->]. now split.
  - intros Ha. rewrite !bind_run, !processPullRequestMetric_run.
    cbn [fst session prCount setPrCount]. rewrite H1, H2.
    destruct (add_in_either_order _ a n1 n2 Ha) as [-> ->]. now split.
Qed.

Lemma count_metrics_add_up_witness :
  let dp1 := DataPoint.mk JUndefined (JStr "3") sampleTimeUnixNano in
  let dp2 := DataPoint.mk (JNum (Num 4)) JUndefined sampleTimeUnixNano in
  let w := mkWorld (setCommitCount (Some (Num 2)) mockSessionState) [] in
  commitCount (session (fst (andThen (processCommitMetric dp1 ∅ sampleTimestamp)
                               (processCommitMetric dp2 ∅ sampleTimestamp) w)))
  = Some (Num 9)
  /\ commitCount (session (fst (andThen (processCommitMetric dp2 ∅ sampleTimestamp)
                                  (processCommitMetric dp1 ∅ sampleTimestamp) w)))
     = Some (Num 9).
Proof.
  cbv zeta.
  apply (proj1 (count_metrics_add_up
                  (DataPoint.mk JUndefined (JStr "3") sampleTimeUnixNano)
                  (DataPoint.mk (JNum (Num 4)) JUndefined sampleTimeUnixNano)
                  ∅ ∅ sampleTimestamp sampleTimestamp
                  (mkWorld (setCommitCount (Some (Num 2)) mockSessionState) [])
                  2 3 4 eq_refl eq_refl ltac:(vm_compute; discriminate))).
  reflexivity.
Defined.

(** X5. A count datapoint whose value does not parse as a number makes the
    running count [NaN], and the next datapoint that carries a number
    restarts the count from zero: the count is then that datapoint's value
    and the total accumulated before is lost. *)
Theorem unparsable_count_restarts_from_zero :
  forall (dp1 dp2 : DataPoint.t) (attrs1 attrs2 : gmap string JsVal)
         (t1 t2 : number) (w : World),
    countOf dp1 = NaN ->
    countOf dp2 <> NaN ->
    commitCount (session (fst (processCommitMetric dp1 attrs1 t1 w))) = Some NaN
    /\ commitCount (session (fst (andThen (processCommitMetric dp1 attrs1 t1)
                                    (processCommitMetric dp2 attrs2 t2) w)))
       = Some (countOf dp2)
    /\ prCount (session (fst (processPullRequestMetric dp1 attrs1 t1 w))) = Some NaN
    /\ prCount (session (fst (andThen (processPullRequestMetric dp1 attrs1 t1)
                                (processPullRequestMetric dp2 attrs2 t2) w)))
       = Some (countOf dp2).
Proof.
  intros dp1 dp2 attrs1 attrs2 t1 t2 w H1 H2. unfold andThen.
  rewrite !bind_run, !processCommitMetric_run, !processPullRequestMetric_run.
  cbn [fst session commitCount setCommitCount prCount setPrCount].
  destruct (countOf_whole dp2) as [Hnan|[z Hz]]; [contradiction|].
  rewrite H1, Hz, !add_NaN.
  change (countBase (Some NaN)) with (ofZ 0). rewrite add_ofZ. now repeat split.
Qed.

Lemma unparsable_count_restarts_from_zero_witness :
  let dp1 := DataPoint.mk JUndefined (JStr "many") sampleTimeUnixNano in
  let dp2 := DataPoint.mk JUndefined (JStr "1") sampleTimeUnixNano in
  let w := mkWorld (setCommitCount (Some (Num 7)) mockSessionState) [] in
  commitCount (session (fst (andThen (processCommitMetric dp1 ∅ sampleTimestamp)
                               (processCommitMetric dp2 ∅ sampleTimestamp) w)))
  = Some (Num 1).
Proof.
  cbv zeta.
  apply (proj1 (proj2 (unparsable_count_restarts_from_zero
                         (DataPoint.mk JUndefined (JStr "many") sampleTimeUnixNano)
                         (DataPoint.mk JUndefined (JStr "1") sampleTimeUnixNano)
                         ∅ ∅ sampleTimestamp sampleTimestamp
                         (mkWorld (setCommitCount (Some (Num 7)) mockSessionState) [])
                         eq_refl ltac:(vm_compute; discriminate)))).
Defined.




Section MetricErrors.

Context `{SessionHandler}.

Lemma metric_handler_throws (name : JsVal)
    (handler : DataPoint.t -> gmap string JsVal -> number -> M JsVal)
    (dp : DataPoint.t) (attrs : gmap string JsVal) (ts : number) (w w' : World)
    (e : Exn) :
  MetricsProcessor.selectHandler name = Some handler ->
  handler dp attrs ts w = (w', Throw e) ->
  e = RangeError "Invalid time value"
  /\ ~ validTime ts
  /\ (name = JStr "claude_code.session.count"
      \/ (name = JStr "claude_code.code_edit_tool.decision"
          /\ traced (session w) = true)).
Proof.
  intros Hsel Hrun.
  destruct (metric_handler_cases _ _ Hsel)
    as [[-> ->]|[[-> ->]|[[-> ->]|[[-> ->]|[[-> ->]|[[-> ->]|[[-> ->]|[[-> ->]|[-> ->]]]]]]]]].
  - discriminate Hrun.
  - discriminate Hrun.
  - discriminate Hrun.
  - rewrite processCommitMetric_run in Hrun. discriminate Hrun.
  - rewrite processToolDecisionMetric_run in Hrun. cbv zeta in Hrun.
    destruct (traced (session w)); [|discriminate Hrun].
    destruct (isoOf ts) eqn:Hiso; [discriminate Hrun|].
    injection Hrun as _ <-. apply isoOf_invalid in Hiso. tauto.
  - rewrite processSessionMetric_run in Hrun.
    destruct (isoOf ts) eqn:Hiso; [discriminate Hrun|].
    injection Hrun as _ <-. apply isoOf_invalid in Hiso. tauto.
  - discriminate Hrun.
  - rewrite processPullRequestMetric_run in Hrun. discriminate Hrun.
  - rewrite processPullRequestMetric_run in Hrun. discriminate Hrun.
Qed.

End MetricErrors.

(** X7. [processMetric] throws only in two ways, the logger and the
    Langfuse client being taken to return: an exception of
    [session.processMetric] goes through, with the world as that call left
    it; otherwise the exception is the [RangeError] of [toISOString], the
    datapoint's time is invalid, and the metric is
    [claude_code.session.count] or a [claude_code.code_edit_tool.decision]
    processed while a trace and a client are present. *)
Theorem metric_processing_throws_only_on_invalid_time :
  forall (H : SessionHandler) (metric : Metric.t) (dp : DataPoint.t)
         (attrs : gmap string JsVal) (w w' : World) (e : Exn),
    processMetric metric dp attrs w = (w', Throw e) ->
    session_processMetric metric dp attrs w = (w', Throw e)
    \/ (exists w1,
          session_processMetric metric dp attrs w = (w1, Normal tt)
          /\ e = RangeError "Invalid time value"
          /\ ~ validTime (metricTime dp)
          /\ (Metric.name metric = JStr "claude_code.session.count"
              \/ (Metric.name metric = JStr "claude_code.code_edit_tool.decision"
                  /\ traced (session w1) = true))).
Proof.
  intros H metric dp attrs w w' e Hrun. rewrite processMetric_run in Hrun.
  destruct (session_processMetric metric dp attrs w) as [w1 [[]|e1]]; [|left; injection Hrun as -> ->; reflexivity].
  right. exists w1. split; [reflexivity|].
  destruct (MetricsProcessor.selectHandler (Metric.name metric)) as [handler|] eqn:Hsel;
    [|discriminate Hrun].
  exact (metric_handler_throws _ _ _ _ _ _ _ _ Hsel Hrun).
Qed.

Lemma metric_processing_throws_only_on_invalid_time_witness :
  let dp := DataPoint.mk (JNum (Num 1)) JUndefined (JStr "soon") in
  ~ validTime (metricTime dp).
Proof.
  cbv zeta.
  assert (Hrun : processMetric (Metric.mk (JStr "claude_code.code_edit_tool.decision"))
                   (DataPoint.mk (JNum (Num 1)) JUndefined (JStr "soon")) ∅ tracedWorld
                 = (fst (processMetric
                           (Metric.mk (JStr "claude_code.code_edit_tool.decision"))
                           (DataPoint.mk (JNum (Num 1)) JUndefined (JStr "soon")) ∅
                           tracedWorld),
                    Throw (RangeError "Invalid time value")))
    by (vm_compute; reflexivity).
  destruct (metric_processing_throws_only_on_invalid_time mockSession _ _ _ _ _ _ Hrun)
    as [Hsession|(w1 & _ & _ & Hinvalid & _)].
  - discriminate Hsession.
  - exact Hinvalid.
Defined.

(** X8. What a code-edit decision datapoint leaves behind. The entry is
    appended to [session.toolDecisions] in every case. A Langfuse event is
    emitted exactly when the session has a trace and a client and the time
    is valid; with a trace and a client and an invalid time the handler
    throws instead, after the entry is stored. The returned object is the
    entry with [type] in front, and an emitted event is the only one, named
    [code-edit-decision], attached to the current trace, and carries the
    entry's tool, decision, language and count with the ISO print of the
    entry's time. *)
Theorem code_edit_decision_entry_and_event :
  forall (dp : DataPoint.t) (attrs : gmap string JsVal) (ts : number) (w : World),
    let s := session w in
    let result := processToolDecisionMetric dp attrs ts w in
    let events := emitted (processToolDecisionMetric dp attrs ts) w in
    (events <> [] <-> traced s = true /\ validTime ts)
    /\ ((exists e, snd result = Throw e) <-> traced s = true /\ ~ validTime ts)
    /\ exists entry,
         toolDecisions (session (fst result))
         = Some (default [] (toolDecisions s) ++ [JObj entry])
         /\ getField entry "timestamp" = JNum ts
         /\ (forall r, snd result = Normal r ->
               r = JObj (("type", JStr "tool_decision") :: entry))
         /\ (forall call, In call events ->
               events = [call]
               /\ fst call = "event"%string
               /\ get (snd call) "name" = JStr "code-edit-decision"
               /\ get (snd call) "traceId" = get (currentTrace s) "id"
               /\ (forall k, In k ["tool"; "decision"; "language"; "count"]%string ->
                     get (get (snd call) "metadata") k = getField entry k)
               /\ (forall k, In k ["tool"; "language"]%string ->
                     get (get (snd call) "input") k = getField entry k)
               /\ (forall k, In k ["decision"; "count"]%string ->
                     get (get (snd call) "output") k = getField entry k)
               /\ exists iso, isoOf ts = Some iso
                              /\ get (get (snd call) "metadata") "timestamp" = JStr iso).
Proof.
  intros dp attrs ts w. cbv zeta. unfold emitted.
  rewrite processToolDecisionMetric_run. cbv zeta.
  destruct (traced (session w)) eqn:Htraced; [destruct (isoOf ts) as [iso|] eqn:Hiso|];
    cbn [fst snd session langfuseCalls toolDecisions setToolDecisions].
  - rewrite drop_app_length. split; [|split].
    + split; [intros _; split; [reflexivity|apply isoOf_valid; eauto]|discriminate].
    + split; [intros [e He]; discriminate He|].
      intros [_ Hinvalid]. apply isoOf_invalid in Hinvalid. congruence.
    + eexists. split; [reflexivity|]. split; [reflexivity|]. split.
      * intros r [= <-]. reflexivity.
      * intros call [<-|[]]. cbn [fst snd].
        split; [reflexivity|]. split; [reflexivity|]. split; [reflexivity|].
        split; [reflexivity|]. split; [|split; [|split]].
        -- intros k [<-|[<-|[<-|[<-|[]]]]]; reflexivity.
        -- intros k [<-|[<-|[]]]; reflexivity.
        -- intros k [<-|[<-|[]]]; reflexivity.
        -- exists iso. split; reflexivity.
  - rewrite drop_all. split; [|split].
    + split; [congruence|]. intros [_ Hvalid]. apply isoOf_valid in Hvalid as [iso Hiso'].
      congruence.
    + split; [intros _; split; [reflexivity|now apply isoOf_invalid]|eauto].
    + eexists. split; [reflexivity|]. split; [reflexivity|]. split.
      * intros r Hr. discriminate Hr.
      * intros call [].
  - rewrite drop_all. split; [|split].
    + split; [congruence|]. intros [Hf _]. discriminate Hf.
    + split; [intros [e He]; discriminate He|]. intros [Hf _]. discriminate Hf.
    + eexists. split; [reflexivity|]. split; [reflexivity|]. split.
      * intros r [= <-]. reflexivity.
      * intros call [].
Qed.

(** X9. What the handlers of [processMetric] leave alone. None of them
    touches the session id, the identity attributes, the current trace, the
    client or the totals kept by the session handler; each of the remaining
    properties is written by the handler of one metric only: the commit
    count by [commit.count], the pull-request count by the two pull-request
    names, the decisions by [code_edit_tool.decision], the started flag by
    [session.count] and the active time by [active_time.total]. Only the
    decision handler calls the Langfuse client, at most once, and no call
    already made is dropped. *)
Theorem metric_handlers_write_their_own_property_only :
  forall (name : JsVal)
         (handler : DataPoint.t -> gmap string JsVal -> number -> M JsVal)
         (dp : DataPoint.t) (attrs : gmap string JsVal) (ts : number) (w : World),
    MetricsProcessor.selectHandler name = Some handler ->
    let s := session w in
    let w' := fst (handler dp attrs ts w) in
    let s' := session w' in
    (sessionId s' = sessionId s /\ organizationId s' = organizationId s
     /\ userAccountUuid s' = userAccountUuid s /\ userEmail s' = userEmail s
     /\ terminalType s' = terminalType s /\ appVersion s' = appVersion s
     /\ currentTrace s' = currentTrace s /\ langfuse s' = langfuse s
     /\ others s' = others s)
    /\ (name <> JStr "claude_code.commit.count" -> commitCount s' = commitCount s)
    /\ (name <> JStr "claude_code.pr.count" ->
        name <> JStr "claude_code.pull_request.count" -> prCount s' = prCount s)
    /\ (name <> JStr "claude_code.code_edit_tool.decision" ->
        toolDecisions s' = toolDecisions s /\ langfuseCalls w' = langfuseCalls w)
    /\ (name <> JStr "claude_code.session.count" ->
        sessionStarted s' = sessionStarted s)
    /\ (name <> JStr "claude_code.active_time.total" -> activeTime s' = activeTime s)
    /\ exists calls, langfuseCalls w' = langfuseCalls w ++ calls
                     /\ (length calls <= 1)%nat.
Proof.
  intros name handler dp attrs ts w Hsel. cbv zeta.
  destruct (metric_handler_cases _ _ Hsel)
    as [[-> ->]|[[-> ->]|[[-> ->]|[[-> ->]|[[-> ->]|[[-> ->]|[[-> ->]|[[-> ->]|[-> ->]]]]]]]]].
  5: { rewrite processToolDecisionMetric_run. cbv zeta.
       destruct (traced (session w)); [destruct (isoOf ts)|];
         cbn [fst session langfuseCalls sessionId organizationId userAccountUuid
              userEmail terminalType appVersion commitCount prCount toolDecisions
              sessionStarted activeTime currentTrace langfuse others setToolDecisions].
       all: repeat split; try reflexivity; try congruence.
       - eexists. split; [reflexivity|]. cbn [length]. lia.
       - exists []. rewrite app_nil_r. split; [reflexivity|]. cbn [length]. lia.
       - exists []. rewrite app_nil_r. split; [reflexivity|]. cbn [length]. lia. }
  all: rewrite ?processCommitMetric_run, ?processPullRequestMetric_run,
         ?processSessionMetric_run, ?processActiveTimeMetric_run,
         ?processCostMetric_run, ?processTokenMetric_run,
         ?processLinesOfCodeMetric_run.
  all: cbn [fst session langfuseCalls sessionId organizationId userAccountUuid
            userEmail terminalType appVersion commitCount prCount toolDecisions
            sessionStarted activeTime currentTrace langfuse others setCommitCount
            setPrCount setSessionStarted setActiveTime].
  all: repeat split; try reflexivity; try congruence.
  all: exists []; rewrite app_nil_r; split; [reflexivity|cbn [length]; lia].
Qed.

Lemma metric_handlers_write_their_own_property_only_witness :
  let dp := DataPoint.mk JUndefined (JStr "3") sampleTimeUnixNano in
  let w' := fst (processCommitMetric dp ∅ sampleTimestamp tracedWorld) in
  prCount (session w') = prCount (session tracedWorld)
  /\ langfuseCalls w' = langfuseCalls tracedWorld.
Proof.
  cbv zeta.
  destruct (metric_handlers_write_their_own_property_only
              (JStr "claude_code.commit.count") processCommitMetric
              (DataPoint.mk JUndefined (JStr "3") sampleTimeUnixNano) ∅
              sampleTimestamp tracedWorld eq_refl)
    as (_ & _ & Hpr & Hdecision & _).
  split.
  - apply Hpr; discriminate.
  - apply Hdecision. discriminate.
Defined.

(** ** Mapped log records *)

Section SpreadFacts.



End SpreadFacts.

Section EventCases.

Context `{SessionHandler}.

Lemma event_handler_cases (name : JsVal)
    (handler : gmap string JsVal -> list (string * JsVal) -> number -> M JsVal) :
  EventProcessor.selectHandler name = Some handler ->
  (name = JStr "claude_code.user_prompt" /\ handler = processUserPrompt)
  \/ (name = JStr "claude_code.api_request" /\ handler = processApiRequest)
  \/ (name = JStr "claude_code.api_error" /\ handler = processApiError)
  \/ (name = JStr "claude_code.tool_result" /\ handler = processToolResult)
  \/ (name = JStr "claude_code.tool_decision" /\ handler = processToolDecision).
Proof.
  intros Hsel. destruct name as [| |b|n|n|fs]; try discriminate Hsel.
  unfold EventProcessor.selectHandler in Hsel. switch_cases Hsel.
  all: match goal with
       | E : String.eqb _ _ = true |- _ => apply String.eqb_eq in E as ->
       end.
  all: pick_case.
Qed.


Lemma processToolDecision_run (attrs : gmap string JsVal)
    (std : list (string * JsVal)) (ts : number) (w : World) :
  let decision := attr attrs "decision" <||> JStr "unknown" in
  let source := attr attrs "source" <||> JStr "unknown" in
  let toolName := attr attrs "tool_name" <||> attr attrs "tool" <||> JStr "unknown" in
  let eventTimestamp := attr attrs "event.timestamp" <||> getField std "timestamp" in
  processToolDecision attrs std ts w =
  (mkWorld (session w)
     (langfuseCalls w
      ++ if traced (session w)
         then [("event"%string,
                JObj [("name", JStr "tool-permission-decision");
                      ("traceId", get (currentTrace (session w)) "id");
                      ("input", JObj [("tool", toolName); ("source", source)]);
                      ("output", JObj [("decision", decision)]);
                      ("metadata",
                       JObj (spread [("tool", toolName); ("decision", decision);
                                     ("source", source);
                                     ("timestamp", eventTimestamp)] std));
                      ("level", decisionLevel decision)])]
         else []),
   Normal (JObj (spread [("type", JStr "tool_decision"); ("decision", decision);
                         ("source", source); ("toolName", toolName)] std))).
Proof.
  cbv zeta. unfold processToolDecision, traced. run.
  destruct (truthy (currentTrace (session w)) && langfuse (session w)); run.
  - reflexivity.
  - rewrite app_nil_r. now destruct w.
Qed.


End EventCases.





Section EventResults.

Context `{SessionHandler}.


Lemma processEvent_returns (lr : LogRecord.t) (resource : JsVal) (w w' : World)
    (r : JsVal) :
  processEvent lr resource w = (w', Normal r) ->
  exists iso,
    isoOf (eventTime lr) = Some iso
    /\ let attrs := extractAttributesArray (LogRecord.attributes lr) in
       match EventProcessor.selectHandler (eventName lr) with
       | Some handler =>
           handler attrs (standardAttrsOf attrs (session w) (JStr iso)) (eventTime lr)
             (identityStored attrs w) = (w', Normal r)
       | None => w' = identityStored attrs w /\ r = JNull
       end.
Proof.
  intros Hrun. rewrite processEvent_run in Hrun. fold (isoOf (eventTime lr)) in Hrun.
  destruct (isoOf (eventTime lr)) as [iso|]; [|discriminate Hrun].
  exists iso. split; [reflexivity|]. cbv zeta in *.
  destruct (EventProcessor.selectHandler (eventName lr)); [exact Hrun|].
  injection Hrun as <- <-. now split.
Qed.

End EventResults.



(** Reads a property of an object that spreads [standardAttrs] over a
    literal, on both sides of an equation. *)
Ltac read_fields :=
  cbn [get];
  repeat (rewrite getField_spread
            by (unfold standardAttrsOf; cbn [map fst In]; intuition discriminate));
  cbn [getField String.eqb Ascii.eqb Bool.eqb].








Section DecisionRecords.

Context `{SessionHandler}.


End DecisionRecords.




Lemma js_or_truthy (a b : JsVal) : truthy b = true -> truthy (a <||> b) = true.
Proof. intros Hb. unfold js_or. now destruct (truthy a) eqn:Ha. Qed.

(** X18. The properties that have a non-empty default are never empty in a
    result: the model, tool name, decision, source and error message of a
    mapped log record, the model, token type, change type, decision, tool,
    language and count of a metric report are truthy values, whatever the
    attributes of the record; so are the properties of the entry that a
    code-edit decision appends to [session.toolDecisions]. *)
Theorem defaulted_properties_are_never_empty :
  forall (H : SessionHandler) (w w' : World) (r : JsVal),
    (forall lr resource name keys key,
        In (name, keys) defaultedEventProperties ->
        In key keys ->
        eventName lr = JStr name ->
        processEvent lr resource w = (w', Normal r) ->
        truthy (get r key) = true)
    /\ (forall metric dp attrs name keys key,
          In (name, keys) defaultedMetricProperties ->
          In key keys ->
          Metric.name metric = JStr name ->
          processMetric metric dp attrs w = (w', Normal r) ->
          truthy (get r key) = true)
    /\ (forall dp attrs ts key,
          In key ["decision"; "tool"; "language"; "count"]%string ->
          exists entry,
            toolDecisions (session (fst (processToolDecisionMetric dp attrs ts w)))
            = Some (default [] (toolDecisions (session w)) ++ [entry])
            /\ truthy (get entry key) = true).
Proof.
  intros H w w' r. split; [|split].
  - intros lr resource name keys key Hin Hkey Hname Hrun.
    cbn [In defaultedEventProperties] in Hin.
    apply processEvent_returns in Hrun as (iso & Hiso & Hrun). cbv zeta in Hrun.
    rewrite Hname in Hrun.
    destruct Hin as [[= <- <-]|[[= <- <-]|[[= <- <-]|[[= <- <-]|[]]]]];
      cbn [EventProcessor.selectHandler String.eqb Ascii.eqb Bool.eqb] in Hrun.
    + unfold processApiRequest in Hrun. run.
      apply call_then_return in Hrun as [-> _]. cbn [In] in Hkey.
      destruct Hkey as [<-|[]]; read_fields; now apply js_or_truthy.
    + unfold processApiError in Hrun. run.
      apply call_then_return in Hrun as [-> _]. cbn [In] in Hkey.
      destruct Hkey as [<-|[<-|[]]]; read_fields; now apply js_or_truthy.
    + unfold processToolResult in Hrun. run.
      apply call_then_return in Hrun as [-> _]. cbn [In] in Hkey.
      destruct Hkey as [<-|[]]; read_fields; now apply js_or_truthy.
    + rewrite processToolDecision_run in Hrun. injection Hrun as _ <-.
      cbn [In] in Hkey.
      destruct Hkey as [<-|[<-|[<-|[]]]]; read_fields; now apply js_or_truthy.
  - intros metric dp attrs name keys key Hin Hkey Hname Hrun.
    rewrite processMetric_run, Hname in Hrun.
    destruct (session_processMetric metric dp attrs w) as [w1 [[]|e]];
      [|discriminate Hrun].
    cbn [In defaultedMetricProperties] in Hin.
    destruct Hin as [[= <- <-]|[[= <- <-]|[[= <- <-]|[[= <- <-]|[]]]]];
      cbn [MetricsProcessor.selectHandler String.eqb Ascii.eqb Bool.eqb] in Hrun.
    + injection Hrun as _ <-. cbn [In] in Hkey.
      destruct Hkey as [<-|[]]; now apply js_or_truthy.
    + injection Hrun as _ <-. cbn [In] in Hkey.
      destruct Hkey as [<-|[<-|[]]]; now apply js_or_truthy.
    + injection Hrun as _ <-. cbn [In] in Hkey.
      destruct Hkey as [<-|[]]; now apply js_or_truthy.
    + rewrite processToolDecisionMetric_run in Hrun. cbv zeta in Hrun.
      assert (Hr : r = JObj (("type", JStr "tool_decision")
                             :: decisionEntry (attr attrs "decision" <||> JStr "unknown")
                                  (attr attrs "tool" <||> JStr "unknown")
                                  (attr attrs "language" <||> JStr "unknown")
                                  (DataPoint.asDouble dp <||> DataPoint.asInt dp
                                   <||> JNum (Num 1)) (metricTime dp))).
      { destruct (traced (session w1)); [destruct (isoOf (metricTime dp))|]; congruence. }
      rewrite Hr. cbn [In] in Hkey.
      destruct Hkey as [<-|[<-|[<-|[<-|[]]]]]; now apply js_or_truthy.
  - intros dp attrs ts key Hkey.
    destruct (emitted_metric_decision dp attrs ts w) as [Hentry _].
    eexists. split; [exact Hentry|]. cbn [In] in Hkey.
    destruct Hkey as [<-|[<-|[<-|[<-|[]]]]]; now apply js_or_truthy.
Qed.

(** ** Session keys *)

Section SessionKeyPattern.



(** The first 13 characters of the ISO print depend on the hour only. *)
Lemma hour_of_day (t : Z) :
  t / msPerDay = t / 3600000 / 24
  /\ t mod msPerDay / 3600000 = (t / 3600000) mod 24.
Proof.
  unfold msPerDay. split.
  - rewrite Z.div_div by lia. reflexivity.
  - change 86400000 with (3600000 * 24). rewrite Z.rem_mul_r by lia.
    rewrite Z.mul_comm, Z.div_add by lia.
    rewrite (Z.div_small (t mod 3600000)) by (apply Z.mod_pos_bound; lia).
    reflexivity.
Qed.

Lemma substring_isoOfTime_hour (t1 t2 : Z) :
  t1 / 3600000 = t2 / 3600000 ->
  String.substring 0 13 (isoOfTime t1) = String.substring 0 13 (isoOfTime t2).
Proof.
  intros Hhour. unfold isoOfTime.
  destruct (hour_of_day t1) as [-> H1]. destruct (hour_of_day t2) as [-> H2].
  rewrite H1, H2, Hhour.
  destruct (civilFromDays (t2 / 3600000 / 24)) as [[y m] d].
  unfold yearString. destruct ((0 <=? y) && (y <=? 9999)); reflexivity.
Qed.

End SessionKeyPattern.


(** X20. The session key is shared within the hour: for one user, two
    timestamps that denote times of the same hour since the epoch give the
    same key. *)
Theorem session_key_is_shared_within_the_hour :
  forall (userId : string) (timestamp1 timestamp2 : JsVal) (t1 t2 : Z),
    newDate timestamp1 = Some t1 ->
    newDate timestamp2 = Some t2 ->
    t1 / 3600000 = t2 / 3600000 ->
    generateSessionId userId timestamp1 = generateSessionId userId timestamp2.
Proof.
  intros userId timestamp1 timestamp2 t1 t2 H1 H2 Hhour.
  unfold generateSessionId, timeWindow. rewrite H1, H2.
  cbn [toISOString fmap option_fmap option_map mbind option_bind].
  now rewrite (substring_isoOfTime_hour t1 t2 Hhour).
Qed.

Lemma session_key_is_shared_within_the_hour_witness :
  generateSessionId "test@example.com" (JStr "2024-01-15T10:00:00.000Z")
  = generateSessionId "test@example.com" (JNum (Num 1705316399999)).
Proof.
  apply (session_key_is_shared_within_the_hour "test@example.com"
           (JStr "2024-01-15T10:00:00.000Z") (JNum (Num 1705316399999))
           1705312800000 1705316399999).
  - vm_compute. reflexivity.
  - vm_compute. reflexivity.
  - vm_compute. reflexivity.
Defined.

(** ** Duration statistics *)

Example calculatePercentiles_test :
  Helpers.calculatePercentiles
    (Some [100; 200; 300; 400; 500; 600; 700; 800; 900; 1000]%Q)
  = Some (Helpers.mkStats 10 (Some 100%Q) (Some 1000%Q) 550 (Some 600%Q)
            (Some 1000%Q) (Some 1000%Q))
  /\ Helpers.calculatePercentiles (Some []) = None
  /\ Helpers.calculatePercentiles None = None
  /\ Helpers.calculatePercentiles (Some [100%Q])
     = Some (Helpers.mkStats 1 (Some 100%Q) (Some 100%Q) 100 (Some 100%Q)
               (Some 100%Q) (Some 100%Q)).
Proof. repeat split; vm_compute; reflexivity. Qed.

Section SortFacts.

Import Helpers.

Lemma insert_Permutation (x : Q) (l : list Q) : Permutation (insert x l) (x :: l).
Proof.
  induction l as [|y l IH]; cbn [insert]; [reflexivity|].
  destruct (Qle_bool x y); [reflexivity|].
  rewrite IH. apply perm_swap.
Qed.

Lemma sort_Permutation (l : list Q) : Permutation (sort l) l.
Proof.
  induction l as [|x l IH]; cbn [sort fold_right]; [reflexivity|].
  fold (sort l). now rewrite insert_Permutation, IH.
Qed.

Lemma sort_length (l : list Q) : length (sort l) = length l.
Proof. apply Permutation_length, sort_Permutation. Qed.

Lemma sort_In (l : list Q) (x : Q) : In x (sort l) <-> In x l.
Proof.
  split; apply Permutation_in; [|symmetry]; apply sort_Permutation.
Qed.

Lemma insert_sorted (x : Q) (l : list Q) :
  StronglySorted Qle l -> StronglySorted Qle (insert x l).
Proof.
  induction 1 as [|y l Hl IH Hy]; cbn [insert].
  - constructor; [constructor|constructor].
  - destruct (Qle_bool x y) eqn:Hxy.
    + apply Qle_bool_iff in Hxy. constructor; [now constructor|].
      constructor; [exact Hxy|].
      eapply Forall_impl; [exact Hy|]. intros z Hz. now apply Qle_trans with y.
    + constructor; [exact IH|].
      assert (Hyx : (y <= x)%Q).
      { apply Qnot_lt_le. intros Hlt. apply Qlt_le_weak, Qle_bool_iff in Hlt.
        congruence. }
      apply Forall_forall. intros z Hz. apply list_elem_of_In in Hz.
      apply (Permutation_in _ (insert_Permutation x l)) in Hz.
      destruct Hz as [<-|Hz]; [exact Hyx|].
      rewrite Forall_forall in Hy. apply Hy. now apply list_elem_of_In.
Qed.

Lemma sort_sorted (l : list Q) : StronglySorted Qle (sort l).
Proof.
  induction l as [|x l IH]; cbn [sort fold_right]; [constructor|].
  now apply insert_sorted.
Qed.

Lemma sorted_lookup (l : list Q) (i j : nat) (a b : Q) :
  StronglySorted Qle l -> (i <= j)%nat ->
  l !! i = Some a -> l !! j = Some b -> (a <= b)%Q.
Proof.
  intros Hl. revert i j. induction Hl as [|y l Hl IH Hy]; intros i j Hij Hi Hj.
  - discriminate Hi.
  - destruct i as [|i], j as [|j]; cbn in Hi, Hj.
    + injection Hi as <-. injection Hj as <-. apply Qle_refl.
    + injection Hi as <-. rewrite Forall_forall in Hy. apply Hy.
      now apply list_elem_of_lookup_2 in Hj.
    + lia.
    + apply (IH i j); [lia|exact Hi|exact Hj].
Qed.

Lemma rank_quotient (n : nat) (a : Z) (b : positive) :
  rank n (a # b) = Z.to_nat (Z.of_nat n * a / Z.pos b).
Proof. reflexivity. Qed.

Lemma rank_below (n : nat) (a : Z) (b : positive) :
  (0 < n)%nat -> 0 <= a < Z.pos b -> (rank n (a # b) < n)%nat.
Proof.
  intros Hn Ha. rewrite rank_quotient.
  assert (Z.of_nat n * a / Z.pos b < Z.of_nat n).
  { apply Z.div_lt_upper_bound; [lia|]. nia. }
  assert (0 <= Z.of_nat n * a / Z.pos b) by (apply Z.div_pos; nia).
  lia.
Qed.

Lemma rank_monotone (n : nat) (a a' : Z) (b : positive) :
  0 <= a <= a' -> (rank n (a # b) <= rank n (a' # b))%nat.
Proof.
  intros Ha. rewrite !rank_quotient. apply Z2Nat.inj_le.
  - apply Z.div_pos; nia.
  - apply Z.div_pos; nia.
  - apply Z.div_le_mono; [lia|nia].
Qed.

Lemma rank_half (n : nat) : (rank n (1 # 2) <= rank n (95 # 100))%nat.
Proof.
  rewrite !rank_quotient. apply Z2Nat.inj_le.
  - apply Z.div_pos; lia.
  - apply Z.div_pos; lia.
  - apply Z.div_le_lower_bound; [lia|].
    pose proof (Z.mul_div_le (Z.of_nat n * 1) 2 ltac:(lia)). lia.
Qed.

Lemma rank_last (n : nat) (a : Z) (b : positive) :
  (0 < n)%nat -> 0 <= a < Z.pos b -> Z.of_nat n * (Z.pos b - a) <= Z.pos b ->
  rank n (a # b) = (n - 1)%nat.
Proof.
  intros Hn Ha Hsmall. rewrite rank_quotient.
  assert (Z.of_nat n * a / Z.pos b = Z.of_nat n - 1); [|lia].
  symmetry. apply Z.div_unique with (Z.of_nat n * a - Z.pos b * (Z.of_nat n - 1)).
  - left. nia.
  - ring.
Qed.

Lemma tally_Permutation (test : Q -> bool) (l l' : list Q) :
  Permutation l l' -> tally test l = tally test l'.
Proof.
  induction 1; cbn [tally]; lia.
Qed.

Lemma tally_all (test : Q -> bool) (l : list Q) :
  Forall (fun x => test x = true) l -> tally test l = length l.
Proof.
  induction 1 as [|x l Hx _ IH]; cbn [tally length]; [reflexivity|].
  rewrite Hx, IH. reflexivity.
Qed.

Lemma sorted_tally_below (l : list Q) (k : nat) (v : Q) :
  StronglySorted Qle l -> l !! k = Some v ->
  (k < tally (fun y => Qle_bool y v) l)%nat.
Proof.
  intros Hl. revert k. induction Hl as [|y l Hl IH Hy]; intros k Hk.
  - discriminate Hk.
  - destruct k as [|k]; cbn in Hk; cbn [tally].
    + injection Hk as <-. assert (Qle_bool y y = true) as -> by apply Qle_bool_iff, Qle_refl.
      lia.
    + assert (Qle_bool y v = true) as ->.
      { apply Qle_bool_iff. rewrite Forall_forall in Hy. apply Hy.
        now apply list_elem_of_lookup_2 in Hk. }
      specialize (IH k Hk). lia.
Qed.

Lemma sorted_tally_above (l : list Q) (k : nat) (v : Q) :
  StronglySorted Qle l -> l !! k = Some v ->
  (length l - k <= tally (fun y => Qle_bool v y) l)%nat.
Proof.
  intros Hl. revert k. induction Hl as [|y l Hl IH Hy]; intros k Hk.
  - discriminate Hk.
  - destruct k as [|k]; cbn in Hk.
    + injection Hk as <-. rewrite tally_all; [lia|].
      constructor; [apply Qle_bool_iff, Qle_refl|].
      eapply Forall_impl; [exact Hy|]. intros z Hz. now apply Qle_bool_iff.
    + specialize (IH k Hk). cbn [tally length]. lia.
Qed.

End SortFacts.

Section PercentileFacts.

Import Helpers.

(** The result on a non-empty array, with every element read in range. *)
Lemma calculatePercentiles_run (data : list Q) :
  data <> [] ->
  exists lo p50 p95 p99 hi,
    sort data !! 0%nat = Some lo
    /\ sort data !! rank (length data) (1 # 2) = Some p50
    /\ sort data !! rank (length data) (95 # 100) = Some p95
    /\ sort data !! rank (length data) (99 # 100) = Some p99
    /\ sort data !! (length data - 1)%nat = Some hi
    /\ calculatePercentiles (Some data)
       = Some (mkStats (length data) (Some lo) (Some hi)
                 (round (sum data / inject_Z (Z.of_nat (length data))))
                 (Some p50) (Some p95) (Some p99)).
Proof.
  intros Hdata.
  assert (Hn : (0 < length data)%nat) by (destruct data; [congruence|cbn; lia]).
  assert (Hget : forall i, (i < length data)%nat -> exists v, sort data !! i = Some v).
  { intros i Hi. apply lookup_lt_is_Some_2. now rewrite sort_length. }
  destruct (Hget 0%nat Hn) as [lo Hlo].
  destruct (Hget (rank (length data) (1 # 2))) as [p50 H50];
    [apply rank_below; [exact Hn|lia]|].
  destruct (Hget (rank (length data) (95 # 100))) as [p95 H95];
    [apply rank_below; [exact Hn|lia]|].
  destruct (Hget (rank (length data) (99 # 100))) as [p99 H99];
    [apply rank_below; [exact Hn|lia]|].
  destruct (Hget (length data - 1)%nat) as [hi Hhi]; [lia|].
  exists lo, p50, p95, p99, hi. repeat (split; [assumption|]).
  destruct data as [|x data]; [congruence|].
  unfold calculatePercentiles. rewrite !sort_length, Hlo, H50, H95, H99, Hhi.
  reflexivity.
Qed.

End PercentileFacts.

(** X21. [calculatePercentiles] returns [null] exactly for a missing or an
    empty array. For a non-empty array of numbers every property of the
    result is defined, [count] is the number of samples, [min] and [max] are
    the least and the greatest sample, the three percentiles are samples,
    and [min <= p50 <= p95 <= p99 <= max]. *)
Theorem percentiles_are_ordered_samples :
  forall (data : option (list Q)),
    (Helpers.calculatePercentiles data = None
     <-> data = None \/ data = Some [])
    /\ forall samples,
         data = Some samples -> samples <> [] ->
         exists lo p50 p95 p99 hi average,
           Helpers.calculatePercentiles data
           = Some (Helpers.mkStats (length samples) (Some lo) (Some hi) average
                     (Some p50) (Some p95) (Some p99))
           /\ (lo <= p50)%Q /\ (p50 <= p95)%Q /\ (p95 <= p99)%Q /\ (p99 <= hi)%Q
           /\ (forall x, In x samples -> (lo <= x)%Q /\ (x <= hi)%Q)
           /\ In lo samples /\ In p50 samples /\ In p95 samples /\ In p99 samples
           /\ In hi samples.
Proof.
  intros data. split.
  - destruct data as [[|x l]|]; cbn [Helpers.calculatePercentiles].
    + split; [now right|reflexivity].
    + split; [discriminate|]. intros [Hd|Hd]; discriminate Hd.
    + split; [now left|reflexivity].
  - intros samples -> Hsamples.
    destruct (calculatePercentiles_run samples Hsamples)
      as (lo & p50 & p95 & p99 & hi & Hlo & H50 & H95 & H99 & Hhi & Hrun).
    exists lo, p50, p95, p99, hi. eexists. split; [exact Hrun|].
    assert (Hn : (0 < length samples)%nat)
      by (destruct samples; [congruence|cbn; lia]).
    pose proof (sort_sorted samples) as Hsorted.
    pose proof (rank_below (length samples) 99 100 Hn ltac:(lia)) as Hlast.
    assert (Hmember : forall i v, Helpers.sort samples !! i = Some v -> In v samples).
    { intros i v Hv. apply sort_In, list_elem_of_In. now apply list_elem_of_lookup_2 in Hv. }
    split; [refine (sorted_lookup _ _ _ _ _ Hsorted _ Hlo H50); lia|].
    split; [apply (sorted_lookup _ _ _ _ _ Hsorted (rank_half _) H50 H95)|].
    split; [apply (sorted_lookup _ _ _ _ _ Hsorted
                     (rank_monotone _ 95 99 100 ltac:(lia)) H95 H99)|].
    split; [refine (sorted_lookup _ _ _ _ _ Hsorted _ H99 Hhi); lia|].
    split.
    + intros x Hx. apply sort_In, list_elem_of_In, list_elem_of_lookup_1 in Hx as [i Hi].
      assert (i < length samples)%nat
        by (rewrite <- sort_length; now apply lookup_lt_Some in Hi).
      split.
      * refine (sorted_lookup _ _ _ _ _ Hsorted _ Hlo Hi); lia.
      * refine (sorted_lookup _ _ _ _ _ Hsorted _ Hi Hhi); lia.
    + repeat split; eapply Hmember; eassumption.
Qed.

(** X22. On few samples the high percentiles are the maximum: with at most
    100 samples [p99] is [max], with at most 20 samples so is [p95], and
    with at most 2 samples so is [p50]; [p50] is always the sample in the
    middle of the sorted array, the upper one of the two when the count is
    even. *)
Theorem percentiles_of_few_samples :
  forall (data : list Q) (st : Helpers.Stats),
    Helpers.calculatePercentiles (Some data) = Some st ->
    ((length data <= 100)%nat -> Helpers.p99 st = Helpers.max st)
    /\ ((length data <= 20)%nat -> Helpers.p95 st = Helpers.max st)
    /\ ((length data <= 2)%nat -> Helpers.p50 st = Helpers.max st)
    /\ Helpers.p50 st = Helpers.sort data !! (length data / 2)%nat.
Proof.
  intros data st Hrun.
  assert (Hdata : data <> []) by (intros ->; discriminate Hrun).
  assert (Hn : (0 < length data)%nat) by (destruct data; [congruence|cbn; lia]).
  destruct (calculatePercentiles_run data Hdata)
    as (lo & p50 & p95 & p99 & hi & Hlo & H50 & H95 & H99 & Hhi & Hrun').
  rewrite Hrun' in Hrun. injection Hrun as <-. cbn.
  split; [|split; [|split]].
  - intros Hsmall. rewrite <- H99, <- Hhi. f_equal. apply rank_last; lia.
  - intros Hsmall. rewrite <- H95, <- Hhi. f_equal. apply rank_last; lia.
  - intros Hsmall. rewrite <- H50, <- Hhi. f_equal. apply rank_last; lia.
  - rewrite <- H50. f_equal. rewrite rank_quotient.
    rewrite Z.mul_1_r. change (Z.pos 2) with (Z.of_nat 2).
    rewrite <- Nat2Z.inj_div. apply Nat2Z.id.
Qed.

Lemma percentiles_of_few_samples_witness :
  let st := Helpers.mkStats 3 (Some 1%Q) (Some 9%Q) 5 (Some 5%Q) (Some 9%Q)
              (Some 9%Q) in
  Helpers.calculatePercentiles (Some [5; 9; 1]%Q) = Some st
  /\ Helpers.p99 st = Helpers.max st.
Proof.
  cbv zeta. split; [reflexivity|].
  apply (proj1 (percentiles_of_few_samples [5; 9; 1]%Q _ eq_refl)).
  cbn [length]. lia.
Defined.

(** X23. Each percentile is an order statistic of the samples, whatever
    their order in the array: for the fraction [p] of 0.5, 0.95 or 0.99 and
    [k = floor(count * p)], the value reported is a sample such that more
    than [k] samples are at most it and at least [count - k] samples are at
    least it. *)
Theorem percentiles_are_order_statistics :
  forall (data : list Q) (st : Helpers.Stats) (p : Q) (value : option Q),
    Helpers.calculatePercentiles (Some data) = Some st ->
    In (p, value) (percentilesOf st) ->
    let k := Helpers.rank (length data) p in
    exists v,
      value = Some v
      /\ In v data
      /\ (k < tally (fun x => Qle_bool x v) data)%nat
      /\ (length data - k <= tally (fun x => Qle_bool v x) data)%nat.
Proof.
  intros data st p value Hrun Hin. cbv zeta.
  assert (Hdata : data <> []) by (intros ->; discriminate Hrun).
  destruct (calculatePercentiles_run data Hdata)
    as (lo & p50 & p95 & p99 & hi & Hlo & H50 & H95 & H99 & Hhi & Hrun').
  rewrite Hrun' in Hrun. injection Hrun as <-.
  pose proof (sort_sorted data) as Hsorted.
  assert (Hstat : forall k v, Helpers.sort data !! k = Some v ->
            In v data
            /\ (k < tally (fun x => Qle_bool x v) data)%nat
            /\ (length data - k <= tally (fun x => Qle_bool v x) data)%nat).
  { intros k v Hv. split; [|split].
    - apply sort_In, list_elem_of_In. now apply list_elem_of_lookup_2 in Hv.
    - rewrite <- (tally_Permutation _ _ _ (sort_Permutation data)).
      now apply sorted_tally_below.
    - rewrite <- (tally_Permutation _ _ _ (sort_Permutation data)),
        <- (sort_length data).
      now apply sorted_tally_above. }
  cbn [In percentilesOf Helpers.p50 Helpers.p95 Helpers.p99] in Hin.
  destruct Hin as [[= <- <-]|[[= <- <-]|[[= <- <-]|[]]]]; eexists;
    (split; [reflexivity|]); now apply Hstat.
Qed.

Lemma percentiles_are_order_statistics_witness :
  exists v,
    Some 600%Q = Some v
    /\ In v [1000; 100; 900; 200; 800; 300; 700; 400; 600; 500]%Q
    /\ (5 < tally (fun x => Qle_bool x v)
              [1000; 100; 900; 200; 800; 300; 700; 400; 600; 500]%Q)%nat
    /\ (10 - 5 <= tally (fun x => Qle_bool v x)
                    [1000; 100; 900; 200; 800; 300; 700; 400; 600; 500]%Q)%nat.
Proof.
  apply (percentiles_are_order_statistics
           [1000; 100; 900; 200; 800; 300; 700; 400; 600; 500]%Q _ (1 # 2)
           (Some 600%Q) eq_refl).
  cbn. tauto.
Defined.

(** ** Ports of the test servers *)

Example getUniquePort_test :
  fst (getUniquePorts ["a.test.js"; "b.test.js"; "b.test.js"] ∅)
  = [4318; 4319; 4318].
Proof. vm_compute. reflexivity. Qed.

Section PortFacts.

Import TestServer.

Lemma getUniquePort_fresh (testFile : string) (started : gset string) :
  testFile ∉ started ->
  getUniquePort testFile started
  = (serverPort + Z.of_nat (size started), started ∪ {[testFile]})
  /\ size (started ∪ {[testFile]}) = S (size started).
Proof.
  intros Hfresh. unfold getUniquePort.
  destruct (decide (testFile ∈ started)) as [Hin|_]; [contradiction|].
  split; [reflexivity|].
  rewrite size_union by (now apply disjoint_singleton_r).
  rewrite size_singleton. lia.
Qed.

Lemma getUniquePort_started (testFile : string) (started : gset string) :
  testFile ∈ started -> getUniquePort testFile started = (serverPort, started).
Proof.
  intros Hin. unfold getUniquePort.
  destruct (decide (testFile ∈ started)) as [_|Hout]; [reflexivity|contradiction].
Qed.

Lemma getUniquePorts_fresh (testFiles : list string) (started : gset string) :
  NoDup testFiles ->
  (forall f, In f testFiles -> f ∉ started) ->
  getUniquePorts testFiles started
  = (map (fun i => serverPort + Z.of_nat (size started + i)) (seq 0 (length testFiles)),
     started ∪ list_to_set testFiles).
Proof.
  revert started. induction testFiles as [|f rest IH]; intros started Hnd Hfresh.
  - cbn [getUniquePorts length seq map list_to_set foldr].
    now rewrite (right_id_L ∅ (∪)).
  - apply NoDup_cons in Hnd as [Hf Hnd].
    destruct (getUniquePort_fresh f started) as [Hport Hsize];
      [apply Hfresh; now left|].
    cbn [getUniquePorts]. rewrite Hport.
    rewrite IH; [|exact Hnd|].
    + cbn [length seq map]. rewrite Hsize. f_equal; [f_equal|].
      * rewrite Nat.add_0_r. reflexivity.
      * rewrite <- seq_shift, map_map. apply map_ext. intros i. do 2 f_equal. lia.
      * cbn [list_to_set foldr]. now rewrite (assoc_L (∪)).
    + intros g Hg. apply not_elem_of_union. split; [apply Hfresh; now right|].
      apply not_elem_of_singleton. intros ->. apply Hf. now apply list_elem_of_In.
Qed.

End PortFacts.

(** X24. Test files that ask for a port for the first time get consecutive
    ports, hence all different: from the set [started] of files already
    served, a sequence of distinct new files is given the ports
    [4318 + size started], [4318 + size started + 1], ... in order, and
    the files are added to the set. After [resetServers] the first file
    gets 4318 again. *)
Theorem new_test_files_get_consecutive_ports :
  forall (testFiles : list string) (started : gset string),
    NoDup testFiles ->
    (forall f, In f testFiles -> f ∉ started) ->
    getUniquePorts testFiles started
    = (map (fun i => 4318 + Z.of_nat (size started + i)) (seq 0 (length testFiles)),
       started ∪ list_to_set testFiles)
    /\ NoDup (fst (getUniquePorts testFiles started))
    /\ fst (getUniquePorts testFiles (TestServer.resetServers started))
       = map (fun i => 4318 + Z.of_nat i) (seq 0 (length testFiles)).
Proof.
  intros testFiles started Hnd Hfresh.
  rewrite (getUniquePorts_fresh testFiles started Hnd Hfresh).
  split; [reflexivity|]. split.
  - cbn [fst]. apply NoDup_fmap_2; [|apply NoDup_ListNoDup, seq_NoDup].
    intros i j Hij. lia.
  - rewrite (getUniquePorts_fresh testFiles _ Hnd)
      by (intros f _; apply not_elem_of_empty).
    cbn [fst]. unfold TestServer.resetServers. rewrite size_empty. reflexivity.
Qed.

Lemma new_test_files_get_consecutive_ports_witness :
  getUniquePorts ["api.test.js"; "server.test.js"] {[ "e2e.test.js" ]}
  = ([4319; 4320],
     {[ "e2e.test.js" ]} ∪ list_to_set ["api.test.js"; "server.test.js"]).
Proof.
  assert (Hnd : NoDup ["api.test.js"; "server.test.js"]%string)
    by (apply (bool_decide_unpack _); vm_compute; exact I).
  assert (Hfresh : forall f, In f ["api.test.js"; "server.test.js"]%string ->
                             f ∉ ({[ "e2e.test.js"%string ]} : gset string))
    by (intros f [<-|[<-|[]]]; apply (bool_decide_unpack _); vm_compute; exact I).
  apply (proj1 (new_test_files_get_consecutive_ports _ _ Hnd Hfresh)).
Defined.

(** X25. A repeated request does not return the port a file was given:
    once a file is in the set, [getUniquePort] returns the base port 4318
    for it and leaves the set as it is, whereas the port given on the first
    request is 4318 only when no other file had been served before. *)
Theorem repeated_request_returns_the_base_port :
  forall (testFile : string) (started : gset string),
    let first := TestServer.getUniquePort testFile started in
    TestServer.getUniquePort testFile (snd first) = (4318, snd first)
    /\ (testFile ∉ started -> fst first = 4318 + Z.of_nat (size started))
    /\ (testFile ∉ started -> (fst first = 4318 <-> started = ∅)).
Proof.
  intros testFile started. cbv zeta.
  destruct (decide (testFile ∈ started)) as [Hin|Hout].
  - rewrite (getUniquePort_started _ _ Hin). cbn [fst snd].
    split; [now apply getUniquePort_started|]. split; intros Hout; contradiction.
  - destruct (getUniquePort_fresh _ _ Hout) as [-> _]. cbn [fst snd].
    split; [apply getUniquePort_started, elem_of_union_r, elem_of_singleton; reflexivity|].
    split; [reflexivity|]. intros _. unfold TestServer.serverPort. split.
    + intros Hport. apply leibniz_equiv, size_empty_inv. lia.
    + intros ->. rewrite size_empty. reflexivity.
Qed.

(** X26. The ports handed out are valid ports while at most 61217 test
    files have been started: the port [getUniquePort] returns then passes
    both [isValidPort] and the [toBeValidPort] matcher, and a new file
    started after that gets a port that both reject. The matcher is the
    stricter of the two checks: what it accepts, [isValidPort] accepts. *)
Theorem handed_out_ports_are_valid :
  forall (testFile : string) (started : gset string),
    let port := JNum (ofZ (fst (TestServer.getUniquePort testFile started))) in
    (Z.of_nat (size started) <= 61217 ->
     Helpers.isValidPort port = true /\ JestSetup.toBeValidPort port = true)
    /\ (testFile ∉ started -> 61217 < Z.of_nat (size started) ->
        Helpers.isValidPort port = false /\ JestSetup.toBeValidPort port = false)
    /\ forall v, JestSetup.toBeValidPort v = true -> Helpers.isValidPort v = true.
Proof.
  intros testFile started. cbv zeta.
  assert (Hrange : forall z, Helpers.isValidPort (JNum (ofZ z)) = ((1 <=? z) && (z <=? 65535))
                             /\ JestSetup.toBeValidPort (JNum (ofZ z))
                                = ((1 <=? z) && (z <=? 65535))).
  { intros z. unfold Helpers.isValidPort, JestSetup.toBeValidPort, JestSetup.isInteger.
    cbn [ToNumber ofZ JsNumber.le].
    assert (Hlow : Qle_bool 1 (inject_Z z) = (1 <=? z)).
    { unfold Qle_bool. cbn [Qnum Qden inject_Z]. f_equal; lia. }
    assert (Hhigh : Qle_bool (inject_Z z) 65535 = (z <=? 65535)).
    { unfold Qle_bool. cbn [Qnum Qden inject_Z]. f_equal; lia. }
    assert (Hwhole : Qeq_bool (inject_Z z) (inject_Z (Qfloor (inject_Z z))) = true).
    { apply Qeq_bool_iff. now rewrite Qfloor_Z. }
    rewrite Hlow, Hhigh, Hwhole. now split. }
  split; [|split].
  - intros Hsize. rewrite (proj1 (Hrange _)), (proj2 (Hrange _)).
    assert (Hport : 1 <= fst (TestServer.getUniquePort testFile started) <= 65535).
    { unfold TestServer.getUniquePort, TestServer.serverPort.
      destruct (decide (testFile ∈ started)); cbn [fst]; lia. }
    replace (1 <=? _) with true by (symmetry; apply Z.leb_le; lia).
    replace (_ <=? 65535) with true by (symmetry; apply Z.leb_le; lia).
    now split.
  - intros Hfresh Hsize. rewrite (proj1 (Hrange _)), (proj2 (Hrange _)).
    destruct (getUniquePort_fresh _ _ Hfresh) as [-> _]. cbn [fst].
    unfold TestServer.serverPort.
    replace (_ <=? 65535) with false by (symmetry; apply Z.leb_gt; lia).
    rewrite andb_false_r. now split.
  - intros v Hv. unfold JestSetup.toBeValidPort in Hv. unfold Helpers.isValidPort.
    apply andb_true_iff in Hv as [Hv Hhigh]. apply andb_true_iff in Hv as [_ Hlow].
    now rewrite Hlow, Hhigh.
Qed.

(** ** The log and the identity of a session *)

Section AppendOnly.

Context `{SessionHandler}.

Lemma sessionExtends_refl (s : Session) : sessionExtends s s.
Proof.
  split; [|trivial]. intros decisions Hd. exists []. now rewrite app_nil_r.
Qed.

Lemma sessionExtends_trans (s1 s2 s3 : Session) :
  sessionExtends s1 s2 -> sessionExtends s2 s3 -> sessionExtends s1 s3.
Proof.
  intros [Hd12 Hs12] [Hd23 Hs23]. split; [|auto].
  intros decisions Hd. destruct (Hd12 _ Hd) as [m12 Hm12].
  destruct (Hd23 _ Hm12) as [m23 Hm23]. exists (m12 ++ m23).
  now rewrite Hm23, app_assoc.
Qed.

Lemma extends_refl (w : World) : extends w w.
Proof.
  split; [apply sessionExtends_refl|]. exists []. now rewrite app_nil_r.
Qed.

Lemma extends_trans (w1 w2 w3 : World) :
  extends w1 w2 -> extends w2 w3 -> extends w1 w3.
Proof.
  intros [Hs12 [c12 Hc12]] [Hs23 [c23 Hc23]].
  split; [now apply sessionExtends_trans with (session w2)|].
  exists (c12 ++ c23). now rewrite Hc23, Hc12, app_assoc.
Qed.

(** The three ways a step of the processors changes the log. *)
Lemma extends_step (w w' : World) (entries : list JsVal) (calls : list LangfuseCall) :
  toolDecisions (session w') = toolDecisions (session w)
  \/ toolDecisions (session w')
     = Some (default [] (toolDecisions (session w)) ++ entries) ->
  sessionStarted (session w') = sessionStarted (session w)
  \/ sessionStarted (session w') = JBool true ->
  langfuseCalls w' = langfuseCalls w ++ calls ->
  extends w w'.
Proof.
  intros Hd Hs Hc. split; [split|].
  - intros decisions Hw. destruct Hd as [-> | ->].
    + exists []. now rewrite app_nil_r.
    + rewrite Hw. now exists entries.
  - intros Hw. destruct Hs as [-> | ->]; [exact Hw|reflexivity].
  - now exists calls.
Qed.

Lemma metric_handler_extends (name : JsVal)
    (handler : DataPoint.t -> gmap string JsVal -> number -> M JsVal)
    (dp : DataPoint.t) (attrs : gmap string JsVal) (ts : number) (w : World) :
  MetricsProcessor.selectHandler name = Some handler ->
  extends w (fst (handler dp attrs ts w)).
Proof.
  intros Hsel.
  destruct (metric_handler_cases _ _ Hsel)
    as [[-> ->]|[[-> ->]|[[-> ->]|[[-> ->]|[[-> ->]|[[-> ->]|[[-> ->]|[[-> ->]|[-> ->]]]]]]]]].
  5: { rewrite processToolDecisionMetric_run. cbv zeta.
       destruct (traced (session w)); [destruct (isoOf ts)|]; cbn [fst].
       - eapply extends_step; [right; reflexivity|left; reflexivity|reflexivity].
       - eapply extends_step with (calls := []);
           [right; reflexivity|left; reflexivity|symmetry; apply app_nil_r].
       - eapply extends_step with (calls := []);
           [right; reflexivity|left; reflexivity|symmetry; apply app_nil_r]. }
  5: { rewrite processSessionMetric_run. cbn [fst].
       apply extends_step with (entries := []) (calls := []);
         [left; reflexivity|right; reflexivity|symmetry; apply app_nil_r]. }
  all: rewrite ?processCommitMetric_run, ?processPullRequestMetric_run,
         ?processActiveTimeMetric_run, ?processCostMetric_run,
         ?processTokenMetric_run, ?processLinesOfCodeMetric_run;
    cbn [fst];
    apply extends_step with (entries := []) (calls := []);
    [left; reflexivity|left; reflexivity|symmetry; apply app_nil_r].
Qed.

Lemma identityStored_extends (attrs : gmap string JsVal) (w : World) :
  extends w (identityStored attrs w).
Proof.
  destruct (storeIdentity_fields attrs (session w))
    as (_ & _ & _ & _ & _ & _ & _ & _ & Hd & Hs & _).
  apply extends_step with (entries := []) (calls := []);
    [left; exact Hd|left; exact Hs|symmetry; apply app_nil_r].
Qed.

Lemma event_handler_extends (name : JsVal)
    (handler : gmap string JsVal -> list (string * JsVal) -> number -> M JsVal)
    (attrs : gmap string JsVal) (std : list (string * JsVal)) (ts : number)
    (w : World) :
  sessionAppendOnly ->
  EventProcessor.selectHandler name = Some handler ->
  extends w (fst (handler attrs std ts w)).
Proof.
  intros (Hprompt & Hrequest & Herror & Hresult & _) Hsel.
  destruct (event_handler_cases _ _ Hsel)
    as [[-> ->]|[[-> ->]|[[-> ->]|[[-> ->]|[-> ->]]]]].
  - unfold processUserPrompt. run. rewrite call_then_return_state. apply Hprompt.
  - unfold processApiRequest. run. rewrite call_then_return_state. apply Hrequest.
  - unfold processApiError. run. rewrite call_then_return_state. apply Herror.
  - unfold processToolResult. run. rewrite call_then_return_state. apply Hresult.
  - rewrite processToolDecision_run. cbv zeta. cbn [fst].
    eapply extends_step with (entries := []);
      [left; reflexivity|left; reflexivity|reflexivity].
Qed.

Lemma processEvent_appendOnly (lr : LogRecord.t) (resource : JsVal) :
  sessionAppendOnly -> appendOnly (processEvent lr resource).
Proof.
  intros Hsession w. rewrite processEvent_run.
  destruct (toISOString _) as [iso|]; [|apply extends_refl]. cbv zeta.
  set (attrs := extractAttributesArray (LogRecord.attributes lr)).
  apply extends_trans with (identityStored attrs w); [apply identityStored_extends|].
  destruct (EventProcessor.selectHandler (eventName lr)) as [handler|] eqn:Hsel;
    [|apply extends_refl].
  exact (event_handler_extends _ _ _ _ _ _ Hsession Hsel).
Qed.

Lemma processMetric_appendOnly (metric : Metric.t) (dp : DataPoint.t)
    (attrs : gmap string JsVal) :
  sessionAppendOnly -> appendOnly (processMetric metric dp attrs).
Proof.
  intros (_ & _ & _ & _ & Hmetric) w. rewrite processMetric_run.
  specialize (Hmetric metric dp attrs w).
  destruct (session_processMetric metric dp attrs w) as [w1 [[]|e]];
    cbn [fst] in Hmetric; [|exact Hmetric].
  apply extends_trans with w1; [exact Hmetric|].
  destruct (MetricsProcessor.selectHandler (Metric.name metric)) as [handler|] eqn:Hsel;
    [|apply extends_refl].
  exact (metric_handler_extends _ _ _ _ _ _ Hsel).
Qed.

Lemma ingests_extends (s s' : Session) :
  sessionAppendOnly -> ingests s s' -> sessionExtends s s'.
Proof.
  intros Hsession Hingests. induction Hingests as
    [s|s s' calls metric dp attrs _ _ IH|s s' calls lr resource _ IH].
  - apply sessionExtends_refl.
  - eapply sessionExtends_trans; [|exact IH].
    apply (processMetric_appendOnly metric dp attrs Hsession (mkWorld s calls)).
  - eapply sessionExtends_trans; [|exact IH].
    apply (processEvent_appendOnly lr resource Hsession (mkWorld s calls)).
Qed.

End AppendOnly.

(** X27. The log of a session is append-only. Provided the methods of the
    session object only extend the log (they keep the decisions recorded
    and the calls made on the client, in order, and do not unset the
    started flag), so do [processEvent] and [processMetric], however they
    complete; over any sequence of log records and metric datapoints the
    decisions recorded at the start are a prefix of those recorded at the
    end, and a session that had started is still started. *)
Theorem session_log_is_append_only :
  forall (H : SessionHandler),
    sessionAppendOnly ->
    (forall lr resource, appendOnly (processEvent lr resource))
    /\ (forall metric dp attrs, appendOnly (processMetric metric dp attrs))
    /\ (forall s s', ingests s s' -> sessionExtends s s').
Proof.
  intros H Hsession. split; [|split].
  - intros lr resource. now apply processEvent_appendOnly.
  - intros metric dp attrs. now apply processMetric_appendOnly.
  - intros s s'. now apply ingests_extends.
Qed.

Lemma session_log_is_append_only_witness :
  let dp := DataPoint.mk (JNum (Num 2)) JUndefined sampleTimeUnixNano in
  extends tracedWorld
    (fst (processMetric (Metric.mk (JStr "claude_code.code_edit_tool.decision")) dp ∅
            tracedWorld)).
Proof.
  cbv zeta.
  assert (Hsession : @sessionAppendOnly mockSession)
    by (split; [|split; [|split; [|split]]]; intros; intro w; apply extends_refl).
  apply (proj1 (proj2 (session_log_is_append_only mockSession Hsession))).
Defined.

Section IdentityStore.

Context `{SessionHandler}.

Lemma storeIdentity_value (attrs : gmap string JsVal) (s : Session)
    (field : Session -> JsVal) (attribute : string) :
  In (field, attribute) storedIdentity ->
  field (storeIdentity attrs s)
  = if truthy (field s) then field s
    else if truthy (attr attrs attribute) then attr attrs attribute else field s.
Proof.
  intros Hin. cbn [In storedIdentity] in Hin.
  destruct (storeIdentity_fields attrs s) as (Horg & Huuid & Hemail & Hterm & _).
  destruct Hin as [[= <- <-]|[[= <- <-]|[[= <- <-]|[[= <- <-]|[]]]]].
  - rewrite Horg. now destruct (truthy (attr attrs "organization.id")),
      (truthy (organizationId s)).
  - rewrite Huuid. now destruct (truthy (attr attrs "user.account_uuid")),
      (truthy (userAccountUuid s)).
  - rewrite Hemail. now destruct (truthy (attr attrs "user.email")),
      (truthy (userEmail s)).
  - rewrite Hterm. now destruct (truthy (attr attrs "terminal.type")),
      (truthy (terminalType s)).
Qed.

End IdentityStore.

(** X28. Identity is taken from every log record with a valid time,
    whatever its body. Provided the four methods of the session object that
    [processEvent] calls leave the identity properties alone, after
    [processEvent] each of [organizationId], [userAccountUuid], [userEmail]
    and [terminalType] holds what it held when that was a value, and
    otherwise the record's attribute when that is a value; [appVersion] is
    never stored, although every returned event carries it. *)
Theorem identity_is_stored_from_every_record :
  forall (H : SessionHandler) (lr : LogRecord.t) (resource : JsVal) (w : World),
    (forall data t, keepsIdentity (handleUserPrompt data t)) ->
    (forall data t, keepsIdentity (handleApiRequest data t)) ->
    (forall data t, keepsIdentity (handleApiError data t)) ->
    (forall data t, keepsIdentity (handleToolResult data t)) ->
    validTime (eventTime lr) ->
    let attrs := extractAttributesArray (LogRecord.attributes lr) in
    let s := session w in
    let s' := session (fst (processEvent lr resource w)) in
    (forall field attribute,
        In (field, attribute) storedIdentity ->
        field s' = if truthy (field s) then field s
                   else if truthy (attr attrs attribute) then attr attrs attribute
                   else field s)
    /\ appVersion s' = appVersion s.
Proof.
  intros H lr resource w Hprompt Hrequest Herror Hresult Hvalid. cbv zeta.
  apply isoOf_valid in Hvalid as [iso Hiso]. unfold isoOf in Hiso.
  rewrite processEvent_run, Hiso. cbv zeta.
  set (attrs := extractAttributesArray (LogRecord.attributes lr)).
  assert (Hkept : forall field, In field identityFields ->
            field (session
                     (fst match EventProcessor.selectHandler (eventName lr) with
                          | Some handler =>
                              handler attrs (standardAttrsOf attrs (session w) (JStr iso))
                                (eventTime lr)
                                {| session := storeIdentity attrs (session w);
                                   langfuseCalls := langfuseCalls w |}
                          | None =>
                              ({| session := storeIdentity attrs (session w);
                                  langfuseCalls := langfuseCalls w |}, Normal JNull)
                          end))
            = field (storeIdentity attrs (session w))).
  { intros field Hfield.
    destruct (EventProcessor.selectHandler (eventName lr)) as [handler|] eqn:Hsel;
      [|reflexivity].
    destruct (event_handler_cases _ _ Hsel)
      as [[_ ->]|[[_ ->]|[[_ ->]|[[_ ->]|[_ ->]]]]].
    - unfold processUserPrompt. run. rewrite call_then_return_state.
      now apply Hprompt.
    - unfold processApiRequest. run. rewrite call_then_return_state.
      now apply Hrequest.
    - unfold processApiError. run. rewrite call_then_return_state.
      now apply Herror.
    - unfold processToolResult. run. rewrite call_then_return_state.
      now apply Hresult.
    - rewrite processToolDecision_run. reflexivity. }
  split.
  - intros field attribute Hin. rewrite Hkept.
    + now apply storeIdentity_value.
    + cbn [In storedIdentity] in Hin. cbn [In identityFields].
      destruct Hin as [[= <- _]|[[= <- _]|[[= <- _]|[[= <- _]|[]]]]]; tauto.
  - rewrite (Hkept appVersion) by (cbn [In identityFields]; tauto).
    now destruct (storeIdentity_fields attrs (session w))
      as (_ & _ & _ & _ & _ & Happ & _).
Qed.

Lemma identity_is_stored_from_every_record_witness :
  let lr := LogRecord.mk (JObj [("stringValue", JStr "claude_code.api_request")])
              sampleTimeUnixNano
              (Some [stringAttr "organization.id" "org-123";
                     stringAttr "app.version" "1.0.0"]) in
  let s' := session (fst (processEvent lr JNull mockWorld)) in
  organizationId s' = JStr "org-123" /\ appVersion s' = JUndefined.
Proof.
  cbv zeta.
  assert (Hkeeps : forall A (x : A), keepsIdentity (mret x : M A))
    by (intros A x w field _; reflexivity).
  assert (Hvalid : validTime (eventTime
                                (LogRecord.mk
                                   (JObj [("stringValue", JStr "claude_code.api_request")])
                                   sampleTimeUnixNano
                                   (Some [stringAttr "organization.id" "org-123";
                                          stringAttr "app.version" "1.0.0"]))))
    by (apply isoOf_valid; eexists; vm_compute; reflexivity).
  destruct (identity_is_stored_from_every_record mockSession _ JNull mockWorld
              (fun _ _ => Hkeeps _ _) (fun _ _ => Hkeeps _ _)
              (fun _ _ => Hkeeps _ _) (fun _ _ => Hkeeps _ _) Hvalid)
    as [Hstored Happ].
  split.
  - rewrite (Hstored organizationId "organization.id"%string)
      by (cbn [In storedIdentity]; tauto).
    vm_compute. reflexivity.
  - rewrite Happ. reflexivity.
Defined.
